(** * job-sphere: application lifecycle, form builder, company directory

    A shallow embedding of the REST controllers of the job-sphere backend
    (Express handlers over a Prisma/PostgreSQL store) and the properties of
    its application workflow, profile-completion computation, company
    directory and form builder.

    Conventions of the embedding.
    - A handler [h(req, res)] is a function from the request data it reads
      and the store to the response it sends and the store it leaves.
    - A table keyed by its primary key is a [gmap Z row]; the form-field
      and response tables, whose scan order is observable, are lists.
    - Route parameters are taken after [parseInt] on a numeric segment,
      except where the handler itself tests for [NaN].
    - Where the code rounds a quotient with [Math.round], JavaScript
      numbers are binary64 floats, the primitive floats of the kernel
      ([Binary64]).  Integer literals and the page count, a ceiling of a
      quotient of row counts, are in the rationals extended with [NaN] and
      the two infinities ([Js.Number]).
    - Strings are strings of ASCII characters other than NUL: on these the
      length is the JavaScript length, [trim] strips the ASCII white space
      and the case folding of PostgreSQL is ASCII case folding.  The
      properties of the company names assume it of the strings they take. *)

From Stdlib Require Import ZArith QArith Qround String Ascii List Bool Lia.
From Corelib Require PrimFloat FloatOps SpecFloat.
From stdpp Require Import base option list gmap fin_maps.
Import ListNotations.

Local Open Scope string_scope.
Local Open Scope Z_scope.

(** ** JavaScript values *)

Module Js.

(** A JavaScript number. *)
Inductive Number : Type :=
| NaN
| Infinity (negative : bool)
| Finite (q : Q).

Definition ofZ (z : Z) : Number := Finite (inject_Z z).
Definition ofNat (n : nat) : Number := ofZ (Z.of_nat n).

Definition isZero (q : Q) : bool := Qeq_bool q 0.
Definition isNeg (q : Q) : bool := negb (Qle_bool 0 q).

(** [x / y] *)
Definition div (x y : Number) : Number :=
  match x, y with
  | NaN, _ | _, NaN => NaN
  | Infinity _, Infinity _ => NaN
  | Infinity s, Finite b => Infinity (xorb s (isNeg b))
  | Finite _, Infinity _ => Finite 0
  | Finite a, Finite b =>
      if isZero b
      then (if isZero a then NaN else Infinity (isNeg a))
      else Finite (a / b)
  end.

(** A value of a JSON request body, as far as the handlers look at it. *)
Inductive Value : Type :=
| Undefined
| Null
| Boolean (b : bool)
| Num (z : Z)
| Str (s : string).

Definition truthy (v : Value) : bool :=
  match v with
  | Undefined | Null => false
  | Boolean b => b
  | Num z => negb (z =? 0)
  | Str s => negb (String.eqb s EmptyString)
  end.

(** [x || y] on values. *)
Definition or (x y : Value) : Value := if truthy x then x else y.

(** Truthiness of an optional id ([undefined], [null] and [0] are falsy). *)
Definition truthyId (o : option Z) : bool :=
  match o with
  | Some z => negb (z =? 0)
  | None => false
  end.

(** Truthiness of an optional string ([null] and the empty string are falsy). *)
Definition truthyString (o : option string) : bool :=
  match o with
  | Some s => negb (String.eqb s EmptyString)
  | None => false
  end.

End Js.

(** ** Binary64 numbers *)

Module Binary64.

(** A JavaScript number as the engine holds it. *)
Definition Number : Set := PrimFloat.float.

(** The number an integer converts to, rounded to the nearest double. *)
Definition ofZ (z : Z) : Number :=
  FloatOps.SF2Prim (SpecFloat.binary_normalize FloatOps.prec FloatOps.emax z 0 false).

Definition ofNat (n : nat) : Number := ofZ (Z.of_nat n).

(** [x / y], [x * y], [x - y] *)
Definition div (x y : Number) : Number := PrimFloat.div x y.
Definition mul (x y : Number) : Number := PrimFloat.mul x y.
Definition sub (x y : Number) : Number := PrimFloat.sub x y.

(** [x <= y] and [x === y] on numbers *)
Definition le (x y : Number) : bool := PrimFloat.leb x y.
Definition strictEquals (x y : Number) : bool := PrimFloat.eqb x y.

Definition isNaN (x : Number) : bool := PrimFloat.is_nan x.

(** Truthiness of a number: [NaN] and the two zeros are falsy. *)
Definition truthyNumber (x : Number) : bool :=
  negb (PrimFloat.is_nan x || PrimFloat.is_zero x).

(** [x || y] on numbers. *)
Definition orNumber (x y : Number) : Number :=
  if truthyNumber x then x else y.

(** [Math.round(x)]: the integer nearest to [x], a tie going to the larger
    one; an integer, an infinity or [NaN] is returned as it is, and a
    result of zero has the sign of [x]. *)
Definition Math_round (x : Number) : Number :=
  match FloatOps.Prim2SF x with
  | SpecFloat.S754_finite negative m e =>
      if 0 <=? e then x
      else
        let n := if negative then Z.neg m else Z.pos m in
        let z := (2 * n + 2 ^ (- e)) / 2 ^ (1 - e) in
        if z =? 0 then (if negative then PrimFloat.neg_zero else PrimFloat.zero)
        else ofZ z
  | _ => x
  end.

(** The integer a number is, if it is one. *)
Definition integerOf (x : Number) : option Z :=
  match FloatOps.Prim2SF x with
  | SpecFloat.S754_zero _ => Some 0
  | SpecFloat.S754_finite negative m e =>
      let n := if negative then Z.neg m else Z.pos m in
      if 0 <=? e then Some (n * 2 ^ e)
      else if Z.pos m mod 2 ^ (- e) =? 0 then Some (n / 2 ^ (- e))
      else None
  | _ => None
  end.

End Binary64.

(** ** HTTP responses *)

Record Response : Type := mkResponse {
  status : Z;
  success : bool;
  message : string
}.

Definition ok (code : Z) (msg : string) : Response := mkResponse code true msg.
Definition fail (code : Z) (msg : string) : Response := mkResponse code false msg.

(** ** The relational schema (prisma/migrations) *)

Module Schema.

Inductive ApplicationStatus : Type :=
| PENDING | REVIEWING | SHORTLISTED | INTERVIEWED
| ACCEPTED | REJECTED | WITHDRAWN.

Inductive JobStatus : Type := ACTIVE | COMPLETED | PAUSED.

Inductive CompanyRole : Type := ADMIN | HR_MANAGER | RECRUITER | HIRING_MANAGER.

Inductive FieldType : Type :=
| TEXT | NUMBER | EMAIL | PHONE | LOCATION | RESUME_URL | TEXTAREA
| SELECT | MULTISELECT | CHECKBOX | DATE | YEARS_OF_EXPERIENCE.

#[global] Instance ApplicationStatus_eq_dec : EqDecision ApplicationStatus.
Proof. solve_decision. Defined.
#[global] Instance JobStatus_eq_dec : EqDecision JobStatus.
Proof. solve_decision. Defined.
#[global] Instance CompanyRole_eq_dec : EqDecision CompanyRole.
Proof. solve_decision. Defined.
#[global] Instance FieldType_eq_dec : EqDecision FieldType.
Proof. solve_decision. Defined.

Record Job : Type := mkJob {
  job_companyId : Z;
  job_employerId : Z;
  job_status : JobStatus
}.

Record JobFormField : Type := mkField {
  field_id : Z;
  field_jobId : Z;
  field_label : string;
  field_fieldType : FieldType;
  field_isRequired : bool;
  field_isDefault : bool;
  field_order : Z;
  field_options : list string
}.

Record Application : Type := mkApplication {
  app_jobId : Z;
  app_seekerId : Z;
  app_status : ApplicationStatus;
  app_appliedAt : Z;
  app_updatedAt : Z
}.

Record ApplicationResponse : Type := mkAnswer {
  ans_applicationId : Z;
  ans_fieldId : Z;
  ans_answer : string
}.

Record Company : Type := mkCompany {
  company_name : string;
  company_industry : string;
  company_isActive : bool
}.

Record Employer : Type := mkEmployer {
  employer_userId : Z;
  employer_companyId : option Z;
  employer_role : CompanyRole;
  employer_joinedAt : option Z
}.

(** The store. [formFields] and [responses] are kept in scan order. *)
Record Db : Type := mkDb {
  jobs : gmap Z Job;
  formFields : list JobFormField;
  applications : gmap Z Application;
  responses : list ApplicationResponse;
  companies : gmap Z Company;
  employers : gmap Z Employer
}.

Definition setApplications (t : gmap Z Application) (db : Db) : Db :=
  mkDb (jobs db) (formFields db) t (responses db) (companies db) (employers db).

Definition setFormFields (t : list JobFormField) (db : Db) : Db :=
  mkDb (jobs db) t (applications db) (responses db) (companies db) (employers db).

Definition setResponses (t : list ApplicationResponse) (db : Db) : Db :=
  mkDb (jobs db) (formFields db) (applications db) t (companies db) (employers db).

Definition setCompanies (t : gmap Z Company) (db : Db) : Db :=
  mkDb (jobs db) (formFields db) (applications db) (responses db) t (employers db).

Definition setEmployers (t : gmap Z Employer) (db : Db) : Db :=
  mkDb (jobs db) (formFields db) (applications db) (responses db) (companies db) t.

(** The next value of a SERIAL primary key: past every stored key. *)
Definition nextKey {A} (t : gmap Z A) : Z :=
  1 + map_fold (fun k _ acc => Z.max k acc) 0 t.

Definition nextFieldId (t : list JobFormField) : Z :=
  1 + fold_right (fun f acc => Z.max (field_id f) acc) 0 t.

End Schema.
Import Schema.

(** ** controller/jobForJobseeker.controller.ts *)

Module JobSeekerController.

(** One entry of [responses] in the body, after [jobApplicationSchema]. *)
Record ResponseInput : Type := mkInput {
  fieldId : Z;
  answer : string
}.

Definition includes (x : Z) (l : list Z) : bool := existsb (Z.eqb x) l.

Definition quote : string := String (ascii_of_nat 34) EmptyString.

Definition requiredFieldMissing (label : string) : string :=
  String.append "Required field "
    (String.append quote (String.append label (String.append quote " is missing"))).

(** [prisma.application.findUnique({ where: { jobId_seekerId } })] *)
Definition findByJobAndSeeker (jobId seekerId : Z) (t : gmap Z Application)
  : option (Z * Application) :=
  List.find (fun kv => (app_jobId kv.2 =? jobId) && (app_seekerId kv.2 =? seekerId))
            (map_to_list t).

(** [job.formFields] of [include: { formFields: true }] *)
Definition formFieldsOf (jobId : Z) (db : Db) : list JobFormField :=
  List.filter (fun f => field_jobId f =? jobId) (formFields db).

(** The first required field that no response names. *)
Definition firstMissing (fields : list JobFormField) (rs : list ResponseInput)
  : option JobFormField :=
  let requiredFields := List.filter field_isRequired fields in
  let responseFieldIds := List.map fieldId rs in
  List.find (fun field => negb (includes (field_id field) responseFieldIds)) requiredFields.

(** What the store demands of the nested write: the (jobId, seekerId)
    pair is new (Application_jobId_seekerId_key), every response names a
    stored form field (ApplicationResponse_fieldId_fkey) and no two
    responses of the new application name the same field
    (ApplicationResponse_applicationId_fieldId_key). *)
Definition storeAccepts (jobId seekerId : Z) (rs : list ResponseInput) (db : Db) : bool :=
  bool_decide (findByJobAndSeeker jobId seekerId (applications db) = None)
  && forallb (fun r => includes (fieldId r) (List.map field_id (formFields db))) rs
  && bool_decide (NoDup (List.map fieldId rs)).

(** [prisma.application.create] with its nested [responses.create],
    one atomic write. *)
Definition createApplication (now jobId seekerId : Z) (rs : list ResponseInput) (db : Db)
  : option Db :=
  if storeAccepts jobId seekerId rs db then
    let id := nextKey (applications db) in
    let row := mkApplication jobId seekerId PENDING now now in
    let answers := List.map (fun r => mkAnswer id (fieldId r) (answer r)) rs in
    Some (setResponses (responses db ++ answers)
            (setApplications (<[id := row]> (applications db)) db))
  else None.

Definition applyForJob (now : Z) (jobSeekerId : option Z) (jobId : Z)
    (rs : list ResponseInput) (db : Db) : Response * Db :=
  if negb (Js.truthyId jobSeekerId) then
    (fail 400 "Job seeker profile not found. Please complete your profile first.", db)
  else
    let seekerId := default 0 jobSeekerId in
    match jobs db !! jobId with
    | Some job =>
        if bool_decide (job_status job = ACTIVE) then
          match findByJobAndSeeker jobId seekerId (applications db) with
          | Some _ => (fail 400 "You have already applied for this job", db)
          | None =>
              match firstMissing (formFieldsOf jobId db) rs with
              | Some field => (fail 400 (requiredFieldMissing (field_label field)), db)
              | None =>
                  match createApplication now jobId seekerId rs db with
                  | Some db' => (ok 201 "Application submitted successfully", db')
                  | None => (fail 500 "Failed to submit application", db)
                  end
              end
          end
        else (fail 404 "Job not found or no longer active", db)
    | None => (fail 404 "Job not found or no longer active", db)
    end.

Definition withdrawn (now : Z) (a : Application) : Application :=
  mkApplication (app_jobId a) (app_seekerId a) WITHDRAWN (app_appliedAt a) now.

Definition withdrawApplication (now : Z) (jobSeekerId : option Z) (applicationId : Z)
    (db : Db) : Response * Db :=
  if negb (Js.truthyId jobSeekerId) then
    (fail 400 "Job seeker profile not found. Please complete your profile first.", db)
  else
    let seekerId := default 0 jobSeekerId in
    match applications db !! applicationId with
    | Some application =>
        if (app_seekerId application =? seekerId)
           && bool_decide (app_status application ∈ [PENDING; REVIEWING])
        then (ok 200 "Application withdrawn successfully",
              setApplications
                (<[applicationId := withdrawn now application]> (applications db)) db)
        else (fail 404 "Application not found or cannot be withdrawn", db)
    | None => (fail 404 "Application not found or cannot be withdrawn", db)
    end.

End JobSeekerController.

(** ** controller/applicationHistory.controller.ts *)

Module ApplicationHistoryController.

(** The route runs behind [authJobSeeker] and [requireCompleteProfile];
    the handler reads [req.user!.jobSeekerId!] as present. *)
Definition withdrawApplication (now : Z) (jobSeekerId : Z) (applicationId : Z)
    (db : Db) : Response * Db :=
  match applications db !! applicationId with
  | Some existingApplication =>
      if app_seekerId existingApplication =? jobSeekerId then
        if bool_decide (app_status existingApplication = WITHDRAWN) then
          (fail 400 "Application is already withdrawn", db)
        else if bool_decide (app_status existingApplication = ACCEPTED)
                || bool_decide (app_status existingApplication = REJECTED) then
          (fail 400 "Cannot withdraw application that has been processed", db)
        else
          (ok 200 "Application withdrawn successfully",
           setApplications
             (<[applicationId := JobSeekerController.withdrawn now existingApplication]>
                (applications db)) db)
      else (fail 404 "Application not found or access denied", db)
  | None => (fail 404 "Application not found or access denied", db)
  end.

End ApplicationHistoryController.

(** ** controller/job.controller.ts *)

Module JobController.

(** One element of [fields] in the body of the form routes. *)
Record FieldInput : Type := mkFieldInput {
  f_id : option Z;
  f_label : option string;
  f_fieldType : option FieldType;
  f_isRequired : Js.Value;
  f_order : option Z;
  f_options : option (list string)
}.

Definition hasId (id : Z) (f : JobFormField) : bool := field_id f =? id.

(** Deleting the fields that satisfy [gone]; the rows of
    [ApplicationResponse] that name one of them go too (ON DELETE CASCADE). *)
Definition deleteWhere (gone : JobFormField -> bool) (db : Db) : Db :=
  let deleted := List.map field_id (List.filter gone (formFields db)) in
  setResponses
    (List.filter (fun a => negb (JobSeekerController.includes (ans_fieldId a) deleted))
                 (responses db))
    (setFormFields (List.filter (fun f => negb (gone f)) (formFields db)) db).

(** The filter of [deleteMany({ where: { jobId, isDefault: false } })] *)
Definition isCustomOf (jobId : Z) (f : JobFormField) : bool :=
  (field_jobId f =? jobId) && negb (field_isDefault f).

(** The row that [prisma.jobFormField.create] is asked to store; [None]
    when the client rejects the data (a missing label or type, or an
    [isRequired] that is not a boolean). *)
Definition createRow (id jobId orderElse : Z) (field : FieldInput) : option JobFormField :=
  match f_label field, f_fieldType field, Js.or (f_isRequired field) (Js.Boolean true) with
  | Some label, Some fieldType, Js.Boolean isRequired =>
      Some (mkField id jobId label fieldType isRequired false
              (if Js.truthyId (f_order field) then default 0 (f_order field) else orderElse)
              (default [] (f_options field)))
  | _, _, _ => None
  end.

(** [prisma.jobFormField.create]; the job must exist (JobFormField_jobId_fkey). *)
Definition create (jobId orderElse : Z) (field : FieldInput) (db : Db) : option Db :=
  if bool_decide (is_Some (jobs db !! jobId)) then
    match createRow (nextFieldId (formFields db)) jobId orderElse field with
    | Some row => Some (setFormFields (formFields db ++ [row]) db)
    | None => None
    end
  else None.

(** [Promise.all(fields.map((field, index) => create ...))]: every create
    is issued; the flag tells whether all of them were stored. *)
Fixpoint createEach (jobId index : Z) (fields : list FieldInput) (db : Db) : bool * Db :=
  match fields with
  | [] => (true, db)
  | field :: rest =>
      match create jobId (index + 100) field db with
      | Some db' => createEach jobId (index + 1) rest db'
      | None => (false, (createEach jobId (index + 1) rest db).2)
      end
  end.

Definition createJobForm (jobId : Z) (fields : option (list FieldInput)) (db : Db)
  : Response * Db :=
  match fields with
  | None => (fail 400 "Fields array is required", db)
  | Some fields =>
      let db1 := deleteWhere (isCustomOf jobId) db in
      let '(stored, db2) := createEach jobId 0 fields db1 in
      if stored then (ok 201 "Job form fields created successfully", db2)
      else (fail 500 "Internal server error", db2)
  end.

(** The data of [prisma.jobFormField.update] as a change of the stored
    row; an [undefined] entry leaves its column alone, and [None] is for
    data the client rejects (an [isRequired] that is neither a boolean
    nor [undefined]). *)
Definition updateData (field : FieldInput) : option (JobFormField -> JobFormField) :=
  let updated isRequired row :=
    mkField (field_id row) (field_jobId row)
      (default (field_label row) (f_label field))
      (default (field_fieldType row) (f_fieldType field))
      (default (field_isRequired row) isRequired) (field_isDefault row)
      (default (field_order row) (f_order field))
      (default [] (f_options field)) in
  match f_isRequired field with
  | Js.Undefined => Some (updated None)
  | Js.Boolean b => Some (updated (Some b))
  | _ => None
  end.

(** [prisma.jobFormField.update({ where: { id } })]; the row must exist. *)
Definition update (id : Z) (field : FieldInput) (db : Db) : option Db :=
  match List.find (hasId id) (formFields db), updateData field with
  | Some _, Some change =>
      Some (setFormFields
              (List.map (fun f => if hasId id f then change f else f) (formFields db)) db)
  | _, _ => None
  end.

Definition upsert (jobId : Z) (field : FieldInput) (db : Db) : option Db :=
  if Js.truthyId (f_id field)
  then update (default 0 (f_id field)) field db
  else create jobId 0 field db.

Fixpoint upsertEach (jobId : Z) (fields : list FieldInput) (db : Db) : bool * Db :=
  match fields with
  | [] => (true, db)
  | field :: rest =>
      match upsert jobId field db with
      | Some db' => upsertEach jobId rest db'
      | None => (false, (upsertEach jobId rest db).2)
      end
  end.

Definition updateJobForm (jobId : Z) (fields : option (list FieldInput)) (db : Db)
  : Response * Db :=
  match fields with
  | None => (fail 400 "Fields array is required", db)
  | Some fields =>
      let '(stored, db') := upsertEach jobId fields db in
      if stored then (ok 200 "Job form updated successfully", db')
      else (fail 500 "Internal server error", db')
  end.

(** The handler reads [req.params.fieldId] only; [user] is what the
    middleware attached to the request (the caller's employer id, if any). *)
Definition deleteJobFormField (user : option Z) (fieldId : Z) (db : Db) : Response * Db :=
  match List.find (hasId fieldId) (formFields db) with
  | None => (fail 404 "Form field not found", db)
  | Some field =>
      if field_isDefault field then
        (fail 400 "Cannot delete default form fields", db)
      else
        (ok 200 "Form field deleted successfully", deleteWhere (hasId fieldId) db)
  end.

Definition allowList : list string :=
  ["PENDING"; "REVIEWING"; "SHORTLISTED"; "INTERVIEWED"; "ACCEPTED"; "REJECTED"].

(** The enum member a status string denotes. *)
Definition statusOfString (s : string) : option ApplicationStatus :=
  if String.eqb s "PENDING" then Some PENDING
  else if String.eqb s "REVIEWING" then Some REVIEWING
  else if String.eqb s "SHORTLISTED" then Some SHORTLISTED
  else if String.eqb s "INTERVIEWED" then Some INTERVIEWED
  else if String.eqb s "ACCEPTED" then Some ACCEPTED
  else if String.eqb s "REJECTED" then Some REJECTED
  else if String.eqb s "WITHDRAWN" then Some WITHDRAWN
  else None.

(** [[...].includes(status)] *)
Definition allowed (status : Js.Value) : bool :=
  match status with
  | Js.Str s => existsb (String.eqb s) allowList
  | _ => false
  end.

Definition withStatus (now : Z) (s : ApplicationStatus) (a : Application) : Application :=
  mkApplication (app_jobId a) (app_seekerId a) s (app_appliedAt a) now.

Definition updateApplicationStatus (now applicationId : Z) (status : Js.Value) (db : Db)
  : Response * Db :=
  if negb (Js.truthy status) || negb (allowed status) then
    (fail 400 "Valid status is required", db)
  else
    match status, applications db !! applicationId with
    | Js.Str s, Some application =>
        match statusOfString s with
        | Some st =>
            (ok 200 (String.append "Application status updated to " s),
             setApplications
               (<[applicationId := withStatus now st application]> (applications db)) db)
        | None => (fail 500 "Internal server error", db)
        end
    | _, _ => (fail 500 "Internal server error", db)
    end.

(** [createDefaultJobFormFields]: the five seeded fields, in order. *)
Definition defaultFields (jobId firstId : Z) : list JobFormField :=
  [ mkField firstId jobId "Full Name" TEXT true true 1 [];
    mkField (firstId + 1) jobId "Email Address" EMAIL true true 2 [];
    mkField (firstId + 2) jobId "Phone Number" PHONE true true 3 [];
    mkField (firstId + 3) jobId "Resume URL" RESUME_URL true true 4 [];
    mkField (firstId + 4) jobId "Years of Experience" YEARS_OF_EXPERIENCE true true 5 [] ].

Definition createDefaultJobFormFields (jobId : Z) (db : Db) : Db :=
  setFormFields
    (formFields db ++ defaultFields jobId (nextFieldId (formFields db))) db.

End JobController.

(** ** controller/company.controller.ts *)

Module CompanyController.

Definition isSpace (c : ascii) : bool :=
  let n := nat_of_ascii c in
  ((n =? 32) || ((9 <=? n) && (n <=? 13)))%nat.

Fixpoint trimStart (s : string) : string :=
  match s with
  | String c rest => if isSpace c then trimStart rest else s
  | EmptyString => EmptyString
  end.

Fixpoint trimEnd (s : string) : string :=
  match s with
  | String c rest =>
      let rest' := trimEnd rest in
      if isSpace c && String.eqb rest' EmptyString then EmptyString else String c rest'
  | EmptyString => EmptyString
  end.

(** [s.trim()] *)
Definition trim (s : string) : string := trimEnd (trimStart s).

Definition lowerChar (c : ascii) : ascii :=
  let n := nat_of_ascii c in
  if ((65 <=? n) && (n <=? 90))%nat then ascii_of_nat (n + 32) else c.

Fixpoint lower (s : string) : string :=
  match s with
  | String c rest => String (lowerChar c) (lower rest)
  | EmptyString => EmptyString
  end.

(** Every character is an ASCII character other than NUL. *)
Definition asciiText (s : string) : bool :=
  forallb (fun c => let n := nat_of_ascii c in (1 <=? n) && (n <=? 127))%nat
          (list_ascii_of_string s).

(** [matches] holds of [text] or of what is left of it after some of its
    first characters. *)
Fixpoint somewhere (matches : string -> bool) (text : string) : bool :=
  matches text
  || match text with
     | EmptyString => false
     | String _ rest => somewhere matches rest
     end.

(** [text LIKE pattern] in PostgreSQL: the pattern has to match all of
    the text; ["%"] stands for any run of characters, ["_"] for any one
    character, and a backslash makes the character after it stand for
    itself. *)
Fixpoint like (pattern text : string) {struct pattern} : bool :=
  match pattern with
  | EmptyString => match text with EmptyString => true | _ => false end
  | String c rest =>
      if Ascii.eqb c "%"%char then somewhere (like rest) text
      else if Ascii.eqb c "_"%char then
        match text with EmptyString => false | String _ t' => like rest t' end
      else if Ascii.eqb c "\"%char then
        match rest, text with
        | String escaped rest', String x t' => Ascii.eqb x escaped && like rest' t'
        | _, _ => false
        end
      else
        match text with
        | String x t' => Ascii.eqb x c && like rest t'
        | EmptyString => false
        end
  end.

(** No backslash of the pattern is left without the character it
    escapes.  PostgreSQL raises an error when its matcher comes to such a
    backslash. *)
Fixpoint wellEscaped (pattern : string) : bool :=
  match pattern with
  | EmptyString => true
  | String c rest =>
      if Ascii.eqb c "\"%char then
        match rest with EmptyString => false | String _ rest' => wellEscaped rest' end
      else wellEscaped rest
  end.


(** The filter [{ equals: x, mode: 'insensitive' }] on a stored name:
    Prisma sends [name ILIKE x], with [x] as the pattern, and PostgreSQL
    matches the two in lower case. *)
Definition ilike (stored x : string) : bool := like (lower x) (lower stored).

(** What a [findFirst] gives: a row, no row, or the error of the query. *)
Inductive Found (A : Type) : Type :=
| Row (a : A)
| NoRow
| QueryFailed.
Arguments Row {A} a.
Arguments NoRow {A}.
Arguments QueryFailed {A}.

Definition between (lo hi : nat) (s : string) : bool :=
  ((lo <=? String.length s) && (String.length s <=? hi))%nat.

(** The body of a create request; the optional [website],
    [profilePicture] and [size] entries are absent. *)
Record CompanyInput : Type := mkCompanyInput {
  name : string;
  description : option string;
  industry : string;
  location : option string;
  foundedYear : option Z
}.

Definition optional {A} (check : A -> bool) (o : option A) : bool :=
  match o with Some a => check a | None => true end.

(** The strings of the body are ASCII text. *)
Definition asciiInput (body : CompanyInput) : bool :=
  asciiText (name body) && optional asciiText (description body)
  && asciiText (industry body) && optional asciiText (location body).

(** The stored names are ASCII text. *)
Definition asciiNames (t : gmap Z Company) : bool :=
  forallb (fun kv => asciiText (company_name kv.2)) (map_to_list t).

(** [createCompanySchema.safeParse(req.body).success] *)
Definition createCompanySchema (currentYear : Z) (body : CompanyInput) : bool :=
  between 2 100 (name body)
  && optional (between 10 1000) (description body)
  && between 2 100 (industry body)
  && optional (between 2 100) (location body)
  && optional (fun y => (1800 <=? y) && (y <=? currentYear)) (foundedYear body).

(** [prisma.company.findFirst] on an active company of that name.  A
    pattern that is not well escaped is taken to fail the query; whether
    PostgreSQL's matcher comes to the loose backslash depends on the rows
    it is run on. *)
Definition findActiveByName (x : string) (t : gmap Z Company)
  : Found (Z * Company) :=
  if wellEscaped (lower x) then
    match List.find (fun kv => ilike (company_name kv.2) x && company_isActive kv.2)
                    (map_to_list t) with
    | Some kv => Row kv
    | None => NoRow
    end
  else QueryFailed.

(** The [suggestion] entry of the 409 body. *)
Record Suggestion : Type := mkSuggestion {
  suggestion_id : Z;
  suggestion_name : string
}.

Definition joined (now companyId : Z) (role : CompanyRole) (e : Employer) : Employer :=
  mkEmployer (employer_userId e) (Some companyId) role (Some now).

(** The transaction of [createCompany]: the company row (its name must be
    new, Company_name_key) and the employer update, both or neither. *)
Definition createTransaction (now employerId : Z) (body : CompanyInput) (db : Db)
  : option Db :=
  let stored := trim (name body) in
  if bool_decide (map_Forall (fun _ c => company_name c ≠ stored) (companies db)) then
    match employers db !! employerId with
    | Some e =>
        let id := nextKey (companies db) in
        Some (setEmployers (<[employerId := joined now id ADMIN e]> (employers db))
                (setCompanies
                   (<[id := mkCompany stored (industry body) true]> (companies db)) db))
    | None => None
    end
  else None.

Definition createCompany (now currentYear : Z) (employerId : option Z)
    (body : CompanyInput) (db : Db) : Response * option Suggestion * Db :=
  if negb (Js.truthyId employerId) then
    (fail 401 "Employer profile required", None, db)
  else if negb (createCompanySchema currentYear body) then
    (fail 400 "Validation failed", None, db)
  else
    match findActiveByName (trim (name body)) (companies db) with
    | Row (id, existingCompany) =>
        (fail 409 "A company with this name already exists",
         Some (mkSuggestion id (company_name existingCompany)), db)
    | NoRow =>
        match createTransaction now (default 0 employerId) body db with
        | Some db' => (ok 201 "Company profile created successfully", None, db')
        | None => (fail 500 "Internal server error", None, db)
        end
    | QueryFailed => (fail 500 "Internal server error", None, db)
    end.

(** [companyId] is [parseInt(req.params.companyId)], [None] for [NaN]. *)
Definition selectExistingCompany (now : Z) (employerId companyId : option Z) (db : Db)
  : Response * Db :=
  if negb (Js.truthyId companyId) then
    (fail 400 "Valid company ID is required", db)
  else if negb (Js.truthyId employerId) then
    (fail 401 "Employer profile required", db)
  else
    let id := default 0 companyId in
    match companies db !! id with
    | Some company =>
        if company_isActive company then
          match employers db !! default 0 employerId with
          | Some e =>
              (ok 200 (String.append "Successfully joined " (company_name company)),
               setEmployers
                 (<[default 0 employerId := joined now id (employer_role e) e]>
                    (employers db)) db)
          | None => (fail 500 "Internal server error", db)
          end
        else (fail 404 "Company not found or inactive", db)
    | None => (fail 404 "Company not found or inactive", db)
    end.

End CompanyController.

(** ** controller/jobseeker.controller.ts *)

Module JobSeekerProfile.

(** The [jobSeeker] relation as the query selects it. *)
Record JobSeekerRow : Type := mkSeeker {
  skills : list string;
  education : list Z;
  experience : list Z;
  projects : list Z;
  preferences : option Z
}.

Record User : Type := mkUser {
  name : string;
  phone : option string;
  location : option string;
  jobSeeker : option JobSeekerRow
}.

Record ProfileStatus : Type := mkStatus {
  basicDetails : bool;
  jobSeekerProfile : bool;
  hasEducation : bool;
  hasExperience : bool;
  hasProjects : bool;
  hasPreferences : bool;
  nextStep : string;
  completionPercentage : Binary64.Number;
  isComplete : bool;
  sectionsCompleted : nat;
  totalSections : nat
}.

Definition nonEmpty {A} (l : list A) : bool :=
  match l with [] => false | _ => true end.

Definition profileStatus (user : User) : ProfileStatus :=
  let basicDetailsComplete :=
    Js.truthyString (Some (name user)) && Js.truthyString (phone user)
    && Js.truthyString (location user) in
  let jobSeekerProfileComplete :=
    match jobSeeker user with Some js => nonEmpty (skills js) | None => false end in
  let hasEducation :=
    match jobSeeker user with Some js => nonEmpty (education js) | None => false end in
  let hasExperience :=
    match jobSeeker user with Some js => nonEmpty (experience js) | None => false end in
  let hasProjects :=
    match jobSeeker user with Some js => nonEmpty (projects js) | None => false end in
  let hasPreferences :=
    match jobSeeker user with Some js => bool_decide (is_Some (preferences js)) | None => false end in
  let profileSections :=
    [basicDetailsComplete; jobSeekerProfileComplete; hasEducation; hasExperience;
     hasProjects; hasPreferences] in
  let nextStep :=
    if negb basicDetailsComplete then "basic_details"
    else if negb jobSeekerProfileComplete then "job_seeker_profile"
    else if negb hasEducation then "education"
    else if negb hasExperience then "experience"
    else if negb hasProjects then "projects"
    else if negb hasPreferences then "preferences"
    else "complete" in
  let completedSections := length (List.filter id profileSections) in
  let totalSections := length profileSections in
  let completionPercentage :=
    Binary64.Math_round
      (Binary64.mul
         (Binary64.div (Binary64.ofNat completedSections) (Binary64.ofNat totalSections))
         (Binary64.ofZ 100)) in
  mkStatus basicDetailsComplete jobSeekerProfileComplete hasEducation hasExperience
    hasProjects hasPreferences nextStep completionPercentage
    (Binary64.strictEquals completionPercentage (Binary64.ofZ 100))
    completedSections totalSections.

(** [reqUser] is [req.user.id] when the request is authenticated. *)
Definition checkProfileStatus (reqUser : option Z) (users : gmap Z User)
  : Response * option ProfileStatus :=
  match reqUser with
  | None => (fail 401 "Authentication required", None)
  | Some id =>
      match users !! id with
      | None => (fail 404 "User not found", None)
      | Some user => (mkResponse 200 true EmptyString, Some (profileStatus user))
      end
  end.

End JobSeekerProfile.

(** ** controller/employer.controller.ts *)

Module EmployerProfile.

Record EmployerRow : Type := mkEmployerRow {
  companyId : option Z
}.

Record User : Type := mkUser {
  name : string;
  phone : option string;
  location : option string;
  employer : option EmployerRow
}.

Record ProfileStatus : Type := mkStatus {
  basicDetailsComplete : bool;
  employerProfileComplete : bool;
  companySelected : bool;
  nextStep : string;
  completionPercentage : Js.Number
}.

Definition profileStatus (user : User) : ProfileStatus :=
  let basicDetailsComplete :=
    Js.truthyString (Some (name user)) && Js.truthyString (phone user)
    && Js.truthyString (location user) in
  let employerProfileComplete := bool_decide (is_Some (employer user)) in
  let companySelected :=
    match employer user with Some e => Js.truthyId (companyId e) | None => false end in
  let '(nextStep, completionPercentage) :=
    if negb basicDetailsComplete then ("basic_details", Js.ofZ 0)
    else if negb employerProfileComplete then ("employer_profile", Js.ofZ 33)
    else if negb companySelected then ("company_selection", Js.ofZ 66)
    else ("complete", Js.ofZ 100) in
  mkStatus basicDetailsComplete employerProfileComplete companySelected
    nextStep completionPercentage.

Definition checkProfileStatus (reqUser : option Z) (users : gmap Z User)
  : Response * option ProfileStatus :=
  match reqUser with
  | None => (fail 401 "Authentication required", None)
  | Some id =>
      match users !! id with
      | None => (fail 404 "User not found", None)
      | Some user => (mkResponse 200 true EmptyString, Some (profileStatus user))
      end
  end.

End EmployerProfile.

(** ** controller/employerDashboard.controller.ts *)

Module EmployerDashboard.

Record StatusBucket : Type := mkBucket {
  bucket_status : ApplicationStatus;
  bucket_count : nat;
  bucket_percentage : Binary64.Number
}.

Definition allStatuses : list ApplicationStatus :=
  [PENDING; REVIEWING; SHORTLISTED; INTERVIEWED; ACCEPTED; REJECTED; WITHDRAWN].

(** The filter [{ job: { employerId, companyId } }] *)
Definition ofEmployer (employerId companyId : Z) (db : Db) (a : Application) : bool :=
  match jobs db !! app_jobId a with
  | Some job => (job_employerId job =? employerId) && (job_companyId job =? companyId)
  | None => false
  end.

Definition selected (employerId companyId : Z) (db : Db) : list Application :=
  List.filter (ofEmployer employerId companyId db)
              (List.map snd (map_to_list (applications db))).

(** [prisma.application.count] *)
Definition totalApplicants (employerId companyId : Z) (db : Db) : nat :=
  length (selected employerId companyId db).

Definition countOf (s : ApplicationStatus) (l : list Application) : nat :=
  length (List.filter (fun a => bool_decide (app_status a = s)) l).

(** [prisma.application.groupBy({ by: ["status"], _count })]: one row for
    each status that occurs. *)
Definition applicationStatusStats (employerId companyId : Z) (db : Db)
  : list (ApplicationStatus * nat) :=
  List.filter (fun stat => negb (Nat.eqb stat.2 0))
    (List.map (fun s => (s, countOf s (selected employerId companyId db))) allStatuses).

(** [Math.round((count / totalApplicants) * 100) || 0] *)
Definition percentage (count total : nat) : Binary64.Number :=
  Binary64.orNumber
    (Binary64.Math_round
       (Binary64.mul (Binary64.div (Binary64.ofNat count) (Binary64.ofNat total))
          (Binary64.ofZ 100)))
    (Binary64.ofZ 0).

Definition statusDistribution (employerId companyId : Z) (db : Db) : list StatusBucket :=
  List.map
    (fun stat => mkBucket stat.1 stat.2
                   (percentage stat.2 (totalApplicants employerId companyId db)))
    (applicationStatusStats employerId companyId db).

(** The [applicationStats] entry of the dashboard; the handler's other
    aggregates do not enter it. *)
Definition getDashboardStats (employerId companyId : option Z) (db : Db)
  : Response * option (list StatusBucket * nat) :=
  if negb (Js.truthyId employerId) || negb (Js.truthyId companyId) then
    (fail 400 "Employer ID and Company ID are required", None)
  else
    let e := default 0 employerId in
    let c := default 0 companyId in
    (ok 200 "Dashboard statistics retrieved successfully",
     Some (statusDistribution e c db, totalApplicants e c db)).

End EmployerDashboard.

(** ** Notions the properties are stated with *)

Module Spec.

(** [(jobId, seekerId)] of an application. *)
Definition pairOf (a : Application) : Z * Z := (app_jobId a, app_seekerId a).

(** No two applications share their [(jobId, seekerId)]. *)
Definition uniquePairs (t : gmap Z Application) : Prop :=
  NoDup ((fun kv => pairOf kv.2) <$> map_to_list t).

(** An application of [seekerId] to [jobId] is stored. *)
Definition applied (jobId seekerId : Z) (db : Db) : Prop :=
  exists id a, applications db !! id = Some a /\ pairOf a = (jobId, seekerId).

(** [round (100 * k / n)], halves going up, for [0 < n]. *)
Definition roundedShare (k n : Z) : Z := (200 * k + n) / (2 * n).

Definition terminal (s : ApplicationStatus) : Prop :=
  s ∈ [ACCEPTED; REJECTED; WITHDRAWN].

(** A required field of the job that no response names. *)
Definition missing (rs : list JobSeekerController.ResponseInput) (jobId : Z)
    (f : JobFormField) : Prop :=
  field_jobId f = jobId /\ field_isRequired f = true
  /\ ~ In (field_id f) (List.map JobSeekerController.fieldId rs).

(** [f] is the first field of [fields], in their order, that is missing. *)
Definition firstMissingIs (rs : list JobSeekerController.ResponseInput) (jobId : Z)
    (fields : list JobFormField) (f : JobFormField) : Prop :=
  exists before after,
    fields = (before ++ f :: after)%list /\ missing rs jobId f
    /\ forall g, In g before -> ~ missing rs jobId g.

(** The responses can be stored with a new application: no field is
    answered twice and every answered field is a stored form field. *)
Definition storable (rs : list JobSeekerController.ResponseInput) (db : Db) : Prop :=
  NoDup (List.map JobSeekerController.fieldId rs)
  /\ forall r, In r rs ->
       exists f, In f (formFields db) /\ field_id f = JobSeekerController.fieldId r.

End Spec.

(** ** Relations between a store and its successor *)

(** The test of [firstMissing], on one field of the table. *)
Definition isMissing (rs : list JobSeekerController.ResponseInput) (jobId : Z)
    (f : JobFormField) : bool :=
  (field_jobId f =? jobId)
  && (field_isRequired f
      && negb (JobSeekerController.includes (field_id f)
                 (List.map JobSeekerController.fieldId rs))).

(** The rows after a create are the rows before and at most one more,
    which is required and not default. *)
Definition grown (jobId : Z) (db db' : Db) : Prop :=
  (forall f, In f (formFields db) -> In f (formFields db'))
  /\ (forall f, In f (formFields db') ->
        In f (formFields db)
        \/ (field_isRequired f = true /\ field_isDefault f = false /\ field_jobId f = jobId
            /\ forall g, In g (formFields db) -> field_id g < field_id f)).

(** A row and what [updateJobForm] makes of it agree on the columns an
    update does not write. *)
Definition sameIdentity (f f' : JobFormField) : Prop :=
  field_id f' = field_id f /\ field_jobId f' = field_jobId f
  /\ field_isDefault f' = field_isDefault f.

(** [db'] holds a row for each row of [db], with the same identity, and
    the row itself when [touched] does not hold of its id. *)
Definition revised (touched : Z -> Prop) (db db' : Db) : Prop :=
  (forall f, In f (formFields db) ->
     exists f', In f' (formFields db') /\ sameIdentity f f')
  /\ (forall f, In f (formFields db) -> ~ touched (field_id f) -> In f (formFields db')).

(** The ids that the fields of a request name. *)
Definition named (fields : list JobController.FieldInput) (id : Z) : Prop :=
  exists field, In field fields /\ JobController.f_id field = Some id.

(** ** Sample stores and requests *)

(** A store with one application, of seeker 7 to job 1, in a given status. *)
Definition oneApplication (s : ApplicationStatus) : Db :=
  mkDb {[1 := mkJob 1 1 ACTIVE]} (JobController.defaultFields 1 1)
       {[1 := mkApplication 1 7 s 100 100]} [] ∅ ∅.

(** A store on which seeker 7 can apply to job 1: the job with its five
    seeded fields and no application yet. *)
Definition openJob : Db :=
  mkDb {[1 := mkJob 1 1 ACTIVE]} (JobController.defaultFields 1 1) ∅ [] ∅ ∅.

Definition fiveAnswers : list JobSeekerController.ResponseInput :=
  [ JobSeekerController.mkInput 1 "Ann Lee";
    JobSeekerController.mkInput 2 "ann@example.org";
    JobSeekerController.mkInput 3 "555 0100";
    JobSeekerController.mkInput 4 "https://example.org/cv.pdf";
    JobSeekerController.mkInput 5 "4" ].


Definition request (name : string) : CompanyController.CompanyInput :=
  CompanyController.mkCompanyInput name None "Software" None None.

(** Two active companies and an inactive one; employer 9 belongs to
    company 5. *)
Definition twoCompanies : Db :=
  mkDb ∅ [] ∅ []
       {[5 := mkCompany "Acme" "Software" true; 6 := mkCompany "Nimbus" "Cloud" true;
         7 := mkCompany "Gone" "Retail" false]}
       {[9 := mkEmployer 3 (Some 5) HR_MANAGER (Some 50);
         10 := mkEmployer 4 (Some 5) ADMIN (Some 40)]}.

(** One job of employer 9 in company 5 and forty applications to it, the
    first 23 SHORTLISTED and the other 17 PENDING. *)
Definition fortyApplications : Db :=
  mkDb {[1 := mkJob 5 9 ACTIVE]} []
       (list_to_map
          (List.map
             (fun i => (i, mkApplication 1 i (if i <=? 23 then SHORTLISTED else PENDING)
                             100 100))
             (seqZ 1 40)))
       [] ∅ ∅.

(** * Accounts, middleware and the remaining handlers *)

From Stdlib Require Import Sorted DecimalString.

(** ** The User and JobSeeker tables *)

Module Accounts.

Inductive Role : Type := JOB_SEEKER | EMPLOYER.

#[global] Instance Role_eq_dec : EqDecision Role.
Proof. solve_decision. Defined.

Record User : Type := mkUser {
  user_name : string;
  user_email : string;
  user_password : string;
  user_phone : option string;
  user_location : option string;
  user_role : Role
}.

Record JobSeeker : Type := mkJobSeeker {
  seeker_userId : Z;
  seeker_skills : list string
}.

Record Education : Type := mkEducation {
  edu_seekerId : Z;
  edu_institution : string;
  edu_degree : string
}.

(** The tables of accounts and profiles beside the store of jobs and
    applications. Of a row of Experience, Project or Preferences only the
    seeker it belongs to is kept. *)
Record Store : Type := mkStore {
  users : gmap Z User;
  jobSeekers : gmap Z JobSeeker;
  education : gmap Z Education;
  experience : gmap Z Z;
  projects : gmap Z Z;
  preferences : gmap Z Z;
  tables : Db
}.

Definition setUsers (t : gmap Z User) (st : Store) : Store :=
  mkStore t (jobSeekers st) (education st) (experience st) (projects st) (preferences st)
    (tables st).

Definition setJobSeekers (t : gmap Z JobSeeker) (st : Store) : Store :=
  mkStore (users st) t (education st) (experience st) (projects st) (preferences st)
    (tables st).

Definition setEducation (t : gmap Z Education) (st : Store) : Store :=
  mkStore (users st) (jobSeekers st) t (experience st) (projects st) (preferences st)
    (tables st).

Definition setTables (db : Db) (st : Store) : Store :=
  mkStore (users st) (jobSeekers st) (education st) (experience st) (projects st)
    (preferences st) db.

(** A handler of the store of jobs run on the whole store. *)
Definition onTables (handler : Db -> Response * Db) (st : Store) : Response * Store :=
  let out := handler (tables st) in (out.1, setTables out.2 st).

(** [prisma.employer.findUnique({ where: { userId } })] *)
Definition employerOfUser (userId : Z) (t : gmap Z Employer) : option (Z * Employer) :=
  List.find (fun kv => employer_userId kv.2 =? userId) (map_to_list t).

(** [prisma.jobSeeker.findUnique({ where: { userId } })] *)
Definition seekerOfUser (userId : Z) (t : gmap Z JobSeeker) : option (Z * JobSeeker) :=
  List.find (fun kv => seeker_userId kv.2 =? userId) (map_to_list t).

End Accounts.

(** ** middleware/auth.middleware.ts *)

Module AuthMiddleware.
Import Accounts.

(** What [jwt.verify] makes of the request's token. *)
Inductive Token : Type :=
| NoToken
| InvalidToken
| Verified (id : Z) (role : Role).

(** [req.user], as far as the handlers read it. *)
Record ReqUser : Type := mkReqUser {
  req_id : Z;
  req_role : Role;
  req_employerId : option Z;
  req_jobSeekerId : option Z;
  req_companyId : option Z
}.

(** A middleware answers, or calls [next()] with what it attached. *)
Definition Outcome (A : Type) : Type := Response + A.

Definition authenticate (token : Token) (st : Store) : Outcome ReqUser :=
  match token with
  | NoToken => inl (fail 401 "Access denied. No token provided.")
  | InvalidToken => inl (fail 401 "Invalid token.")
  | Verified id role =>
      match users st !! id with
      | None => inl (fail 404 "User not found.")
      | Some user =>
          if bool_decide (user_role user = role)
          then inr (mkReqUser id (user_role user) None None None)
          else inl (fail 401 "Invalid token: Role mismatch.")
      end
  end.

(** [req.user] as [authEmployer] builds it: [employerId] is
    [user.employer?.id] and [companyId] is
    [user.employer?.companyId || undefined]. *)
Definition employerRequest (id : Z) (st : Store) : ReqUser :=
  let employer := employerOfUser id (employers (tables st)) in
  mkReqUser id EMPLOYER (fst <$> employer) None
    (match employer with
     | Some (_, e) =>
         if Js.truthyId (employer_companyId e) then employer_companyId e else None
     | None => None
     end).

Definition authEmployer (token : Token) (st : Store) : Outcome ReqUser :=
  match token with
  | NoToken => inl (fail 401 "Access denied. No token provided.")
  | InvalidToken => inl (fail 401 "Invalid token.")
  | Verified id role =>
      if bool_decide (role = EMPLOYER) then
        match users st !! id with
        | None => inl (fail 404 "User not found.")
        | Some user =>
            if bool_decide (user_role user = EMPLOYER) then inr (employerRequest id st)
            else inl (fail 403 "Access denied: User is not an employer.")
        end
      else inl (fail 403 "Access denied: Not an employer.")
  end.

(** [req.user] as [authJobSeeker] builds it: [jobSeekerId] is
    [user.jobSeeker?.id]. *)
Definition seekerRequest (id : Z) (st : Store) : ReqUser :=
  mkReqUser id JOB_SEEKER None (fst <$> seekerOfUser id (jobSeekers st)) None.

Definition authJobSeeker (token : Token) (st : Store) : Outcome ReqUser :=
  match token with
  | NoToken => inl (fail 401 "Access denied. No token provided.")
  | InvalidToken => inl (fail 401 "Invalid token.")
  | Verified id role =>
      if bool_decide (role = JOB_SEEKER) then
        match users st !! id with
        | None => inl (fail 404 "User not found.")
        | Some user =>
            if bool_decide (user_role user = JOB_SEEKER) then
              inr (seekerRequest id st)
            else inl (fail 403 "Access denied: User is not a job seeker.")
        end
      else inl (fail 403 "Access denied: Not a job seeker.")
  end.

Definition requireCompleteProfile (user : option ReqUser) (st : Store) : Outcome unit :=
  match user with
  | None => inl (fail 401 "Authentication required")
  | Some u =>
      match req_role u with
      | EMPLOYER =>
          match employerOfUser (req_id u) (employers (tables st)) with
          | Some _ => inr tt
          | None => inl (fail 400 "Please complete your employer profile first")
          end
      | JOB_SEEKER =>
          match seekerOfUser (req_id u) (jobSeekers st) with
          | Some _ => inr tt
          | None => inl (fail 400 "Please complete your job seeker profile first")
          end
      end
  end.

(** [employer.company] of the query: the row [companyId] points to. *)
Definition companyOf (e : Employer) (db : Db) : option Company :=
  match employer_companyId e with
  | Some c => companies db !! c
  | None => None
  end.

Definition requireCompany (user : option ReqUser) (db : Db) : Outcome unit :=
  match user with
  | None => inl (fail 401 "Authentication required")
  | Some u =>
      if bool_decide (req_role u = EMPLOYER) then
        match employerOfUser (req_id u) (employers db) with
        | None => inl (fail 400 "Please complete your employer profile first")
        | Some (_, employer) =>
            match companyOf employer db with
            | Some company =>
                if negb (Js.truthyId (employer_companyId employer)) then
                  inl (fail 400 "Please select or create a company profile first")
                else if negb (company_isActive company) then
                  inl (fail 403 "Your company profile is inactive")
                else inr tt
            | None => inl (fail 400 "Please select or create a company profile first")
            end
        end
      else inl (fail 403 "Access denied: Only employers can access company resources")
  end.

(** The [where] of [checkJobOwnership]: an [undefined] [employerId] puts
    no condition on the job's employer. *)
Definition ownedBy (employerId : option Z) (job : Job) : bool :=
  match employerId with
  | Some e => job_employerId job =? e
  | None => true
  end.

(** [jobId] is [parseInt(req.params.jobId || req.params.id)], [None] when
    it is [NaN]. *)
Definition checkJobOwnership (user : option ReqUser) (jobId : option Z) (db : Db)
  : Outcome Z :=
  match user with
  | None => inl (fail 403 "Access denied: Only employers can access job resources")
  | Some u =>
      if bool_decide (req_role u = EMPLOYER) then
        if negb (Js.truthyId jobId) then inl (fail 400 "Job ID is required")
        else
          let id := default 0 jobId in
          match jobs db !! id with
          | Some job =>
              if ownedBy (req_employerId u) job then inr id
              else inl (fail 403 "Access denied: You don't own this job or job not found")
          | None => inl (fail 403 "Access denied: You don't own this job or job not found")
          end
      else inl (fail 403 "Access denied: Only employers can access job resources")
  end.

End AuthMiddleware.

(** ** controller/job.controller.ts: the job itself *)

Module JobPosting.

(** The members of the JobRole and JobType enums (migration.sql). *)
Definition jobRoles : list string :=
  ["SOFTWARE_ENGINEER"; "BACKEND_DEVELOPER"; "FRONTEND_DEVELOPER"; "FULLSTACK_DEVELOPER";
   "DATA_SCIENTIST"; "DATA_ANALYST"; "DEVOPS_ENGINEER"; "CLOUD_ENGINEER"; "ML_ENGINEER";
   "AI_ENGINEER"; "MOBILE_DEVELOPER"; "ANDROID_DEVELOPER"; "IOS_DEVELOPER";
   "UI_UX_DESIGNER"; "PRODUCT_MANAGER"; "PROJECT_MANAGER"; "BUSINESS_ANALYST";
   "QA_ENGINEER"; "TEST_AUTOMATION_ENGINEER"; "CYBERSECURITY_ANALYST"; "NETWORK_ENGINEER";
   "SYSTEM_ADMIN"; "DATABASE_ADMIN"; "BLOCKCHAIN_DEVELOPER"; "GAME_DEVELOPER";
   "TECH_SUPPORT"; "CONTENT_WRITER"; "DIGITAL_MARKETER"; "SALES_ASSOCIATE"; "HR_MANAGER"].

Definition jobTypes : list string := ["FULL_TIME"; "PART_TIME"; "INTERNSHIP"; "CONTRACT"].

Definition member (s : string) (l : list string) : bool := existsb (String.eqb s) l.

(** The body of a create request; the optional [requirements],
    [location], salary and openings entries are absent. *)
Record JobInput : Type := mkJobInput {
  j_title : option string;
  j_role : option string;
  j_description : option string;
  j_jobType : option string
}.

(** [prisma.job.create]: the enum columns take enum members only, and the
    company and the employer must exist (Job_companyId_fkey,
    Job_employerId_fkey). *)
Definition insertJob (body : JobInput) (companyId employerId : option Z) (db : Db)
  : option (Z * Db) :=
  match companyId, employerId with
  | Some c, Some e =>
      if member (default EmptyString (j_role body)) jobRoles
         && member (default EmptyString (j_jobType body)) jobTypes
         && bool_decide (is_Some (companies db !! c))
         && bool_decide (is_Some (employers db !! e))
      then
        let id := nextKey (jobs db) in
        Some (id, mkDb (<[id := mkJob c e ACTIVE]> (jobs db)) (formFields db)
                    (applications db) (responses db) (companies db) (employers db))
      else None
  | _, _ => None
  end.

Definition createJob (user : AuthMiddleware.ReqUser) (body : JobInput) (db : Db)
  : Response * Db :=
  if negb (Js.truthyString (j_title body)) || negb (Js.truthyString (j_role body))
     || negb (Js.truthyString (j_description body)) || negb (Js.truthyString (j_jobType body))
  then (fail 400 "Title, role, description, and job type are required", db)
  else
    match insertJob body (AuthMiddleware.req_companyId user) (AuthMiddleware.req_employerId user) db with
    | Some (id, db') =>
        (ok 201 "Job created successfully", JobController.createDefaultJobFormFields id db')
    | None => (fail 500 "Internal server error", db)
    end.

Definition jobStatusOfString (s : string) : option JobStatus :=
  if String.eqb s "ACTIVE" then Some ACTIVE
  else if String.eqb s "COMPLETED" then Some COMPLETED
  else if String.eqb s "PAUSED" then Some PAUSED
  else None.

Definition setJobs (t : gmap Z Job) (db : Db) : Db :=
  mkDb t (formFields db) (applications db) (responses db) (companies db) (employers db).

(** [['ACTIVE', 'COMPLETED', 'PAUSED'].includes(status)] *)
Definition allowed (status : Js.Value) : bool :=
  match status with
  | Js.Str s => member s ["ACTIVE"; "COMPLETED"; "PAUSED"]
  | _ => false
  end.

Definition updateJobStatus (jobId : Z) (status : Js.Value) (db : Db) : Response * Db :=
  if negb (Js.truthy status) || negb (allowed status) then
    (fail 400 "Valid status is required (ACTIVE, COMPLETED, PAUSED)", db)
  else
    match status, jobs db !! jobId with
    | Js.Str s, Some job =>
        match jobStatusOfString s with
        | Some st =>
            (ok 200 (String.append "Job status updated to " s),
             setJobs
               (<[jobId := mkJob (job_companyId job) (job_employerId job) st]> (jobs db)) db)
        | None => (fail 500 "Internal server error", db)
        end
    | _, _ => (fail 500 "Internal server error", db)
    end.

(** Deleting the applications that satisfy [gone]; their responses go with
    them (ApplicationResponse_applicationId_fkey, ON DELETE CASCADE). *)
Definition deleteApplicationsWhere (gone : Application -> bool) (db : Db) : Db :=
  setResponses
    (List.filter
       (fun r => match applications db !! ans_applicationId r with
                 | Some a => negb (gone a)
                 | None => true
                 end)
       (responses db))
    (setApplications (filter (fun kv => gone kv.2 = false) (applications db)) db).

Definition ofJob (jobId : Z) (a : Application) : bool := app_jobId a =? jobId.

Definition fieldOfJob (jobId : Z) (f : JobFormField) : bool := field_jobId f =? jobId.

(** [prisma.job.delete]: the job's form fields and applications go with it
    (JobFormField_jobId_fkey, Application_jobId_fkey, ON DELETE CASCADE). *)
Definition removeJob (jobId : Z) (db : Db) : option Db :=
  match jobs db !! jobId with
  | Some _ =>
      Some (setJobs (delete jobId (jobs db))
              (JobController.deleteWhere (fieldOfJob jobId)
                 (deleteApplicationsWhere (ofJob jobId) db)))
  | None => None
  end.

(** Two writes, not in a transaction: the applications, then the job. *)
Definition deleteJob (jobId : Z) (db : Db) : Response * Db :=
  let db1 := deleteApplicationsWhere (ofJob jobId) db in
  match removeJob jobId db1 with
  | Some db2 => (ok 200 "Job deleted successfully", db2)
  | None => (fail 500 "Internal server error", db1)
  end.

End JobPosting.

(** ** routes/job.route.ts *)

Module JobRoutes.
Import Accounts.

(** [authEmployer, checkJobOwnership, handler]; the handler parses the
    same [:jobId] again. *)
Definition ownerOnly (token : AuthMiddleware.Token) (jobId : option Z)
    (handler : AuthMiddleware.ReqUser -> Z -> Db -> Response * Db) (st : Store)
  : Response * Store :=
  match AuthMiddleware.authEmployer token st with
  | inl refusal => (refusal, st)
  | inr user =>
      match AuthMiddleware.checkJobOwnership (Some user) jobId (tables st) with
      | inl refusal => (refusal, st)
      | inr id => onTables (handler user id) st
      end
  end.

(** [router.post('/create', authEmployer, requireCompany, createJob)] *)
Definition create (token : AuthMiddleware.Token) (body : JobPosting.JobInput) (st : Store)
  : Response * Store :=
  match AuthMiddleware.authEmployer token st with
  | inl refusal => (refusal, st)
  | inr user =>
      match AuthMiddleware.requireCompany (Some user) (tables st) with
      | inl refusal => (refusal, st)
      | inr _ => onTables (JobPosting.createJob user body) st
      end
  end.

(** [router.patch('/:jobId/status', ...)] *)
Definition patchStatus (token : AuthMiddleware.Token) (jobId : option Z) (status : Js.Value)
  : Store -> Response * Store :=
  ownerOnly token jobId (fun _ id => JobPosting.updateJobStatus id status).

(** [router.delete('/:jobId', ...)] *)
Definition deleteJob (token : AuthMiddleware.Token) (jobId : option Z)
  : Store -> Response * Store :=
  ownerOnly token jobId (fun _ => JobPosting.deleteJob).

(** [router.post('/:jobId/form', ...)] and [router.put('/:jobId/form', ...)] *)
Definition postForm (token : AuthMiddleware.Token) (jobId : option Z)
    (fields : option (list JobController.FieldInput)) : Store -> Response * Store :=
  ownerOnly token jobId (fun _ id => JobController.createJobForm id fields).

Definition putForm (token : AuthMiddleware.Token) (jobId : option Z)
    (fields : option (list JobController.FieldInput)) : Store -> Response * Store :=
  ownerOnly token jobId (fun _ id => JobController.updateJobForm id fields).

(** [router.delete('/:jobId/form/field/:fieldId', ...)] *)
Definition deleteFormField (token : AuthMiddleware.Token) (jobId : option Z) (fieldId : Z)
  : Store -> Response * Store :=
  ownerOnly token jobId 
    (fun user _ =>
       JobController.deleteJobFormField (AuthMiddleware.req_employerId user) fieldId).

(** [router.patch('/:jobId/applications/:applicationId/status', ...)] *)
Definition patchApplicationStatus (now : Z) (token : AuthMiddleware.Token)
    (jobId : option Z) (applicationId : Z) (status : Js.Value) : Store -> Response * Store :=
  ownerOnly token jobId
    (fun _ _ => JobController.updateApplicationStatus now applicationId status).

End JobRoutes.

(** ** controller/company.controller.ts: the caller's own company *)

Module CompanyProfile.

(** The body of an update request, every entry optional; the [website],
    [profilePicture] and [size] entries are absent. *)
Record UpdateInput : Type := mkUpdateInput {
  u_name : option string;
  u_description : option string;
  u_industry : option string;
  u_location : option string;
  u_foundedYear : option Z
}.

(** [updateCompanySchema = createCompanySchema.partial()] *)
Definition updateCompanySchema (currentYear : Z) (body : UpdateInput) : bool :=
  CompanyController.optional (CompanyController.between 2 100) (u_name body)
  && CompanyController.optional (CompanyController.between 10 1000) (u_description body)
  && CompanyController.optional (CompanyController.between 2 100) (u_industry body)
  && CompanyController.optional (CompanyController.between 2 100) (u_location body)
  && CompanyController.optional (fun y => (1800 <=? y) && (y <=? currentYear))
       (u_foundedYear body).

(** [prisma.company.findFirst] on another active company of that name;
    the name is an [ILIKE] pattern, as in [createCompany]. *)
Definition findOtherActiveByName (x : string) (companyId : Z) (t : gmap Z Company)
  : CompanyController.Found (Z * Company) :=
  if CompanyController.wellEscaped (CompanyController.lower x) then
    match List.find (fun kv => CompanyController.ilike (company_name kv.2) x
                               && negb (kv.1 =? companyId) && company_isActive kv.2)
                    (map_to_list t) with
    | Some kv => CompanyController.Row kv
    | None => CompanyController.NoRow
    end
  else CompanyController.QueryFailed.

(** [prisma.company.update]: the row must exist and no other row may
    carry the name it gets (Company_name_key); an [undefined] entry leaves
    its column alone. *)
Definition update (companyId : Z) (body : UpdateInput) (db : Db) : option Db :=
  match companies db !! companyId with
  | Some company =>
      let name := default (company_name company) (CompanyController.trim <$> u_name body) in
      let industry := default (company_industry company) (u_industry body) in
      if bool_decide (map_Forall (fun id c => id = companyId \/ company_name c ≠ name)
                        (companies db))
      then Some (setCompanies
                   (<[companyId := mkCompany name industry (company_isActive company)]>
                      (companies db)) db)
      else None
  | None => None
  end.

(** [employerId] and [companyId] are those of [req.user]. *)
Definition updateMyCompany (currentYear : Z) (employerId companyId : option Z)
    (body : UpdateInput) (db : Db) : Response * Db :=
  if negb (Js.truthyId employerId) || negb (Js.truthyId companyId) then
    (fail 401 "Company association required", db)
  else if negb (updateCompanySchema currentYear body) then
    (fail 400 "Validation failed", db)
  else
    let c := default 0 companyId in
    match employers db !! default 0 employerId with
    | None => (fail 403 "Access denied", db)
    | Some employer =>
        if negb (bool_decide (employer_companyId employer = Some c)) then
          (fail 403 "Access denied", db)
        else if negb (bool_decide (employer_role employer = ADMIN))
                && negb (bool_decide (employer_role employer = HR_MANAGER)) then
          (fail 403 "Only company admins and HR managers can update company profile", db)
        else
          match (if Js.truthyString (u_name body)
                 then findOtherActiveByName
                        (CompanyController.trim (default EmptyString (u_name body))) c
                        (companies db)
                 else CompanyController.NoRow) with
          | CompanyController.Row _ =>
              (fail 409 "A company with this name already exists", db)
          | CompanyController.NoRow =>
              match update c body db with
              | Some db' => (ok 200 "Company profile updated successfully", db')
              | None => (fail 500 "Internal server error", db)
              end
          | CompanyController.QueryFailed => (fail 500 "Internal server error", db)
          end
    end.

End CompanyProfile.

(** ** controller/employer.controller.ts *)

Module EmployerController.
Import Accounts.

Definition required {A} (check : A -> bool) (o : option A) : bool :=
  match o with Some a => check a | None => false end.

(** The body of [PUT /basic-details]; the optional [profilePicture] is
    absent. *)
Record BasicDetails : Type := mkBasicDetails {
  b_name : option string;
  b_phone : option string;
  b_location : option string
}.

Definition updateUserBasicDetailsSchema (body : BasicDetails) : bool :=
  required (CompanyController.between 2 50) (b_name body)
  && required (CompanyController.between 10 15) (b_phone body)
  && required (CompanyController.between 2 100) (b_location body).

Definition updateUserBasicDetails (user : option AuthMiddleware.ReqUser)
    (body : BasicDetails) (st : Store) : Response * Store :=
  match user with
  | None => (fail 401 "Authentication required", st)
  | Some u =>
      if negb (bool_decide (AuthMiddleware.req_role u = EMPLOYER)) then
        (fail 403 "Access denied: Only users with EMPLOYER role can update profile", st)
      else if negb (updateUserBasicDetailsSchema body) then
        (fail 400 "Validation failed", st)
      else
        match users st !! AuthMiddleware.req_id u with
        | Some row =>
            (ok 200
               "Basic details updated successfully. Next step: Complete your employer profile.",
             setUsers
               (<[AuthMiddleware.req_id u :=
                    mkUser (default EmptyString (b_name body)) (user_email row)
                      (user_password row) (b_phone body) (b_location body) (user_role row)]>
                  (users st)) st)
        | None => (fail 500 "Internal server error", st)
        end
  end.

(** The body of [POST /profile]. *)
Record ProfileInput : Type := mkProfileInput {
  p_jobTitle : option string;
  p_department : option string
}.

Definition createEmployerProfileSchema (body : ProfileInput) : bool :=
  CompanyController.optional (CompanyController.between 2 100) (p_jobTitle body)
  && CompanyController.optional (CompanyController.between 2 50) (p_department body).

Definition createEmployerProfile (user : option AuthMiddleware.ReqUser)
    (body : ProfileInput) (st : Store) : Response * Store :=
  match user with
  | None => (fail 401 "Authentication required", st)
  | Some u =>
      if negb (bool_decide (AuthMiddleware.req_role u = EMPLOYER)) then
        (fail 403
           "Access denied: Only users with EMPLOYER role can create employer profiles", st)
      else
        let row := users st !! AuthMiddleware.req_id u in
        if negb (Js.truthyString (user_name <$> row))
           || negb (Js.truthyString (row ≫= user_phone))
           || negb (Js.truthyString (row ≫= user_location)) then
          (fail 400 "Please complete your basic details first (name, phone, location)", st)
        else
          match employerOfUser (AuthMiddleware.req_id u) (employers (tables st)) with
          | Some _ => (fail 409 "Employer profile already exists", st)
          | None =>
              if negb (createEmployerProfileSchema body) then
                (fail 400 "Validation failed", st)
              else
                (ok 201
                   "Employer profile created successfully. Next step: Select or create a company.",
                 setTables
                   (setEmployers
                      (<[nextKey (employers (tables st)) :=
                           mkEmployer (AuthMiddleware.req_id u) None RECRUITER None]>
                         (employers (tables st))) (tables st)) st)
          end
  end.

(** The body of [PUT /settings]. *)
Record SettingsInput : Type := mkSettingsInput {
  s_role : option string;
  s_jobTitle : option string;
  s_department : option string
}.

(** The member of [CompanyRole] a string denotes. *)
Definition companyRoleOfString (s : string) : option CompanyRole :=
  if String.eqb s "ADMIN" then Some ADMIN
  else if String.eqb s "HR_MANAGER" then Some HR_MANAGER
  else if String.eqb s "RECRUITER" then Some RECRUITER
  else if String.eqb s "HIRING_MANAGER" then Some HIRING_MANAGER
  else None.

Definition updateSettingsSchema (body : SettingsInput) : bool :=
  CompanyController.optional (fun s => bool_decide (is_Some (companyRoleOfString s)))
    (s_role body)
  && CompanyController.optional (CompanyController.between 2 100) (s_jobTitle body)
  && CompanyController.optional (CompanyController.between 2 50) (s_department body).

Definition updateEmployerSettings (user : option AuthMiddleware.ReqUser)
    (body : SettingsInput) (db : Db) : Response * Db :=
  match user with
  | None => (fail 403 "Access denied: Employer profile required", db)
  | Some u =>
      if negb (bool_decide (AuthMiddleware.req_role u = EMPLOYER))
         || negb (Js.truthyId (AuthMiddleware.req_employerId u)) then
        (fail 403 "Access denied: Employer profile required", db)
      else if negb (updateSettingsSchema body) then
        (fail 400 "Validation failed", db)
      else
        let e := default 0 (AuthMiddleware.req_employerId u) in
        match employers db !! e with
        | Some row =>
            (ok 200 "Settings updated successfully",
             setEmployers
               (<[e := mkEmployer (employer_userId row) (employer_companyId row)
                         (default (employer_role row) (s_role body ≫= companyRoleOfString))
                         (employer_joinedAt row)]> (employers db)) db)
        | None => (fail 500 "Internal server error", db)
        end
  end.

(** The rows the filter [{ job: { employerId } }] selects. *)
Definition postedBy (employerId : Z) (db : Db) (jobId : Z) : bool :=
  match jobs db !! jobId with
  | Some job => job_employerId job =? employerId
  | None => false
  end.

Definition jobsOf (employerId : Z) (db : Db) : list Job :=
  List.filter (fun job => job_employerId job =? employerId)
              (List.map snd (map_to_list (jobs db))).

Definition applicationsTo (employerId : Z) (db : Db) : list Application :=
  List.filter (fun a => postedBy employerId db (app_jobId a))
              (List.map snd (map_to_list (applications db))).

(** [prisma.application.groupBy({ by: ['status'] })]: a row for each
    status that occurs. *)
Definition groupByStatus (l : list Application) : list (ApplicationStatus * nat) :=
  List.filter (fun stat => negb (Nat.eqb stat.2 0))
    (List.map (fun s => (s, EmployerDashboard.countOf s l)) EmployerDashboard.allStatuses).

(** [applicationStats.STATUS || 0] *)
Definition orZero (s : ApplicationStatus) (stats : list (ApplicationStatus * nat)) : nat :=
  match List.find (fun stat => bool_decide (stat.1 = s)) stats with
  | Some stat => stat.2
  | None => 0%nat
  end.

Record EmployerStats : Type := mkEmployerStats {
  totalJobs : nat;
  activeJobs : nat;
  pausedJobs : Z;
  totalApplications : nat;
  pendingApplications : nat;
  applicationsByStatus : list (ApplicationStatus * nat)
}.

(** The [overview] and [applicationsByStatus] entries of the answer. *)
Definition getEmployerStats (user : option AuthMiddleware.ReqUser) (db : Db)
  : Response * option EmployerStats :=
  match user with
  | None => (fail 403 "Access denied: Employer profile required", None)
  | Some u =>
      if negb (bool_decide (AuthMiddleware.req_role u = EMPLOYER))
         || negb (Js.truthyId (AuthMiddleware.req_employerId u)) then
        (fail 403 "Access denied: Employer profile required", None)
      else
        let e := default 0 (AuthMiddleware.req_employerId u) in
        let totalJobs := length (jobsOf e db) in
        let activeJobs :=
          length (List.filter (fun job => bool_decide (job_status job = ACTIVE))
                    (jobsOf e db)) in
        let applicationStats := groupByStatus (applicationsTo e db) in
        (mkResponse 200 true EmptyString,
         Some (mkEmployerStats totalJobs activeJobs
                 (Z.of_nat totalJobs - Z.of_nat activeJobs)
                 (length (applicationsTo e db))
                 (EmployerDashboard.countOf PENDING (applicationsTo e db))
                 (List.map (fun s => (s, orZero s applicationStats))
                    [PENDING; REVIEWING; SHORTLISTED; INTERVIEWED; ACCEPTED; REJECTED])))
  end.

(** The rows [checkProfileStatus] reads: a user with the [employer]
    relation of the query. *)
Definition withEmployer (st : Store) : gmap Z EmployerProfile.User :=
  map_imap
    (fun id user =>
       Some (EmployerProfile.mkUser (user_name user) (user_phone user) (user_location user)
               ((fun kv => EmployerProfile.mkEmployerRow (employer_companyId kv.2))
                  <$> employerOfUser id (employers (tables st)))))
    (users st).

Definition checkProfileStatus (user : option AuthMiddleware.ReqUser) (st : Store)
  : Response * option EmployerProfile.ProfileStatus :=
  EmployerProfile.checkProfileStatus (AuthMiddleware.req_id <$> user) (withEmployer st).

End EmployerController.

(** ** controller/employer.controller.ts: deleting the account *)

Module EmployerAccount.
Import Accounts.

(** [job.deleteMany]: the jobs that satisfy [gone] take their form fields
    and their applications with them (ON DELETE CASCADE). *)
Definition deleteJobsWhere (gone : Job -> bool) (db : Db) : Db :=
  let goneId jobId :=
    match jobs db !! jobId with Some job => gone job | None => false end in
  JobPosting.setJobs (filter (fun kv => gone kv.2 = false) (jobs db))
    (JobController.deleteWhere (fun f => goneId (field_jobId f))
       (JobPosting.deleteApplicationsWhere (fun a => goneId (app_jobId a)) db)).

(** [user.delete]: a seeker profile of the user goes with it, and with
    the profile its applications, education, experience, projects and
    preferences (the foreign keys on [userId] and [seekerId], all ON
    DELETE CASCADE). *)
Definition deleteUser (userId : Z) (st : Store) : Store :=
  let goneSeeker sid :=
    match jobSeekers st !! sid with
    | Some row => seeker_userId row =? userId
    | None => false
    end in
  mkStore (delete userId (users st))
          (filter (fun kv => (seeker_userId kv.2 =? userId) = false) (jobSeekers st))
          (filter (fun kv => goneSeeker (edu_seekerId kv.2) = false) (education st))
          (filter (fun kv => goneSeeker kv.2 = false) (experience st))
          (filter (fun kv => goneSeeker kv.2 = false) (projects st))
          (filter (fun kv => goneSeeker kv.2 = false) (preferences st))
          (JobPosting.deleteApplicationsWhere (fun a => goneSeeker (app_seekerId a))
             (tables st)).

(** The six deletes of the transaction, all or none; the employer row can
    go only when no job names it (Job_employerId_fkey, ON DELETE RESTRICT). *)
Definition transaction (userId employerId : Z) (st : Store) : option Store :=
  let db := tables st in
  let db1 :=
    setResponses
      (List.filter
         (fun r => match applications db !! ans_applicationId r with
                   | Some a => negb (EmployerController.postedBy employerId db (app_jobId a))
                   | None => true
                   end)
         (responses db)) db in
  let db2 :=
    JobPosting.deleteApplicationsWhere
      (fun a => EmployerController.postedBy employerId db1 (app_jobId a)) db1 in
  let db3 :=
    JobController.deleteWhere
      (fun f => EmployerController.postedBy employerId db2 (field_jobId f)) db2 in
  let db4 := deleteJobsWhere (fun job => job_employerId job =? employerId) db3 in
  match employerOfUser userId (employers db4) with
  | Some (e, _) =>
      if bool_decide (map_Forall (fun _ job => job_employerId job ≠ e) (jobs db4)) then
        let db5 := setEmployers (delete e (employers db4)) db4 in
        match users st !! userId with
        | Some _ => Some (deleteUser userId (setTables db5 st))
        | None => None
        end
      else None
  | None => None
  end.

Definition deleted (totalJobs : nat) : string :=
  String.append "Employer account deleted successfully. Removed "
    (String.append (NilEmpty.string_of_uint (Nat.to_uint totalJobs))
       " jobs and all associated data.").

Definition deleteEmployerAccount (user : option AuthMiddleware.ReqUser) (st : Store)
  : Response * Store :=
  match user with
  | None => (fail 403 "Access denied: Only employers can delete employer accounts", st)
  | Some u =>
      if negb (bool_decide (AuthMiddleware.req_role u = EMPLOYER)) then
        (fail 403 "Access denied: Only employers can delete employer accounts", st)
      else
        let userId := AuthMiddleware.req_id u in
        match employerOfUser userId (employers (tables st)) with
        | None => (fail 404 "Employer profile not found", st)
        | Some (e, _) =>
            let totalJobs := length (EmployerController.jobsOf e (tables st)) in
            match transaction userId e st with
            | Some st' => (ok 200 (deleted totalJobs), st')
            | None => (fail 500 "Internal server error while deleting account", st)
            end
        end
  end.

End EmployerAccount.

(** ** routes/employer.route.ts and routes/company.route.ts *)

Module EmployerRoutes.
Import Accounts.

(** [router.get("/profile-status", authenticate, checkProfileStatus)] *)
Definition getProfileStatus (token : AuthMiddleware.Token) (st : Store)
  : Response * option EmployerProfile.ProfileStatus :=
  match AuthMiddleware.authenticate token st with
  | inl refusal => (refusal, None)
  | inr user => EmployerController.checkProfileStatus (Some user) st
  end.

(** [router.put("/basic-details", authenticate, updateUserBasicDetails)] *)
Definition putBasicDetails (token : AuthMiddleware.Token)
    (body : EmployerController.BasicDetails) (st : Store) : Response * Store :=
  match AuthMiddleware.authenticate token st with
  | inl refusal => (refusal, st)
  | inr user => EmployerController.updateUserBasicDetails (Some user) body st
  end.

(** [router.post("/profile", authenticate, createEmployerProfile)] *)
Definition postProfile (token : AuthMiddleware.Token)
    (body : EmployerController.ProfileInput) (st : Store) : Response * Store :=
  match AuthMiddleware.authenticate token st with
  | inl refusal => (refusal, st)
  | inr user => EmployerController.createEmployerProfile (Some user) body st
  end.

(** [router.put("/settings", authEmployer, updateEmployerSettings)] *)
Definition putSettings (token : AuthMiddleware.Token)
    (body : EmployerController.SettingsInput) (st : Store) : Response * Store :=
  match AuthMiddleware.authEmployer token st with
  | inl refusal => (refusal, st)
  | inr user => onTables (EmployerController.updateEmployerSettings (Some user) body) st
  end.

(** [router.get("/stats", authEmployer, requireCompany, getEmployerStats)] *)
Definition getStats (token : AuthMiddleware.Token) (st : Store)
  : Response * option EmployerController.EmployerStats :=
  match AuthMiddleware.authEmployer token st with
  | inl refusal => (refusal, None)
  | inr user =>
      match AuthMiddleware.requireCompany (Some user) (tables st) with
      | inl refusal => (refusal, None)
      | inr _ => EmployerController.getEmployerStats (Some user) (tables st)
      end
  end.

(** [router.delete("/account", authEmployer, deleteEmployerAccount)] *)
Definition deleteAccount (token : AuthMiddleware.Token) (st : Store) : Response * Store :=
  match AuthMiddleware.authEmployer token st with
  | inl refusal => (refusal, st)
  | inr user => EmployerAccount.deleteEmployerAccount (Some user) st
  end.

(** [router.post("/:companyId/select", authEmployer, selectExistingCompany)] *)
Definition postSelect (now : Z) (token : AuthMiddleware.Token) (companyId : option Z)
    (st : Store) : Response * Store :=
  match AuthMiddleware.authEmployer token st with
  | inl refusal => (refusal, st)
  | inr user =>
      onTables
        (CompanyController.selectExistingCompany now (AuthMiddleware.req_employerId user)
           companyId) st
  end.

(** [router.post("/", authEmployer, createCompany)] *)
Definition postCompany (now currentYear : Z) (token : AuthMiddleware.Token)
    (body : CompanyController.CompanyInput) (st : Store) : Response * Store :=
  match AuthMiddleware.authEmployer token st with
  | inl refusal => (refusal, st)
  | inr user =>
      onTables
        (fun db =>
           let out := CompanyController.createCompany now currentYear
                        (AuthMiddleware.req_employerId user) body db in
           (out.1.1, out.2)) st
  end.

(** [router.put("/", authEmployer, requireCompany, updateMyCompany)] *)
Definition putCompany (currentYear : Z) (token : AuthMiddleware.Token)
    (body : CompanyProfile.UpdateInput) (st : Store) : Response * Store :=
  match AuthMiddleware.authEmployer token st with
  | inl refusal => (refusal, st)
  | inr user =>
      match AuthMiddleware.requireCompany (Some user) (tables st) with
      | inl refusal => (refusal, st)
      | inr _ =>
          onTables
            (CompanyProfile.updateMyCompany currentYear (AuthMiddleware.req_employerId user)
               (AuthMiddleware.req_companyId user) body) st
      end
  end.

End EmployerRoutes.

(** ** More of JavaScript's numbers *)

Module JsNumber.

(** [x < y] *)
Definition lt (x y : Js.Number) : bool :=
  match x, y with
  | Js.NaN, _ | _, Js.NaN => false
  | Js.Infinity s, Js.Infinity t => s && negb t
  | Js.Infinity s, Js.Finite _ => s
  | Js.Finite _, Js.Infinity t => negb t
  | Js.Finite a, Js.Finite b => negb (Qle_bool b a)
  end.

(** [Math.ceil(x)] *)
Definition Math_ceil (x : Js.Number) : Js.Number :=
  match x with
  | Js.Finite q => Js.ofZ (Qceiling q)
  | _ => x
  end.

End JsNumber.

(** ** controller/jobForJobseeker.controller.ts: what a seeker reads *)

Module JobSeekerReads.

(** The rows of [where: { seekerId }], in scan order. *)
Definition mine (seekerId : Z) (db : Db) : list (Z * Application) :=
  List.filter (fun kv => app_seekerId kv.2 =? seekerId) (map_to_list (applications db)).

Definition withStatus (s : ApplicationStatus) (l : list (Z * Application))
  : list (Z * Application) :=
  List.filter (fun kv => bool_decide (app_status kv.2 = s)) l.

Record JobStats : Type := mkJobStats {
  totalApplications : nat;
  pendingApplications : nat;
  shortlistedApplications : nat;
  rejectedApplications : nat;
  interviewedApplications : nat;
  acceptedApplications : nat;
  totalActiveJobs : nat
}.

Definition getJobStats (jobSeekerId : option Z) (db : Db) : Response * option JobStats :=
  if negb (Js.truthyId jobSeekerId) then
    (fail 400 "Job seeker profile not found. Please complete your profile first.", None)
  else
    let rows := mine (default 0 jobSeekerId) db in
    (mkResponse 200 true EmptyString,
     Some (mkJobStats (length rows)
             (length (withStatus PENDING rows)) (length (withStatus SHORTLISTED rows))
             (length (withStatus REJECTED rows)) (length (withStatus INTERVIEWED rows))
             (length (withStatus ACCEPTED rows))
             (length (List.filter (fun kv : Z * Job => bool_decide (job_status kv.2 = ACTIVE))
                        (map_to_list (jobs db)))))).

(** [applicationId] is [parseInt(req.params.applicationId)]. *)
Definition getApplicationById (jobSeekerId : option Z) (applicationId : Z) (db : Db)
  : Response * option Application :=
  if negb (Js.truthyId jobSeekerId) then
    (fail 400 "Job seeker profile not found. Please complete your profile first.", None)
  else
    match applications db !! applicationId with
    | Some application =>
        if app_seekerId application =? default 0 jobSeekerId
        then (mkResponse 200 true EmptyString, Some application)
        else (fail 404 "Application not found", None)
    | None => (fail 404 "Application not found", None)
    end.

(** [orderBy: { appliedAt: 'desc' }]. Rows with the same [appliedAt] come
    in an order the database chooses; they are kept in scan order here. *)
Fixpoint insertNewest (x : Z * Application) (l : list (Z * Application))
  : list (Z * Application) :=
  match l with
  | [] => [x]
  | y :: rest =>
      if app_appliedAt y.2 <=? app_appliedAt x.2 then x :: l
      else y :: insertNewest x rest
  end.

Definition newestFirst (l : list (Z * Application)) : list (Z * Application) :=
  fold_right insertNewest [] l.

(** [findMany({ skip, take })] on the ordered rows: a negative [skip] is
    refused by the client, and a negative [take] counts from the end. *)
Definition page {A} (skip take : Z) (rows : list A) : option (list A) :=
  if skip <? 0 then None
  else if 0 <=? take then Some (firstn (Z.to_nat take) (skipn (Z.to_nat skip) rows))
  else Some (rev (firstn (Z.to_nat (- take)) (skipn (Z.to_nat skip) (rev rows)))).

Record Pagination : Type := mkPagination {
  currentPage : Z;
  totalPages : Js.Number;
  totalCount : nat;
  hasNext : bool;
  hasPrev : bool
}.

(** [status], [page] and [limit] are the entries of [req.query]; [page]
    and [limit] are numerals and are taken after [parseInt], [None]
    standing for an entry that is absent. *)
Definition getMyApplications (jobSeekerId : option Z) (status : option string)
    (page limit : option Z) (db : Db)
  : Response * option (list (Z * Application) * Pagination) :=
  if negb (Js.truthyId jobSeekerId) then
    (fail 400 "Job seeker profile not found. Please complete your profile first.", None)
  else
    let currentPage := default 1 page in
    let take := default 10 limit in
    let skip := (currentPage - 1) * take in
    let whereClause :=
      if Js.truthyString status
      then match JobController.statusOfString (default EmptyString status) with
           | Some s => Some (withStatus s (mine (default 0 jobSeekerId) db))
           | None => None
           end
      else Some (mine (default 0 jobSeekerId) db) in
    match whereClause with
    | Some rows =>
        match JobSeekerReads.page skip take (newestFirst rows) with
        | Some applications =>
            let totalCount := length rows in
            let totalPages :=
              JsNumber.Math_ceil (Js.div (Js.ofNat totalCount) (Js.ofZ take)) in
            (mkResponse 200 true EmptyString,
             Some (applications,
                   mkPagination currentPage totalPages totalCount
                     (JsNumber.lt (Js.ofZ currentPage) totalPages) (1 <? currentPage)))
        | None => (fail 500 "Failed to fetch applications", None)
        end
    | None => (fail 500 "Failed to fetch applications", None)
    end.

End JobSeekerReads.

(** ** routes/jobForJobseeker.route.ts *)

Module SeekerRoutes.
Import Accounts.

(** [router.use(authJobSeeker); router.use(requireCompleteProfile)] before
    a handler. *)
Definition guarded {A} (token : AuthMiddleware.Token) (st : Store)
    (refused : Response -> A) (handler : AuthMiddleware.ReqUser -> A) : A :=
  match AuthMiddleware.authJobSeeker token st with
  | inl refusal => refused refusal
  | inr user =>
      match AuthMiddleware.requireCompleteProfile (Some user) st with
      | inl refusal => refused refusal
      | inr _ => handler user
      end
  end.

(** [router.post('/jobs/:jobId/apply', ...)], the body being one that
    [jobApplicationSchema] accepts. *)
Definition apply (now : Z) (token : AuthMiddleware.Token) (jobId : Z)
    (rs : list JobSeekerController.ResponseInput) (st : Store) : Response * Store :=
  guarded token st (fun refusal => (refusal, st))
    (fun user =>
       onTables
         (JobSeekerController.applyForJob now (AuthMiddleware.req_jobSeekerId user) jobId rs)
         st).

(** [router.patch('/applications/:applicationId/withdraw', ...)] *)
Definition withdraw (now : Z) (token : AuthMiddleware.Token) (applicationId : Z)
    (st : Store) : Response * Store :=
  guarded token st (fun refusal => (refusal, st))
    (fun user =>
       onTables
         (JobSeekerController.withdrawApplication now (AuthMiddleware.req_jobSeekerId user)
            applicationId) st).

(** [router.get('/applications/:applicationId', ...)] *)
Definition getApplication (token : AuthMiddleware.Token) (applicationId : Z) (st : Store)
  : Response * option Application :=
  guarded token st (fun refusal => (refusal, None))
    (fun user =>
       JobSeekerReads.getApplicationById (AuthMiddleware.req_jobSeekerId user) applicationId
         (tables st)).

(** [router.get('/applications', ...)] *)
Definition getApplications (token : AuthMiddleware.Token) (status : option string)
    (page limit : option Z) (st : Store)
  : Response * option (list (Z * Application) * JobSeekerReads.Pagination) :=
  guarded token st (fun refusal => (refusal, None))
    (fun user =>
       JobSeekerReads.getMyApplications (AuthMiddleware.req_jobSeekerId user) status page
         limit (tables st)).

(** [router.get('/stats', ...)] *)
Definition getStats (token : AuthMiddleware.Token) (st : Store)
  : Response * option JobSeekerReads.JobStats :=
  guarded token st (fun refusal => (refusal, None))
    (fun user =>
       JobSeekerReads.getJobStats (AuthMiddleware.req_jobSeekerId user) (tables st)).

End SeekerRoutes.

(** ** controller/auth.controller.ts *)

Module AuthController.
Import Accounts.

Definition upperChar (c : ascii) : ascii :=
  let n := nat_of_ascii c in
  if ((97 <=? n) && (n <=? 122))%nat then ascii_of_nat (n - 32) else c.

(** [s.toUpperCase()] *)
Fixpoint toUpperCase (s : string) : string :=
  match s with
  | String c rest => String (upperChar c) (toUpperCase rest)
  | EmptyString => EmptyString
  end.

(** The member of [Role] a string denotes. *)
Definition roleOfString (s : string) : option Role :=
  if String.eqb s "EMPLOYER" then Some EMPLOYER
  else if String.eqb s "JOB_SEEKER" then Some JOB_SEEKER
  else None.

(** The body of a signup request, its entries strings where present. *)
Record SignupInput : Type := mkSignupInput {
  su_name : option string;
  su_email : option string;
  su_password : option string;
  su_role : option string
}.

(** [prisma.user.findUnique({ where: { email } })] *)
Definition findByEmail (email : string) (t : gmap Z User) : option (Z * User) :=
  List.find (fun kv => String.eqb (user_email kv.2) email) (map_to_list t).

Section Bcrypt.

(** [bcrypt.hash(password, 10)] with the salt it draws, and
    [bcrypt.compare(password, hash)]. *)
Variable hash : string -> string -> string.
Variable compare : string -> string -> bool.

(** A body without [success] answers with [success] false here. An email
    that is stored already makes the create fail on User_email_key, the
    client's P2002. *)
Definition handleSignup (salt : string) (body : SignupInput) (st : Store)
  : Response * Store :=
  if negb (Js.truthyString (su_name body)) || negb (Js.truthyString (su_email body))
     || negb (Js.truthyString (su_password body)) || negb (Js.truthyString (su_role body))
  then (fail 400 "Name, email, password, and role are required.", st)
  else
    let hashedPassword := hash salt (default EmptyString (su_password body)) in
    match roleOfString (toUpperCase (default EmptyString (su_role body))) with
    | None => (fail 400 "Invalid role. Must be EMPLOYER or JOB_SEEKER.", st)
    | Some roleUpperCase =>
        let email := default EmptyString (su_email body) in
        match findByEmail email (users st) with
        | Some _ => (fail 409 "Email already exists.", st)
        | None =>
            (ok 201 "Signup successful",
             setUsers
               (<[nextKey (users st) :=
                    mkUser (default EmptyString (su_name body)) email hashedPassword
                      None None roleUpperCase]> (users st)) st)
        end
    end.

(** The answer and the token of the cookie it sets, as [jwt.verify] reads
    it back while it is valid. *)
Definition handleLogin (email password : option string) (st : Store)
  : Response * option AuthMiddleware.Token :=
  if negb (Js.truthyString email) || negb (Js.truthyString password) then
    (fail 400 "Email and password are required.", None)
  else
    match findByEmail (default EmptyString email) (users st) with
    | None => (fail 404 "User not found.", None)
    | Some (id, user) =>
        if compare (default EmptyString password) (user_password user) then
          (ok 200 "Login successful", Some (AuthMiddleware.Verified id (user_role user)))
        else (fail 401 "Invalid password.", None)
    end.

End Bcrypt.

End AuthController.

(** ** controller/employerDashboard.controller.ts: the rates *)

Module EmployerInsights.

(** [calculateMonthlyGrowth(thisMonth, total)] *)
Definition calculateMonthlyGrowth (thisMonth total : Binary64.Number) : Binary64.Number :=
  if Binary64.le total thisMonth then Binary64.ofZ 0
  else
    let previousPeriod := Binary64.sub total thisMonth in
    if Binary64.strictEquals previousPeriod (Binary64.ofZ 0) then Binary64.ofZ 100
    else
      Binary64.Math_round
        (Binary64.mul
           (Binary64.div
              (Binary64.sub thisMonth (Binary64.div previousPeriod (Binary64.ofZ 5)))
              (Binary64.div previousPeriod (Binary64.ofZ 5)))
           (Binary64.ofZ 100)).

(** [applicationStatusStats.find(stat => stat.status === s)?._count.id || 0] *)
Definition countFor (s : ApplicationStatus) (employerId companyId : Z) (db : Db) : nat :=
  EmployerController.orZero s
    (EmployerDashboard.applicationStatusStats employerId companyId db).

(** The applications of the month, [appliedAt] between its first and its
    last day. *)
Definition applicantsThisMonth (firstDayOfMonth lastDayOfMonth employerId companyId : Z)
    (db : Db) : nat :=
  length (List.filter
            (fun a => (firstDayOfMonth <=? app_appliedAt a)
                      && (app_appliedAt a <=? lastDayOfMonth))
            (EmployerDashboard.selected employerId companyId db)).

(** [overview.conversionRate] *)
Definition conversionRate (employerId companyId : Z) (db : Db) : Binary64.Number :=
  let totalApplicants := EmployerDashboard.totalApplicants employerId companyId db in
  let shortlistedCandidates := countFor SHORTLISTED employerId companyId db in
  if (0 <? totalApplicants)%nat
  then Binary64.Math_round
         (Binary64.mul
            (Binary64.div (Binary64.ofNat shortlistedCandidates)
               (Binary64.ofNat totalApplicants))
            (Binary64.ofZ 100))
  else Binary64.ofZ 0.

(** [insights.responseRate] *)
Definition responseRate (employerId companyId : Z) (db : Db) : Binary64.Number :=
  let totalApplicants := EmployerDashboard.totalApplicants employerId companyId db in
  let pendingApplications := countFor PENDING employerId companyId db in
  if (0 <? totalApplicants)%nat
  then Binary64.Math_round
         (Binary64.mul
            (Binary64.div
               (Binary64.sub (Binary64.ofNat totalApplicants)
                  (Binary64.ofNat pendingApplications))
               (Binary64.ofNat totalApplicants))
            (Binary64.ofZ 100))
  else Binary64.ofZ 0.

(** [insights.monthlyGrowth] *)
Definition monthlyGrowth (firstDayOfMonth lastDayOfMonth employerId companyId : Z) (db : Db)
  : Binary64.Number :=
  calculateMonthlyGrowth
    (Binary64.ofNat
       (applicantsThisMonth firstDayOfMonth lastDayOfMonth employerId companyId db))
    (Binary64.ofNat (EmployerDashboard.totalApplicants employerId companyId db)).

End EmployerInsights.

(** ** controller/jobseeker.controller.ts: the seeker's profile *)

Module JobSeekerAccount.
Import Accounts.

Definition atLeast (n : nat) (s : string) : bool := (n <=? String.length s)%nat.

(** [createJobSeekerProfileSchema] and [updateJobSeekerProfileSchema] on a
    body whose optional [resume], [linkedin] and [github] are absent. *)
Definition createJobSeekerProfileSchema (skills : option (list string)) : bool :=
  match skills with
  | Some l => forallb (atLeast 1) l && (1 <=? length l)%nat
  | None => false
  end.

Definition updateJobSeekerProfileSchema (skills : option (list string)) : bool :=
  match skills with
  | Some l => forallb (atLeast 1) l
  | None => true
  end.

(** The user must exist (JobSeeker_userId_fkey). *)
Definition createJobSeekerProfile (user : option AuthMiddleware.ReqUser)
    (skills : option (list string)) (st : Store) : Response * Store :=
  match user with
  | None => (fail 401 "Authentication required", st)
  | Some u =>
      if negb (createJobSeekerProfileSchema skills) then (fail 400 "Validation failed", st)
      else
        match seekerOfUser (AuthMiddleware.req_id u) (jobSeekers st) with
        | Some _ =>
            (fail 400 "Job seeker profile already exists. Use update endpoint instead.", st)
        | None =>
            match users st !! AuthMiddleware.req_id u with
            | Some _ =>
                (ok 201
                   "Job seeker profile created successfully. Next step: Add your education details.",
                 setJobSeekers
                   (<[nextKey (jobSeekers st) :=
                        mkJobSeeker (AuthMiddleware.req_id u) (default [] skills)]>
                      (jobSeekers st)) st)
            | None => (fail 500 "Internal server error", st)
            end
        end
  end.

Definition updateJobSeekerProfile (user : option AuthMiddleware.ReqUser)
    (skills : option (list string)) (st : Store) : Response * Store :=
  match user with
  | None => (fail 401 "Authentication required", st)
  | Some u =>
      if negb (updateJobSeekerProfileSchema skills) then (fail 400 "Validation failed", st)
      else
        match seekerOfUser (AuthMiddleware.req_id u) (jobSeekers st) with
        | Some (id, row) =>
            (ok 200 "Job seeker profile updated successfully",
             setJobSeekers
               (<[id := mkJobSeeker (seeker_userId row) (default (seeker_skills row) skills)]>
                  (jobSeekers st)) st)
        | None =>
            (fail 404 "Job seeker profile not found. Please create a profile first.", st)
        end
  end.

(** The body of the education routes; the optional [fieldOfStudy],
    [startDate], [endDate], [grade] and [description] are absent. *)
Record EducationInput : Type := mkEducationInput {
  e_institution : option string;
  e_degree : option string
}.

Definition educationSchema (body : EducationInput) : bool :=
  EmployerController.required (atLeast 2) (e_institution body)
  && EmployerController.required (atLeast 2) (e_degree body).

(** [prisma.education.create]: a [seekerId] is required and must be that
    of a stored profile (Education_seekerId_fkey). *)
Definition addEducation (user : option AuthMiddleware.ReqUser) (body : EducationInput)
    (st : Store) : Response * Store :=
  match user with
  | None => (fail 401 "Authentication required", st)
  | Some u =>
      if negb (educationSchema body) then (fail 400 "Validation failed", st)
      else
        match AuthMiddleware.req_jobSeekerId u with
        | Some seekerId =>
            if bool_decide (is_Some (jobSeekers st !! seekerId)) then
              (ok 201 "Education added successfully",
               setEducation
                 (<[nextKey (education st) :=
                      mkEducation seekerId (default EmptyString (e_institution body))
                        (default EmptyString (e_degree body))]> (education st)) st)
            else (fail 500 "Internal server error", st)
        | None => (fail 500 "Internal server error", st)
        end
  end.

(** The [where] of the update and of the delete: an [undefined]
    [seekerId] puts no condition on the row's seeker. *)
Definition ownRow (jobSeekerId : option Z) (row : Education) : bool :=
  match jobSeekerId with
  | Some seekerId => edu_seekerId row =? seekerId
  | None => true
  end.

(** [educationId] is [parseInt(req.params.educationId)], [None] for [NaN]. *)
Definition updateEducation (user : option AuthMiddleware.ReqUser) (educationId : option Z)
    (body : EducationInput) (st : Store) : Response * Store :=
  match user with
  | None => (fail 401 "Authentication required", st)
  | Some u =>
      if negb (Js.truthyId educationId) then (fail 400 "Education ID is required", st)
      else if negb (educationSchema body) then (fail 400 "Validation failed", st)
      else
        let id := default 0 educationId in
        match education st !! id with
        | Some row =>
            if ownRow (AuthMiddleware.req_jobSeekerId u) row then
              (ok 200 "Education updated successfully",
               setEducation
                 (<[id := mkEducation (edu_seekerId row)
                            (default EmptyString (e_institution body))
                            (default EmptyString (e_degree body))]> (education st)) st)
            else (fail 500 "Internal server error", st)
        | None => (fail 500 "Internal server error", st)
        end
  end.

Definition deleteEducation (user : option AuthMiddleware.ReqUser) (educationId : option Z)
    (st : Store) : Response * Store :=
  match user with
  | None => (fail 401 "Authentication required", st)
  | Some u =>
      if negb (Js.truthyId educationId) then (fail 400 "Education ID is required", st)
      else
        let id := default 0 educationId in
        match education st !! id with
        | Some row =>
            if ownRow (AuthMiddleware.req_jobSeekerId u) row then
              (ok 200 "Education deleted successfully",
               setEducation (delete id (education st)) st)
            else (fail 500 "Internal server error", st)
        | None => (fail 500 "Internal server error", st)
        end
  end.

(** The ids of the rows of a seeker, as the status query selects them. *)
Definition idsOf {A} (seekerOf : A -> Z) (seekerId : Z) (t : gmap Z A) : list Z :=
  List.map fst (List.filter (fun kv => seekerOf kv.2 =? seekerId) (map_to_list t)).

(** The rows [checkProfileStatus] reads: a user with the [jobSeeker]
    relation of the query. *)
Definition withSeeker (st : Store) : gmap Z JobSeekerProfile.User :=
  map_imap
    (fun id user =>
       Some (JobSeekerProfile.mkUser (user_name user) (user_phone user) (user_location user)
               ((fun kv =>
                   JobSeekerProfile.mkSeeker (seeker_skills kv.2)
                     (idsOf edu_seekerId kv.1 (education st))
                     (idsOf (fun s => s) kv.1 (experience st))
                     (idsOf (fun s => s) kv.1 (projects st))
                     (List.head (idsOf (fun s => s) kv.1 (preferences st))))
                  <$> seekerOfUser id (jobSeekers st))))
    (users st).

Definition checkProfileStatus (user : option AuthMiddleware.ReqUser) (st : Store)
  : Response * option JobSeekerProfile.ProfileStatus :=
  JobSeekerProfile.checkProfileStatus (AuthMiddleware.req_id <$> user) (withSeeker st).

End JobSeekerAccount.

(** ** routes/jobseeker.route.ts *)

Module SeekerProfileRoutes.
Import Accounts.

(** [router.get("/profile-status", authenticate, checkProfileStatus)] *)
Definition getProfileStatus (token : AuthMiddleware.Token) (st : Store)
  : Response * option JobSeekerProfile.ProfileStatus :=
  match AuthMiddleware.authenticate token st with
  | inl refusal => (refusal, None)
  | inr user => JobSeekerAccount.checkProfileStatus (Some user) st
  end.

(** [router.post("/profile", authenticate, createJobSeekerProfile)] *)
Definition postProfile (token : AuthMiddleware.Token) (skills : option (list string))
    (st : Store) : Response * Store :=
  match AuthMiddleware.authenticate token st with
  | inl refusal => (refusal, st)
  | inr user => JobSeekerAccount.createJobSeekerProfile (Some user) skills st
  end.

(** [router.put("/profile", authJobSeeker, requireCompleteProfile,
    updateJobSeekerProfile)] *)
Definition putProfile (token : AuthMiddleware.Token) (skills : option (list string))
    (st : Store) : Response * Store :=
  SeekerRoutes.guarded token st (fun refusal => (refusal, st))
    (fun user => JobSeekerAccount.updateJobSeekerProfile (Some user) skills st).

(** [router.post("/education", authJobSeeker, requireCompleteProfile,
    addEducation)] *)
Definition postEducation (token : AuthMiddleware.Token)
    (body : JobSeekerAccount.EducationInput) (st : Store) : Response * Store :=
  SeekerRoutes.guarded token st (fun refusal => (refusal, st))
    (fun user => JobSeekerAccount.addEducation (Some user) body st).

(** [router.put("/education/:educationId", ...)] *)
Definition putEducation (token : AuthMiddleware.Token) (educationId : option Z)
    (body : JobSeekerAccount.EducationInput) (st : Store) : Response * Store :=
  SeekerRoutes.guarded token st (fun refusal => (refusal, st))
    (fun user => JobSeekerAccount.updateEducation (Some user) educationId body st).

(** [router.delete("/education/:educationId", ...)] *)
Definition deleteEducation (token : AuthMiddleware.Token) (educationId : option Z)
    (st : Store) : Response * Store :=
  SeekerRoutes.guarded token st (fun refusal => (refusal, st))
    (fun user => JobSeekerAccount.deleteEducation (Some user) educationId st).

End SeekerProfileRoutes.

(** Referential integrity of the form fields and the applications: each
    names a stored job (JobFormField_jobId_fkey, Application_jobId_fkey). *)
Definition referential (db : Db) : bool :=
  forallb (fun f => bool_decide (is_Some (jobs db !! field_jobId f))) (formFields db)
  && forallb (fun kv => bool_decide (is_Some (jobs db !! app_jobId kv.2)))
       (map_to_list (applications db)).

(** No two active companies carry the same name, letter case aside. *)
Definition distinctActiveNames (t : gmap Z Company) : Prop :=
  forall i j ci cj,
    t !! i = Some ci -> t !! j = Some cj ->
    company_isActive ci = true -> company_isActive cj = true ->
    CompanyController.lower (company_name ci) = CompanyController.lower (company_name cj) ->
    i = j.

(** At most one employer profile for a user (Employer_userId_key). *)
Definition oneProfile (id : Z) (t : gmap Z Employer) : Prop :=
  forall e1 e2 r1 r2,
    t !! e1 = Some r1 -> t !! e2 = Some r2 ->
    employer_userId r1 = id -> employer_userId r2 = id -> e1 = e2.

(** The seeker profile of the account a token was issued to. *)
Definition callerSeeker (token : AuthMiddleware.Token) (st : Accounts.Store) : option Z :=
  match token with
  | AuthMiddleware.Verified id Accounts.JOB_SEEKER =>
      match Accounts.users st !! id with
      | Some user =>
          if bool_decide (Accounts.user_role user = Accounts.JOB_SEEKER)
          then fst <$> Accounts.seekerOfUser id (Accounts.jobSeekers st)
          else None
      | None => None
      end
  | _ => None
  end.

(** [b] was not made after [a]. *)
Definition notNewer (a b : Z * Application) : Prop :=
  app_appliedAt b.2 <= app_appliedAt a.2.

(** The strings of an update are ASCII text. *)
Definition asciiUpdate (body : CompanyProfile.UpdateInput) : bool :=
  CompanyController.optional CompanyController.asciiText (CompanyProfile.u_name body)
  && CompanyController.optional CompanyController.asciiText
       (CompanyProfile.u_description body)
  && CompanyController.optional CompanyController.asciiText (CompanyProfile.u_industry body)
  && CompanyController.optional CompanyController.asciiText (CompanyProfile.u_location body).

(** The submitted name holds no backslash. *)
Definition noEscape (pattern : string) : bool :=
  forallb (fun c => negb (Ascii.eqb c "\"%char)) (list_ascii_of_string pattern).

(** [z] is a whole number nearest to [100 * part / total]. *)
Definition nearestShare (z part total : Z) : Prop :=
  Z.abs (total * z - 100 * part) * 2 <= total.

(** The number is a whole number from 0 to 100 nearest to
    [100 * part / total]. *)
Definition sharesOf (x : Binary64.Number) (part total : nat) : bool :=
  match Binary64.integerOf x with
  | Some z =>
      (0 <=? z) && (z <=? 100)
      && (Z.abs (Z.of_nat total * z - 100 * Z.of_nat part) * 2 <=? Z.of_nat total)
  | None => false
  end.

(** The two numbers are the same whole number. *)
Definition sameWhole (x y : Binary64.Number) : bool :=
  match Binary64.integerOf x, Binary64.integerOf y with
  | Some a, Some b => a =? b
  | _, _ => false
  end.

(** The totals up to which the rounding of the dashboard's numbers is
    established, by evaluating them. *)
Definition checkedTotal : nat := 120.

(** The rates of a dashboard with [total] applications, [part] of them
    in the status counted (for the response rate: not pending). *)
Definition ratesChecked (total : nat) : bool :=
  forallb
    (fun part =>
       let rounded :=
         Binary64.Math_round
           (Binary64.mul (Binary64.div (Binary64.ofNat part) (Binary64.ofNat total))
              (Binary64.ofZ 100)) in
       sharesOf rounded part total
       && sameWhole (EmployerDashboard.percentage part total) rounded
       && sharesOf
            (Binary64.Math_round
               (Binary64.mul
                  (Binary64.div
                     (Binary64.sub (Binary64.ofNat total) (Binary64.ofNat (total - part)))
                     (Binary64.ofNat total))
                  (Binary64.ofZ 100)))
            part total)
    (seq 0 (S total)).

(** The growth for [thisMonth] applications of [total] is 0 when all came
    this month and else a whole number nearest to [500 t / p - 100], not
    below -100, and -100 when none came this month. *)
Definition growthChecked (thisMonth total : nat) : bool :=
  match Binary64.integerOf
          (EmployerInsights.calculateMonthlyGrowth (Binary64.ofNat thisMonth)
             (Binary64.ofNat total)) with
  | Some g =>
      if (total <=? thisMonth)%nat then g =? 0
      else
        let p := Z.of_nat total - Z.of_nat thisMonth in
        (Z.abs (p * g - (500 * Z.of_nat thisMonth - 100 * p)) * 2 <=? p)
        && (-100 <=? g) && ((0 <? thisMonth)%nat || (g =? -100))
  | None => false
  end.

(** ** A sample store with accounts *)

(** Company 5 with two employers: Eve (user 1, employer 11, a recruiter),
    who posted job 1, and Max (user 2, employer 12, the admin), who posted
    job 2 with one custom field and one application, of Ann (user 3,
    seeker 21). Noa (user 4) has signed up as an employer and has no
    employer profile. *)
Definition office : Accounts.Store :=
  Accounts.mkStore
    {[1 := Accounts.mkUser "Eve" "eve@example.org" "h1" (Some "555 0101") (Some "Oslo")
             Accounts.EMPLOYER;
      2 := Accounts.mkUser "Max" "max@example.org" "h2" (Some "555 0102") (Some "Oslo")
             Accounts.EMPLOYER;
      3 := Accounts.mkUser "Ann" "ann@example.org" "h3" (Some "555 0100") (Some "Bergen")
             Accounts.JOB_SEEKER;
      4 := Accounts.mkUser "Noa" "noa@example.org" "h4" None None Accounts.EMPLOYER]}
    {[21 := Accounts.mkJobSeeker 3 ["rocq"]]}
    {[31 := Accounts.mkEducation 21 "NTNU" "MSc"]} ∅ ∅ ∅
    (mkDb {[1 := mkJob 5 11 ACTIVE; 2 := mkJob 5 12 ACTIVE]}
          (JobController.defaultFields 1 1 ++ JobController.defaultFields 2 6
             ++ [mkField 11 2 "Portfolio" TEXT true false 100 []])
          {[1 := mkApplication 2 21 PENDING 100 100]}
          [mkAnswer 1 6 "Ann Lee"; mkAnswer 1 7 "ann@example.org"; mkAnswer 1 8 "555 0100";
           mkAnswer 1 9 "https://example.org/cv.pdf"; mkAnswer 1 10 "4";
           mkAnswer 1 11 "https://example.org/ann"]
          {[5 := mkCompany "Acme" "Software" true]}
          {[11 := mkEmployer 1 (Some 5) RECRUITER (Some 50);
            12 := mkEmployer 2 (Some 5) ADMIN (Some 40)]}).

(** What [authEmployer] attaches for Eve. *)
Definition eve : AuthMiddleware.ReqUser :=
  AuthMiddleware.mkReqUser 1 Accounts.EMPLOYER (Some 11) None (Some 5).

Definition posting : JobPosting.JobInput :=
  JobPosting.mkJobInput (Some "Backend engineer") (Some "BACKEND_DEVELOPER")
    (Some "Builds the services") (Some "FULL_TIME").

Definition noaDetails : EmployerController.BasicDetails :=
  EmployerController.mkBasicDetails (Some "Noa Berg") (Some "5550104000") (Some "Oslo").

Definition noaProfile : EmployerController.ProfileInput :=
  EmployerController.mkProfileInput (Some "Founder") None.

(** An update that names no column. *)
Definition noChange : CompanyProfile.UpdateInput :=
  CompanyProfile.mkUpdateInput None None None None None.

(** What [authEmployer] attaches for Max, the admin of company 5. *)
Definition admin : AuthMiddleware.ReqUser :=
  AuthMiddleware.mkReqUser 2 Accounts.EMPLOYER (Some 12) None (Some 5).

(** A stand-in for bcrypt that keeps the password readable. *)
Definition sampleHash (salt password : string) : string := String.append "$2b$" password.

Definition sampleCompare (password hashed : string) : bool :=
  String.eqb hashed (String.append "$2b$" password).

Definition newcomer : AuthController.SignupInput :=
  AuthController.mkSignupInput (Some "Ida") (Some "ida@example.org") (Some "correct horse")
    (Some "employer").

Definition degree : JobSeekerAccount.EducationInput :=
  JobSeekerAccount.mkEducationInput (Some "UiO") (Some "BSc").

(** * Properties *)

(** ** Application lifecycle *)

(** Membership in, and exclusion from, a list that is written out. *)
Ltac list_mem :=
  repeat match goal with
         | H : _ ∈ _ |- _ => rewrite ?elem_of_cons, ?elem_of_nil in H
         | H : ~ _ |- _ => rewrite ?elem_of_cons, ?elem_of_nil in H
         end;
  rewrite ?elem_of_cons, ?elem_of_nil;
  intuition (try discriminate; try congruence; try lia).

Section Lifecycle.

Variable now : Z.
Variable db : Db.
Variable id : Z.
Variable a : Application.
Hypothesis stored : applications db !! id = Some a.

Lemma seeker_withdraw_ok (s : Z) :
  s <> 0 -> app_seekerId a = s -> (app_status a ∈ [PENDING; REVIEWING]) ->
  JobSeekerController.withdrawApplication now (Some s) id db =
    (ok 200 "Application withdrawn successfully",
     setApplications
       (<[id := JobSeekerController.withdrawn now a]> (applications db)) db).
Proof using stored.
  intros Hs Hown Hst. unfold JobSeekerController.withdrawApplication.
  simpl. rewrite stored.
  assert ((s =? 0) = false) as -> by lia. simpl.
  assert ((app_seekerId a =? s) = true) as -> by lia.
  rewrite bool_decide_eq_true_2 by exact Hst. reflexivity.
Qed.

Lemma seeker_withdraw_refused (caller : option Z) :
  ~ (caller = Some (app_seekerId a) /\ (app_seekerId a <> 0)
     /\ (app_status a ∈ [PENDING; REVIEWING])) ->
  let out := JobSeekerController.withdrawApplication now caller id db in
  status out.1 = (if Js.truthyId caller then 404 else 400) /\ out.2 = db.
Proof using stored.
  intros Hno. unfold JobSeekerController.withdrawApplication.
  destruct caller as [s|]; simpl; [|split; reflexivity].
  destruct (s =? 0) eqn:Hs; simpl; [split; reflexivity|].
  rewrite stored.
  destruct (app_seekerId a =? s) eqn:Hown; simpl; [|split; reflexivity].
  case_bool_decide as Hst; simpl; [|split; reflexivity].
  exfalso. apply Hno. repeat split; [f_equal|..]; try lia. exact Hst.
Qed.

Lemma history_withdraw_ok (s : Z) :
  app_seekerId a = s -> (~ Spec.terminal (app_status a)) ->
  ApplicationHistoryController.withdrawApplication now s id db =
    (ok 200 "Application withdrawn successfully",
     setApplications
       (<[id := JobSeekerController.withdrawn now a]> (applications db)) db).
Proof using stored.
  intros Hown Hst. unfold ApplicationHistoryController.withdrawApplication.
  rewrite stored. assert ((app_seekerId a =? s) = true) as -> by lia.
  unfold Spec.terminal in Hst.
  destruct (app_status a); simpl; try reflexivity; exfalso; apply Hst; list_mem.
Qed.

Lemma history_withdraw_terminal (s : Z) :
  Spec.terminal (app_status a) ->
  let out := ApplicationHistoryController.withdrawApplication now s id db in
  status out.1 ∈ [400; 404] /\ out.2 = db.
Proof using stored.
  intros Hst. unfold ApplicationHistoryController.withdrawApplication.
  rewrite stored. unfold Spec.terminal in Hst.
  destruct (app_seekerId a =? s); simpl; [|split; [list_mem|reflexivity]].
  destruct (app_status a); simpl; try (split; [list_mem|reflexivity]);
    exfalso; list_mem.
Qed.

Lemma history_withdraw_owner_terminal (s : Z) :
  app_seekerId a = s -> Spec.terminal (app_status a) ->
  status (ApplicationHistoryController.withdrawApplication now s id db).1 = 400.
Proof using stored.
  intros Hown Hst. unfold ApplicationHistoryController.withdrawApplication.
  rewrite stored. unfold Spec.terminal in Hst.
  assert ((app_seekerId a =? s) = true) as -> by lia.
  destruct (app_status a); simpl; try reflexivity; exfalso; list_mem.
Qed.

Lemma history_withdraw_stranger (s : Z) :
  app_seekerId a <> s ->
  ApplicationHistoryController.withdrawApplication now s id db =
    (fail 404 "Application not found or access denied", db).
Proof using stored.
  intros Hown. unfold ApplicationHistoryController.withdrawApplication.
  rewrite stored. assert ((app_seekerId a =? s) = false) as -> by lia. reflexivity.
Qed.

End Lifecycle.

Lemma terminal_or_open (s : ApplicationStatus) :
  Spec.terminal s \/ (s ∈ [PENDING; REVIEWING; SHORTLISTED; INTERVIEWED]).
Proof. unfold Spec.terminal. destruct s; list_mem. Qed.

Lemma open_not_terminal (s : ApplicationStatus) :
  (s ∈ [PENDING; REVIEWING; SHORTLISTED; INTERVIEWED]) -> ~ Spec.terminal s.
Proof. unfold Spec.terminal. destruct s; list_mem. Qed.

(** C1, as amended: a seeker-initiated withdraw sets WITHDRAWN only for the
    applying seeker and only from a state that is not terminal.
    [JobSeekerController.withdrawApplication] accepts PENDING and REVIEWING
    and refuses everything else with 404 (400 without a seeker profile);
    [ApplicationHistoryController.withdrawApplication] accepts SHORTLISTED
    and INTERVIEWED as well, refuses WITHDRAWN, ACCEPTED and REJECTED with
    400 and another seeker's application with 404.  A refused attempt
    leaves the store as it was. *)
Theorem withdraw_transition_guards (now : Z) (db : Db) (id : Z) (a : Application) :
  applications db !! id = Some a ->
  let withdrawnDb :=
    setApplications (<[id := JobSeekerController.withdrawn now a]> (applications db)) db in
  (forall caller : option Z,
     let out := JobSeekerController.withdrawApplication now caller id db in
     (caller = Some (app_seekerId a) /\ (app_seekerId a <> 0)
        /\ (app_status a ∈ [PENDING; REVIEWING]) ->
      status out.1 = 200 /\ out.2 = withdrawnDb)
     /\ (~ (caller = Some (app_seekerId a) /\ (app_seekerId a <> 0)
            /\ (app_status a ∈ [PENDING; REVIEWING])) ->
         status out.1 = (if Js.truthyId caller then 404 else 400) /\ out.2 = db))
  /\ (forall s : Z,
       let out := ApplicationHistoryController.withdrawApplication now s id db in
       (app_seekerId a = s
          /\ (app_status a ∈ [PENDING; REVIEWING; SHORTLISTED; INTERVIEWED]) ->
        status out.1 = 200 /\ out.2 = withdrawnDb)
       /\ (app_seekerId a = s /\ (app_status a ∈ [WITHDRAWN; ACCEPTED; REJECTED]) ->
           status out.1 = 400 /\ out.2 = db)
       /\ (app_seekerId a <> s -> status out.1 = 404 /\ out.2 = db)).
Proof.
  intros Hstored withdrawnDb. split.
  - intros caller out. split.
    + intros (-> & Hs & Hst). subst out.
      rewrite (seeker_withdraw_ok now db id a Hstored (app_seekerId a) Hs eq_refl Hst).
      split; reflexivity.
    + intros Hno. exact (seeker_withdraw_refused now db id a Hstored caller Hno).
  - intros s out. split; [|split].
    + intros [Hown Hst]. subst out.
      rewrite (history_withdraw_ok now db id a Hstored s Hown (open_not_terminal _ Hst)).
      split; reflexivity.
    + intros [Hown Hst].
      assert (Spec.terminal (app_status a)) as Hterminal
        by (unfold Spec.terminal; list_mem).
      split.
      * exact (history_withdraw_owner_terminal now db id a Hstored s Hown Hterminal).
      * exact (proj2 (history_withdraw_terminal now db id a Hstored s Hterminal)).
    + intros Hother. subst out.
      rewrite (history_withdraw_stranger now db id a Hstored s Hother).
      split; reflexivity.
Qed.

Lemma withdraw_transition_guards_witness :
  applications (oneApplication INTERVIEWED) !! 1
    = Some (mkApplication 1 7 INTERVIEWED 100 100)
  /\ status (JobSeekerController.withdrawApplication 200 (Some 7) 1
               (oneApplication INTERVIEWED)).1 = 404
  /\ status (ApplicationHistoryController.withdrawApplication 200 7 1
               (oneApplication INTERVIEWED)).1 = 200.
Proof.
  assert (applications (oneApplication INTERVIEWED) !! 1
          = Some (mkApplication 1 7 INTERVIEWED 100 100)) as Hstored by reflexivity.
  pose proof (withdraw_transition_guards 200 (oneApplication INTERVIEWED) 1 _ Hstored)
    as [Hseeker Hhistory].
  split; [exact Hstored|]. split.
  - destruct (Hseeker (Some 7)) as [_ Hrefused]. destruct Hrefused as [Hcode _].
    + simpl. intros (_ & _ & Hst). list_mem.
    + exact Hcode.
  - apply (Hhistory 7). simpl. split; [reflexivity | list_mem].
Defined.

(** C1 fails as stated: the history entry point withdraws a SHORTLISTED
    application of the caller. *)
Lemma history_withdraws_shortlisted :
  let out := ApplicationHistoryController.withdrawApplication 200 7 1
               (oneApplication SHORTLISTED) in
  app_status <$> applications (oneApplication SHORTLISTED) !! 1 = Some SHORTLISTED
  /\ status out.1 = 200
  /\ app_status <$> applications out.2 !! 1 = Some WITHDRAWN.
Proof. vm_compute. repeat split. Qed.

Lemma update_status_allowed (now : Z) (db : Db) (id : Z) (a : Application) (s : string) :
  applications db !! id = Some a -> In s JobController.allowList ->
  exists st,
    JobController.statusOfString s = Some st /\ st <> WITHDRAWN
    /\ JobController.updateApplicationStatus now id (Js.Str s) db =
         (ok 200 (String.append "Application status updated to " s),
          setApplications
            (<[id := JobController.withStatus now st a]> (applications db)) db).
Proof.
  intros Hstored Hin. unfold JobController.allowList in Hin. simpl in Hin.
  unfold JobController.updateApplicationStatus.
  repeat (destruct Hin as [<- | Hin];
          [ eexists; split; [reflexivity|]; split; [discriminate|];
            simpl; rewrite Hstored; reflexivity | ]).
  destruct Hin.
Qed.

Lemma update_status_refused (now id : Z) (v : Js.Value) (db : Db) :
  JobController.allowed v = false ->
  JobController.updateApplicationStatus now id v db =
    (fail 400 "Valid status is required", db).
Proof.
  intros Hv. unfold JobController.updateApplicationStatus.
  rewrite Hv, orb_true_r. reflexivity.
Qed.

(** C2, as amended: ACCEPTED, REJECTED and WITHDRAWN absorb the seeker's
    withdrawals, both entry points leaving such an application as it is.
    The employer's [updateApplicationStatus] does not look at the current
    status: with any status of its allow-list it overwrites the status of
    a stored application, from a terminal state too; WITHDRAWN is not in
    the allow-list and is never set by it, and a status outside the
    allow-list is refused with 400 and changes nothing. *)
Theorem terminal_states_absorb_withdrawals (now : Z) (db : Db) (id : Z) (a : Application) :
  applications db !! id = Some a -> Spec.terminal (app_status a) ->
  (forall caller, (JobSeekerController.withdrawApplication now caller id db).2 = db)
  /\ (forall s, (ApplicationHistoryController.withdrawApplication now s id db).2 = db)
  /\ (forall s, In s JobController.allowList ->
        exists st,
          JobController.statusOfString s = Some st /\ st <> WITHDRAWN
          /\ let out := JobController.updateApplicationStatus now id (Js.Str s) db in
             status out.1 = 200
             /\ applications out.2 !! id = Some (JobController.withStatus now st a))
  /\ (forall v, JobController.allowed v = false ->
        JobController.updateApplicationStatus now id v db
        = (fail 400 "Valid status is required", db)).
Proof.
  intros Hstored Hterminal. repeat split.
  - intros caller. apply (seeker_withdraw_refused now db id a Hstored caller).
    intros (_ & _ & Hst). unfold Spec.terminal in Hterminal.
    destruct (app_status a); list_mem.
  - intros s. apply (history_withdraw_terminal now db id a Hstored s Hterminal).
  - intros s Hin.
    destruct (update_status_allowed now db id a s Hstored Hin) as (st & Hst & Hne & Hout).
    exists st. split; [exact Hst|]. split; [exact Hne|].
    rewrite Hout. simpl. split; [reflexivity|]. apply lookup_insert_eq.
  - intros v Hv. exact (update_status_refused now id v db Hv).
Qed.

Lemma terminal_states_absorb_withdrawals_witness :
  (JobSeekerController.withdrawApplication 200 (Some 7) 1 (oneApplication ACCEPTED)).2
    = oneApplication ACCEPTED
  /\ (ApplicationHistoryController.withdrawApplication 200 7 1 (oneApplication ACCEPTED)).2
    = oneApplication ACCEPTED.
Proof.
  assert (applications (oneApplication ACCEPTED) !! 1
          = Some (mkApplication 1 7 ACCEPTED 100 100)) as Hstored by reflexivity.
  assert (Spec.terminal (app_status (mkApplication 1 7 ACCEPTED 100 100))) as Hterminal
    by (unfold Spec.terminal; simpl; list_mem).
  pose proof (terminal_states_absorb_withdrawals 200 (oneApplication ACCEPTED) 1 _
                Hstored Hterminal) as (Hseeker & Hhistory & _).
  split; [apply (Hseeker (Some 7)) | apply (Hhistory 7)].
Defined.

(** C2 fails as stated: the employer moves an ACCEPTED application back
    to REVIEWING. *)
Lemma employer_reopens_accepted :
  let out := JobController.updateApplicationStatus 300 1 (Js.Str "REVIEWING")
               (oneApplication ACCEPTED) in
  app_status <$> applications (oneApplication ACCEPTED) !! 1 = Some ACCEPTED
  /\ status out.1 = 200
  /\ app_status <$> applications out.2 !! 1 = Some REVIEWING.
Proof. vm_compute. repeat split. Qed.

(** ** The store: keys and scans *)

Lemma key_below_fold {A} (t : gmap Z A) (k : Z) (v : A) :
  t !! k = Some v -> k <= map_fold (fun k _ acc => Z.max k acc) 0 t.
Proof.
  revert k v.
  apply (map_fold_weak_ind
           (fun r (m : gmap Z A) => forall k v, m !! k = Some v -> k <= r)).
  - intros k v Hk. rewrite lookup_empty in Hk. discriminate.
  - intros i x m r _ IH k v Hk. destruct (decide (i = k)) as [->|Hne].
    + lia.
    + rewrite lookup_insert_ne in Hk by exact Hne. specialize (IH k v Hk). lia.
Qed.

Lemma nextKey_fresh {A} (t : gmap Z A) : t !! nextKey t = None.
Proof.
  destruct (t !! nextKey t) as [v|] eqn:Hk; [|reflexivity].
  apply key_below_fold in Hk. unfold nextKey in Hk. lia.
Qed.

Lemma scan_spec {A} (t : gmap Z A) (k : Z) (v : A) :
  In (k, v) (map_to_list t) <-> t !! k = Some v.
Proof. rewrite <- list_elem_of_In. apply elem_of_map_to_list. Qed.

Lemma find_split {A} (p : A -> bool) (l : list A) (x : A) :
  List.find p l = Some x ->
  exists before after,
    l = (before ++ x :: after)%list /\ p x = true /\ forall y, In y before -> p y = false.
Proof.
  induction l as [|y l IH]; simpl; [discriminate|].
  destruct (p y) eqn:Hy.
  - intros [= ->]. exists [], l. repeat split; [exact Hy | intros ? []].
  - intros Hx. destruct (IH Hx) as (before & after & -> & Hpx & Hbefore).
    exists (y :: before), after. repeat split; [exact Hpx|].
    intros z [<-|Hz]; [exact Hy | exact (Hbefore z Hz)].
Qed.

Lemma find_filter {A} (p q : A -> bool) (l : list A) :
  List.find q (List.filter p l) = List.find (fun x => p x && q x) l.
Proof.
  induction l as [|y l IH]; simpl; [reflexivity|].
  destruct (p y); simpl; [destruct (q y); [reflexivity | exact IH] | exact IH].
Qed.

Lemma includes_In (x : Z) (l : list Z) :
  JobSeekerController.includes x l = true <-> In x l.
Proof.
  unfold JobSeekerController.includes. rewrite existsb_exists. split.
  - intros (y & Hy & Hxy). apply Z.eqb_eq in Hxy. subst. exact Hy.
  - intros Hx. exists x. split; [exact Hx | apply Z.eqb_refl].
Qed.

(** ** Applying: one application for a job and a seeker *)

Lemma findByJobAndSeeker_Some (jobId seekerId : Z) (t : gmap Z Application) kv :
  JobSeekerController.findByJobAndSeeker jobId seekerId t = Some kv ->
  t !! kv.1 = Some kv.2 /\ Spec.pairOf kv.2 = (jobId, seekerId).
Proof.
  intros Hfind. apply find_some in Hfind as [Hin Hp]. destruct kv as [k v].
  apply scan_spec in Hin. split; [exact Hin|].
  apply andb_true_iff in Hp as [Hj Hs]. simpl in *.
  unfold Spec.pairOf. f_equal; lia.
Qed.

Lemma findByJobAndSeeker_None (jobId seekerId : Z) (t : gmap Z Application) :
  JobSeekerController.findByJobAndSeeker jobId seekerId t = None ->
  forall k v, t !! k = Some v -> Spec.pairOf v <> (jobId, seekerId).
Proof.
  intros Hfind k v Hk [= Hj Hs].
  apply scan_spec in Hk.
  pose proof (find_none _ _ Hfind (k, v) Hk) as Hp. simpl in Hp.
  apply andb_false_iff in Hp as [Hp|Hp]; lia.
Qed.

Lemma applied_find (jobId seekerId : Z) (db : Db) :
  Spec.applied jobId seekerId db <->
  JobSeekerController.findByJobAndSeeker jobId seekerId (applications db) <> None.
Proof.
  split.
  - intros (k & v & Hk & Hpair) Hnone.
    exact (findByJobAndSeeker_None _ _ _ Hnone k v Hk Hpair).
  - destruct (JobSeekerController.findByJobAndSeeker jobId seekerId (applications db))
      as [[k v]|] eqn:Hfind; [|intros []; reflexivity].
    intros _. apply findByJobAndSeeker_Some in Hfind as [Hk Hpair].
    exists k, v. split; assumption.
Qed.

Lemma uniquePairs_insert_fresh (t : gmap Z Application) (k : Z) (v : Application) :
  t !! k = None ->
  (forall k' v', t !! k' = Some v' -> Spec.pairOf v' <> Spec.pairOf v) ->
  Spec.uniquePairs t -> Spec.uniquePairs (<[k := v]> t).
Proof.
  intros Hk Hnew Huniq. unfold Spec.uniquePairs in *.
  rewrite (map_to_list_insert t k v Hk), fmap_cons, NoDup_cons.
  split; [|exact Huniq].
  rewrite list_elem_of_fmap. intros ([k' v'] & Hpair & Hin).
  apply elem_of_map_to_list in Hin. exact (Hnew k' v' Hin (eq_sym Hpair)).
Qed.

Lemma uniquePairs_rewrite (t : gmap Z Application) (k : Z) (v v' : Application) :
  t !! k = Some v -> Spec.pairOf v' = Spec.pairOf v ->
  Spec.uniquePairs t -> Spec.uniquePairs (<[k := v']> t).
Proof.
  intros Hk Hpair. unfold Spec.uniquePairs.
  rewrite <- (map_to_list_delete t k v Hk), <- insert_delete_eq.
  rewrite (map_to_list_insert (delete k t) k v' (lookup_delete_eq t k)).
  rewrite !fmap_cons. simpl. rewrite Hpair. tauto.
Qed.

(** The writers of a stored application's status keep its job and seeker. *)
Lemma status_writers_keep_pairs (now id : Z) (db : Db) :
  Spec.uniquePairs (applications db) ->
  (forall caller,
     Spec.uniquePairs
       (applications (JobSeekerController.withdrawApplication now caller id db).2))
  /\ (forall s,
        Spec.uniquePairs
          (applications (ApplicationHistoryController.withdrawApplication now s id db).2))
  /\ (forall v,
        Spec.uniquePairs
          (applications (JobController.updateApplicationStatus now id v db).2)).
Proof.
  intros Huniq. split; [|split].
  - intros caller. unfold JobSeekerController.withdrawApplication.
    destruct (negb (Js.truthyId caller)); [exact Huniq|].
    destruct (applications db !! id) as [a|] eqn:Hid; [|exact Huniq].
    destruct (_ && _); [|exact Huniq].
    simpl. apply (uniquePairs_rewrite _ _ a); [exact Hid | reflexivity | exact Huniq].
  - intros s. unfold ApplicationHistoryController.withdrawApplication.
    destruct (applications db !! id) as [a|] eqn:Hid; [|exact Huniq].
    destruct (app_seekerId a =? s); [|exact Huniq].
    destruct (bool_decide (app_status a = WITHDRAWN)); [exact Huniq|].
    destruct (_ || _); [exact Huniq|].
    simpl. apply (uniquePairs_rewrite _ _ a); [exact Hid | reflexivity | exact Huniq].
  - intros v. unfold JobController.updateApplicationStatus.
    destruct (_ || _); [exact Huniq|].
    destruct v as [| | | |str]; try exact Huniq.
    destruct (applications db !! id) as [a|] eqn:Hid; [|exact Huniq].
    destruct (JobController.statusOfString str); [|exact Huniq].
    simpl. apply (uniquePairs_rewrite _ _ a); [exact Hid | reflexivity | exact Huniq].
Qed.

Lemma createApplication_Some (now jobId seekerId : Z) rs (db db' : Db) :
  JobSeekerController.createApplication now jobId seekerId rs db = Some db' ->
  JobSeekerController.findByJobAndSeeker jobId seekerId (applications db) = None
  /\ db' = setResponses
             (responses db ++
                List.map (fun r => mkAnswer (nextKey (applications db))
                                     (JobSeekerController.fieldId r)
                                     (JobSeekerController.answer r)) rs)
             (setApplications
                (<[nextKey (applications db) := mkApplication jobId seekerId PENDING now now]>
                   (applications db)) db).
Proof.
  unfold JobSeekerController.createApplication.
  destruct (JobSeekerController.storeAccepts jobId seekerId rs db) eqn:Hacc; [|discriminate].
  intros [= <-]. split; [|reflexivity].
  unfold JobSeekerController.storeAccepts in Hacc.
  apply andb_true_iff in Hacc as [Hacc _]. apply andb_true_iff in Hacc as [Hacc _].
  apply bool_decide_eq_true_1 in Hacc. exact Hacc.
Qed.

(** Every way [applyForJob] can end. *)
Lemma apply_outcome (now : Z) (caller : option Z) (jobId : Z) rs (db : Db) :
  let out := JobSeekerController.applyForJob now caller jobId rs db in
  (status out.1 <> 201 /\ out.2 = db)
  \/ (status out.1 = 201
      /\ exists s, caller = Some s
           /\ JobSeekerController.createApplication now jobId s rs db = Some out.2).
Proof.
  unfold JobSeekerController.applyForJob.
  destruct caller as [s|]; simpl; [|left; split; [discriminate|reflexivity]].
  destruct (s =? 0); simpl; [left; split; [discriminate|reflexivity]|].
  destruct (jobs db !! jobId) as [job|]; [|left; split; [discriminate|reflexivity]].
  case_bool_decide; [|left; split; [discriminate|reflexivity]].
  destruct (JobSeekerController.findByJobAndSeeker jobId s (applications db));
    [left; split; [discriminate|reflexivity]|].
  destruct (JobSeekerController.firstMissing _ rs);
    [left; split; [discriminate|reflexivity]|].
  destruct (JobSeekerController.createApplication now jobId s rs db) as [db'|] eqn:Hcreate;
    [|left; split; [discriminate|reflexivity]].
  right. split; [reflexivity|]. exists s. split; [reflexivity | exact Hcreate].
Qed.

(** What [applyForJob] does for a seeker with a profile on an ACTIVE job. *)
Lemma apply_active (now s jobId : Z) (job : Job) rs (db : Db) :
  s <> 0 -> jobs db !! jobId = Some job -> job_status job = ACTIVE ->
  JobSeekerController.applyForJob now (Some s) jobId rs db =
    match JobSeekerController.findByJobAndSeeker jobId s (applications db) with
    | Some _ => (fail 400 "You have already applied for this job", db)
    | None =>
        match JobSeekerController.firstMissing
                (JobSeekerController.formFieldsOf jobId db) rs with
        | Some field =>
            (fail 400 (JobSeekerController.requiredFieldMissing (field_label field)), db)
        | None =>
            match JobSeekerController.createApplication now jobId s rs db with
            | Some db' => (ok 201 "Application submitted successfully", db')
            | None => (fail 500 "Failed to submit application", db)
            end
        end
    end.
Proof.
  intros Hs Hjob Hactive. unfold JobSeekerController.applyForJob. simpl.
  assert ((s =? 0) = false) as -> by lia. simpl.
  rewrite Hjob, bool_decide_eq_true_2 by exact Hactive. reflexivity.
Qed.

(** C3, as amended: at most one application is stored for a job and a
    seeker; applying keeps it so, and so do the withdrawals and the
    employer's status update.  A second apply for the same pair on an
    ACTIVE job is answered with status 400 and the message that the seeker
    has already applied, and leaves the store, the stored application and
    its responses included, as it was. *)
Theorem apply_at_most_once (now : Z) (caller : option Z) (jobId : Z)
    (rs : list JobSeekerController.ResponseInput) (db : Db) :
  Spec.uniquePairs (applications db) ->
  let out := JobSeekerController.applyForJob now caller jobId rs db in
  Spec.uniquePairs (applications out.2)
  /\ (forall s job,
        caller = Some s -> s <> 0 -> jobs db !! jobId = Some job ->
        job_status job = ACTIVE -> Spec.applied jobId s db ->
        out = (fail 400 "You have already applied for this job", db))
  /\ (forall s, caller = Some s -> status out.1 = 201 ->
        Spec.applied jobId s out.2 /\ jobs out.2 = jobs db)
  /\ (forall id who,
        Spec.uniquePairs
          (applications (JobSeekerController.withdrawApplication now who id db).2))
  /\ (forall id s,
        Spec.uniquePairs
          (applications (ApplicationHistoryController.withdrawApplication now s id db).2))
  /\ (forall id v,
        Spec.uniquePairs
          (applications (JobController.updateApplicationStatus now id v db).2)).
Proof.
  intros Huniq out.
  pose proof (apply_outcome now caller jobId rs db) as Hout. cbv zeta in Hout.
  fold out in Hout.
  split; [|split; [|split; [|split; [|split]]]].
  - destruct Hout as [[_ Hsame]|(_ & s & _ & Hcreate)].
    + rewrite Hsame. exact Huniq.
    + apply createApplication_Some in Hcreate as [Hnone ->]. simpl.
      apply uniquePairs_insert_fresh; [apply nextKey_fresh | | exact Huniq].
      intros k v Hk. exact (findByJobAndSeeker_None _ _ _ Hnone k v Hk).
  - intros s job -> Hs Hjob Hactive Happlied. subst out.
    rewrite (apply_active now s jobId job rs db Hs Hjob Hactive).
    apply applied_find in Happlied.
    destruct (JobSeekerController.findByJobAndSeeker jobId s (applications db));
      [reflexivity | contradiction].
  - intros s Hcaller H201.
    destruct Hout as [[Hne _]|(_ & s' & Hs' & Hcreate)]; [contradiction|].
    rewrite Hcaller in Hs'. injection Hs' as <-.
    apply createApplication_Some in Hcreate as [_ ->]. split; [|reflexivity].
    exists (nextKey (applications db)), (mkApplication jobId s PENDING now now).
    split; [apply lookup_insert_eq | reflexivity].
  - intros id who. apply (status_writers_keep_pairs now id db Huniq).
  - intros id s. apply (status_writers_keep_pairs now id db Huniq).
  - intros id v. apply (status_writers_keep_pairs now id db Huniq).
Qed.

Lemma apply_at_most_once_witness :
  JobSeekerController.applyForJob 200 (Some 7) 1 fiveAnswers (oneApplication PENDING)
    = (fail 400 "You have already applied for this job", oneApplication PENDING).
Proof.
  assert (Spec.uniquePairs (applications (oneApplication PENDING))) as Huniq
    by (unfold Spec.uniquePairs; vm_compute; apply NoDup_singleton).
  destruct (apply_at_most_once 200 (Some 7) 1 fiveAnswers (oneApplication PENDING) Huniq)
    as (_ & Hsecond & _).
  apply (Hsecond 7 (mkJob 1 1 ACTIVE)); [reflexivity | lia | reflexivity | reflexivity |].
  exists 1, (mkApplication 1 7 PENDING 100 100). split; reflexivity.
Defined.

(** C3 fails as stated: the second apply is answered with 400, not 409. *)
Lemma second_apply_is_not_a_conflict :
  let out := JobSeekerController.applyForJob 200 (Some 7) 1 fiveAnswers
               (oneApplication PENDING) in
  Spec.applied 1 7 (oneApplication PENDING)
  /\ out.1 = fail 400 "You have already applied for this job"
  /\ status out.1 <> 409.
Proof.
  split; [|split].
  - exists 1, (mkApplication 1 7 PENDING 100 100). split; reflexivity.
  - vm_compute. reflexivity.
  - vm_compute. discriminate.
Qed.

(** ** Applying: required fields *)

Lemma isMissing_spec rs jobId f : isMissing rs jobId f = true <-> Spec.missing rs jobId f.
Proof.
  unfold isMissing, Spec.missing.
  rewrite !andb_true_iff, negb_true_iff, Z.eqb_eq, <- not_true_iff_false, includes_In.
  tauto.
Qed.

Lemma isMissing_false rs jobId f : isMissing rs jobId f = false <-> ~ Spec.missing rs jobId f.
Proof. rewrite <- isMissing_spec, not_true_iff_false. tauto. Qed.

Lemma firstMissing_scan rs jobId (db : Db) :
  JobSeekerController.firstMissing (JobSeekerController.formFieldsOf jobId db) rs
  = List.find (isMissing rs jobId) (formFields db).
Proof.
  unfold JobSeekerController.firstMissing, JobSeekerController.formFieldsOf.
  rewrite !find_filter. reflexivity.
Qed.

Lemma find_first {A} (p : A -> bool) (before after : list A) (x : A) :
  p x = true -> (forall y, In y before -> p y = false) ->
  List.find p (before ++ x :: after) = Some x.
Proof.
  intros Hx. induction before as [|y before IH]; simpl; intros Hbefore.
  - rewrite Hx. reflexivity.
  - rewrite (Hbefore y (or_introl eq_refl)). apply IH.
    intros z Hz. apply Hbefore. right. exact Hz.
Qed.

Lemma firstMissing_Some rs jobId (db : Db) f :
  JobSeekerController.firstMissing (JobSeekerController.formFieldsOf jobId db) rs = Some f
  <-> Spec.firstMissingIs rs jobId (formFields db) f.
Proof.
  rewrite firstMissing_scan. unfold Spec.firstMissingIs. split.
  - intros Hfind. apply find_split in Hfind as (before & after & Heq & Hf & Hbefore).
    exists before, after. split; [exact Heq|]. split; [apply isMissing_spec, Hf|].
    intros g Hg. apply isMissing_false, Hbefore, Hg.
  - intros (before & after & -> & Hf & Hbefore). apply find_first.
    + apply isMissing_spec, Hf.
    + intros g Hg. apply isMissing_false, Hbefore, Hg.
Qed.

Lemma firstMissing_None rs jobId (db : Db) :
  JobSeekerController.firstMissing (JobSeekerController.formFieldsOf jobId db) rs = None
  <-> forall f, In f (formFields db) -> ~ Spec.missing rs jobId f.
Proof.
  rewrite firstMissing_scan. split.
  - intros Hfind f Hf. apply isMissing_false. exact (find_none _ _ Hfind f Hf).
  - intros Hall. destruct (List.find (isMissing rs jobId) (formFields db)) as [f|] eqn:Hfind;
      [|reflexivity].
    apply find_some in Hfind as [Hin Hf]. apply isMissing_spec in Hf.
    destruct (Hall f Hin Hf).
Qed.

Lemma storeAccepts_spec jobId seekerId rs (db : Db) :
  ~ Spec.applied jobId seekerId db ->
  JobSeekerController.storeAccepts jobId seekerId rs db = true <-> Spec.storable rs db.
Proof.
  intros Hnew. unfold JobSeekerController.storeAccepts, Spec.storable.
  rewrite applied_find in Hnew.
  rewrite !andb_true_iff, !bool_decide_eq_true, forallb_forall.
  split.
  - intros [[_ Hfk] Hnodup]. split; [exact Hnodup|].
    intros r Hr. specialize (Hfk r Hr). apply includes_In, in_map_iff in Hfk.
    destruct Hfk as (f & Hid & Hf). exists f. split; assumption.
  - intros [Hnodup Hfk]. split; [split|exact Hnodup].
    + destruct (JobSeekerController.findByJobAndSeeker jobId seekerId (applications db));
        [exfalso; apply Hnew; discriminate | reflexivity].
    + intros r Hr. destruct (Hfk r Hr) as (f & Hf & Hid).
      apply includes_In, in_map_iff. exists f. split; assumption.
Qed.

(** C4, as amended: on an ACTIVE job to which the caller has not applied,
    apply answers 400 exactly when a required field of the job's form has
    no response with its id, and the message then names the label of the
    first such field.  When every required field is answered and the
    responses can be stored (no field answered twice, every answered field
    a stored form field) the application is created, PENDING, with one
    response for each submitted answer; when they cannot, the write is
    refused by the store and the answer is 500 with nothing created. *)
Theorem apply_required_fields (now s jobId : Z) (job : Job)
    (rs : list JobSeekerController.ResponseInput) (db : Db) :
  s <> 0 -> jobs db !! jobId = Some job -> job_status job = ACTIVE ->
  ~ Spec.applied jobId s db ->
  let out := JobSeekerController.applyForJob now (Some s) jobId rs db in
  let complete := forall f, In f (formFields db) -> ~ Spec.missing rs jobId f in
  (status out.1 = 400 <-> exists f, In f (formFields db) /\ Spec.missing rs jobId f)
  /\ (forall f, Spec.firstMissingIs rs jobId (formFields db) f ->
        out = (fail 400 (JobSeekerController.requiredFieldMissing (field_label f)), db))
  /\ (complete -> Spec.storable rs db ->
        out = (ok 201 "Application submitted successfully",
               setResponses
                 (responses db ++
                    List.map (fun r => mkAnswer (nextKey (applications db))
                                         (JobSeekerController.fieldId r)
                                         (JobSeekerController.answer r)) rs)
                 (setApplications
                    (<[nextKey (applications db) := mkApplication jobId s PENDING now now]>
                       (applications db)) db)))
  /\ (complete -> ~ Spec.storable rs db ->
        out = (fail 500 "Failed to submit application", db)).
Proof.
  intros Hs Hjob Hactive Hnew out complete. subst out.
  rewrite (apply_active now s jobId job rs db Hs Hjob Hactive).
  pose proof (storeAccepts_spec jobId s rs db Hnew) as Hstore.
  rewrite applied_find in Hnew.
  destruct (JobSeekerController.findByJobAndSeeker jobId s (applications db)) as [kv|];
    [exfalso; apply Hnew; discriminate|].
  destruct (JobSeekerController.firstMissing (JobSeekerController.formFieldsOf jobId db) rs)
    as [field|] eqn:Hfirst.
  - pose proof Hfirst as Hfield. apply firstMissing_Some in Hfield.
    assert (In field (formFields db) /\ Spec.missing rs jobId field) as [Hin Hmiss].
    { destruct Hfield as (before & after & Heq & Hmiss & _). split; [|exact Hmiss].
      rewrite Heq. apply in_or_app. right. left. reflexivity. }
    split; [|split; [|split]].
    + split; [intros _; exists field; split; assumption | reflexivity].
    + intros f Hf. apply firstMissing_Some in Hf. rewrite Hfirst in Hf.
      injection Hf as ->. reflexivity.
    + intros Hcomplete. destruct (Hcomplete field Hin Hmiss).
    + intros Hcomplete. destruct (Hcomplete field Hin Hmiss).
  - pose proof Hfirst as Hnone. rewrite firstMissing_None in Hnone.
    assert (forall r : Response * Db,
              status r.1 <> 400 ->
              (status r.1 = 400 <->
               exists f, In f (formFields db) /\ Spec.missing rs jobId f)) as Hiff.
    { intros r Hr. split; [intros H400; destruct (Hr H400)|].
      intros (f & Hin & Hmiss). destruct (Hnone f Hin Hmiss). }
    unfold JobSeekerController.createApplication.
    destruct (JobSeekerController.storeAccepts jobId s rs db) eqn:Hacc.
    + split; [|split; [|split]].
      * apply Hiff. simpl. discriminate.
      * intros f Hf. apply firstMissing_Some in Hf. rewrite Hfirst in Hf. discriminate.
      * intros _ _. reflexivity.
      * intros _ Hno. exfalso. apply Hno, Hstore. reflexivity.
    + split; [|split; [|split]].
      * apply Hiff. simpl. discriminate.
      * intros f Hf. apply firstMissing_Some in Hf. rewrite Hfirst in Hf. discriminate.
      * intros _ Hyes. apply Hstore in Hyes. discriminate.
      * intros _ _. reflexivity.
Qed.

Lemma apply_required_fields_witness :
  status (JobSeekerController.applyForJob 100 (Some 7) 1 fiveAnswers openJob).1 = 201
  /\ JobSeekerController.applyForJob 100 (Some 7) 1
       [JobSeekerController.mkInput 1 "Ann Lee"] openJob
     = (fail 400 (JobSeekerController.requiredFieldMissing "Email Address"), openJob).
Proof.
  assert (~ Spec.applied 1 7 openJob) as Hnew.
  { intros (k & v & Hk & _). vm_compute in Hk. discriminate. }
  split.
  - pose proof (apply_required_fields 100 7 1 (mkJob 1 1 ACTIVE) fiveAnswers openJob
                  ltac:(lia) eq_refl eq_refl Hnew) as (_ & _ & Hcreated & _).
    rewrite Hcreated; [reflexivity | |].
    + apply (firstMissing_None fiveAnswers 1 openJob). vm_compute. reflexivity.
    + apply (storeAccepts_spec 1 7 fiveAnswers openJob Hnew). vm_compute. reflexivity.
  - pose proof (apply_required_fields 100 7 1 (mkJob 1 1 ACTIVE)
                  [JobSeekerController.mkInput 1 "Ann Lee"] openJob
                  ltac:(lia) eq_refl eq_refl Hnew) as (_ & Hfirst & _).
    apply (Hfirst (mkField 2 1 "Email Address" EMAIL true true 2 [])).
    apply firstMissing_Some. vm_compute. reflexivity.
Defined.

(** C4 fails as stated: with every required field answered, one of them
    twice, no application is created. *)
Lemma repeated_answer_is_not_stored :
  let rs := (fiveAnswers ++ [JobSeekerController.mkInput 1 "A. Lee"])%list in
  let out := JobSeekerController.applyForJob 100 (Some 7) 1 rs openJob in
  JobSeekerController.firstMissing (JobSeekerController.formFieldsOf 1 openJob) rs = None
  /\ out = (fail 500 "Failed to submit application", openJob).
Proof. split; vm_compute; reflexivity. Qed.

(** ** Percentages *)

Lemma isZero_inject (z : Z) : Js.isZero (inject_Z z) = (z =? 0).
Proof.
  unfold Js.isZero, Qeq_bool, inject_Z. simpl. rewrite Z.mul_1_r. reflexivity.
Qed.

Lemma orNumber_never_NaN (x : Binary64.Number) :
  Binary64.isNaN (Binary64.orNumber x (Binary64.ofZ 0)) = false.
Proof.
  unfold Binary64.orNumber, Binary64.truthyNumber, Binary64.isNaN.
  destruct (PrimFloat.is_nan x) eqn:Hnan; simpl; [reflexivity|].
  destruct (PrimFloat.is_zero x); simpl; [reflexivity | exact Hnan].
Qed.

Lemma percentage_never_NaN (count total : nat) :
  Binary64.isNaN (EmployerDashboard.percentage count total) = false.
Proof. apply orNumber_never_NaN. Qed.

Lemma stats_counts (employerId companyId : Z) (db : Db) s n :
  In (s, n) (EmployerDashboard.applicationStatusStats employerId companyId db) ->
  (0 < n <= EmployerDashboard.totalApplicants employerId companyId db)%nat.
Proof.
  unfold EmployerDashboard.applicationStatusStats. rewrite filter_In, in_map_iff.
  intros [(s' & [= <- <-] & _) Hn]. simpl in Hn.
  apply negb_true_iff, Nat.eqb_neq in Hn. split; [lia|].
  unfold EmployerDashboard.countOf, EmployerDashboard.totalApplicants.
  apply filter_length_le.
Qed.

(** C9: the code breaks the claim at a tie.  With 23 of 40 applications
    SHORTLISTED the quotient 23/40 is rounded down to a double, its
    product with 100 lies below 57.5, and the bucket reports 57, where
    round(100 * 23 / 40) is 58.  The other bucket of this store, 17 of 40,
    reports 43. *)
Theorem status_distribution_at_a_tie :
  (EmployerDashboard.getDashboardStats (Some 9) (Some 5) fortyApplications).2
  = Some ([EmployerDashboard.mkBucket PENDING 17 (Binary64.ofZ 43);
           EmployerDashboard.mkBucket SHORTLISTED 23 (Binary64.ofZ 57)], 40%nat)
  /\ Spec.roundedShare 23 40 = 58.
Proof. split; vm_compute; reflexivity. Qed.

(** ** Profile completion *)

Lemma seeker_percentage (user : JobSeekerProfile.User) :
  let st := JobSeekerProfile.profileStatus user in
  JobSeekerProfile.totalSections st = 6%nat
  /\ JobSeekerProfile.sectionsCompleted st
     = length (List.filter id
         [JobSeekerProfile.basicDetails st; JobSeekerProfile.jobSeekerProfile st;
          JobSeekerProfile.hasEducation st; JobSeekerProfile.hasExperience st;
          JobSeekerProfile.hasProjects st; JobSeekerProfile.hasPreferences st])
  /\ JobSeekerProfile.completionPercentage st
     = Binary64.ofZ
         (Spec.roundedShare (Z.of_nat (JobSeekerProfile.sectionsCompleted st)) 6).
Proof.
  destruct user as [n p l js].
  destruct n as [|c n]; destruct p as [[|c1 p]|]; destruct l as [[|c2 l]|];
    destruct js as [[[|s1 sk] [|e1 ed] [|x1 ex] [|p1 pr] [pf|]]|];
    vm_compute; repeat split.
Qed.

(** C5, as amended: for a stored job seeker [checkProfileStatus] derives
    six flags from the user's data (basic details: name, phone and
    location; profile: a skill; education, experience, projects: a row
    each; preferences: the row) and reports round(100 * completed / 6)
    over them; a seeker with basic details, a skill, an education and an
    experience row, no project and no preferences gets 67.  For a stored
    employer it reports a fixed value for the first incomplete step in
    order: 0 without basic details, else 33 without an employer profile,
    else 66 without a company, else 100. *)
Theorem completion_percentage :
  (forall uid users user, users !! uid = Some user ->
     exists st,
       (JobSeekerProfile.checkProfileStatus (Some uid) users).2 = Some st
       /\ JobSeekerProfile.basicDetails st
          = Js.truthyString (Some (JobSeekerProfile.name user))
            && Js.truthyString (JobSeekerProfile.phone user)
            && Js.truthyString (JobSeekerProfile.location user)
       /\ JobSeekerProfile.jobSeekerProfile st
          = from_option (fun js => JobSeekerProfile.nonEmpty (JobSeekerProfile.skills js))
              false (JobSeekerProfile.jobSeeker user)
       /\ JobSeekerProfile.hasEducation st
          = from_option (fun js => JobSeekerProfile.nonEmpty (JobSeekerProfile.education js))
              false (JobSeekerProfile.jobSeeker user)
       /\ JobSeekerProfile.hasExperience st
          = from_option (fun js => JobSeekerProfile.nonEmpty (JobSeekerProfile.experience js))
              false (JobSeekerProfile.jobSeeker user)
       /\ JobSeekerProfile.hasProjects st
          = from_option (fun js => JobSeekerProfile.nonEmpty (JobSeekerProfile.projects js))
              false (JobSeekerProfile.jobSeeker user)
       /\ JobSeekerProfile.hasPreferences st
          = from_option (fun js => bool_decide (is_Some (JobSeekerProfile.preferences js)))
              false (JobSeekerProfile.jobSeeker user)
       /\ JobSeekerProfile.totalSections st = 6%nat
       /\ JobSeekerProfile.sectionsCompleted st
          = length (List.filter id
              [JobSeekerProfile.basicDetails st; JobSeekerProfile.jobSeekerProfile st;
               JobSeekerProfile.hasEducation st; JobSeekerProfile.hasExperience st;
               JobSeekerProfile.hasProjects st; JobSeekerProfile.hasPreferences st])
       /\ JobSeekerProfile.completionPercentage st
          = Binary64.ofZ
              (Spec.roundedShare (Z.of_nat (JobSeekerProfile.sectionsCompleted st)) 6))
  /\ (forall name phone location skill skills school schools post posts,
        name <> EmptyString -> phone <> EmptyString -> location <> EmptyString ->
        JobSeekerProfile.completionPercentage
          (JobSeekerProfile.profileStatus
             (JobSeekerProfile.mkUser name (Some phone) (Some location)
                (Some (JobSeekerProfile.mkSeeker (skill :: skills) (school :: schools)
                         (post :: posts) [] None))))
        = Binary64.ofZ 67)
  /\ (forall uid users user, users !! uid = Some user ->
        exists st,
          (EmployerProfile.checkProfileStatus (Some uid) users).2 = Some st
          /\ EmployerProfile.completionPercentage st
             = Js.ofZ
                 (if negb (Js.truthyString (Some (EmployerProfile.name user))
                           && Js.truthyString (EmployerProfile.phone user)
                           && Js.truthyString (EmployerProfile.location user))
                  then 0
                  else match EmployerProfile.employer user with
                       | None => 33
                       | Some e =>
                           if Js.truthyId (EmployerProfile.companyId e) then 100 else 66
                       end)).
Proof.
  split; [|split].
  - intros uid users user Huser. exists (JobSeekerProfile.profileStatus user).
    split; [simpl; rewrite Huser; reflexivity|].
    destruct (seeker_percentage user) as (Htotal & Hdone & Hpct).
    destruct user as [n p l [js|]]; repeat split; assumption.
  - intros [|c n] [|c1 p] [|c2 l] skill skills school schools post posts Hn Hp Hl;
      try congruence. vm_compute. reflexivity.
  - intros uid users user Huser. exists (EmployerProfile.profileStatus user).
    split; [simpl; rewrite Huser; reflexivity|].
    destruct user as [n p l e].
    destruct n as [|c n]; destruct p as [[|c1 p]|]; destruct l as [[|c2 l]|];
      destruct e as [[[[|z|z]|]]|]; reflexivity.
Qed.

(** C5 fails as stated: an employer with basic details and profile but no
    company is reported 66, not round(100 * 2 / 3) = 67. *)
Lemma employer_two_of_three_is_66 :
  let st := EmployerProfile.profileStatus
              (EmployerProfile.mkUser "Eve" (Some "555 0101") (Some "Oslo")
                 (Some (EmployerProfile.mkEmployerRow None))) in
  EmployerProfile.basicDetailsComplete st = true
  /\ EmployerProfile.employerProfileComplete st = true
  /\ EmployerProfile.companySelected st = false
  /\ EmployerProfile.completionPercentage st = Js.ofZ 66
  /\ Spec.roundedShare 2 3 = 67.
Proof. repeat split. Qed.

(** ** Company directory *)

Lemma lowerChar_special (c : ascii) :
  Ascii.eqb (CompanyController.lowerChar c) "%"%char = Ascii.eqb c "%"%char
  /\ Ascii.eqb (CompanyController.lowerChar c) "_"%char = Ascii.eqb c "_"%char
  /\ Ascii.eqb (CompanyController.lowerChar c) "\"%char = Ascii.eqb c "\"%char.
Proof. destruct c as [[] [] [] [] [] [] [] []]; repeat split. Qed.






Lemma findActiveByName_NoRow (x : string) (t : gmap Z Company) :
  CompanyController.findActiveByName x t = CompanyController.NoRow ->
  forall k c, t !! k = Some c -> company_isActive c = true ->
    CompanyController.ilike (company_name c) x = false.
Proof.
  unfold CompanyController.findActiveByName.
  destruct (CompanyController.wellEscaped _); [|discriminate].
  destruct (List.find _ _) as [kv'|] eqn:Hfind; [discriminate|].
  intros _ k c Hk Hactive. apply scan_spec in Hk.
  pose proof (find_none _ _ Hfind (k, c) Hk) as Hp. simpl in Hp.
  now rewrite Hactive, andb_true_r in Hp.
Qed.





(** C8: [selectExistingCompany] answers 404 and leaves the store as it was
    when the target company is missing or inactive.  Otherwise it sets the
    calling employer's [companyId] to the target and [joinedAt] to the
    time of the call, whatever [companyId] the employer had, and changes
    nothing else: the employer keeps user and role, every other employer
    and every company is as before.  The caller is an employer with a
    profile and the parameter a company id. *)
Theorem select_existing_company (now e c : Z) (db : Db) :
  e <> 0 -> c <> 0 ->
  let out := CompanyController.selectExistingCompany now (Some e) (Some c) db in
  ((~ exists company, companies db !! c = Some company /\ company_isActive company = true) ->
     status out.1 = 404 /\ out.2 = db)
  /\ (forall company employer,
        companies db !! c = Some company -> company_isActive company = true ->
        employers db !! e = Some employer ->
        status out.1 = 200
        /\ employers out.2 !! e
           = Some (mkEmployer (employer_userId employer) (Some c)
                     (employer_role employer) (Some now))
        /\ (forall e', e' <> e -> employers out.2 !! e' = employers db !! e')
        /\ out.2 = setEmployers (employers out.2) db).
Proof.
  intros He Hc out. subst out. unfold CompanyController.selectExistingCompany. simpl.
  assert ((c =? 0) = false) as -> by lia.
  assert ((e =? 0) = false) as -> by lia. simpl.
  split.
  - intros Hno. destruct (companies db !! c) as [company|]; [|split; reflexivity].
    destruct (company_isActive company) eqn:Hactive; [|split; reflexivity].
    exfalso. apply Hno. exists company. split; [reflexivity | exact Hactive].
  - intros company employer -> -> ->. simpl. split; [reflexivity|]. split; [|split].
    + apply lookup_insert_eq.
    + intros e' Hne. apply lookup_insert_ne. congruence.
    + reflexivity.
Qed.

Lemma select_existing_company_witness :
  (let out := CompanyController.selectExistingCompany 100 (Some 9) (Some 7) twoCompanies in
   status out.1 = 404 /\ out.2 = twoCompanies)
  /\ (let out := CompanyController.selectExistingCompany 100 (Some 9) (Some 6) twoCompanies in
      employers out.2 !! 9 = Some (mkEmployer 3 (Some 6) HR_MANAGER (Some 100))
      /\ employers out.2 !! 10 = employers twoCompanies !! 10).
Proof.
  split.
  - pose proof (select_existing_company 100 9 7 twoCompanies ltac:(lia) ltac:(lia))
      as [Hmissing _].
    apply Hmissing. intros (company & Hcompany & Hactive).
    vm_compute in Hcompany. injection Hcompany as <-. discriminate.
  - pose proof (select_existing_company 100 9 6 twoCompanies ltac:(lia) ltac:(lia))
      as [_ Hjoin].
    destruct (Hjoin (mkCompany "Nimbus" "Cloud" true) (mkEmployer 3 (Some 5) HR_MANAGER (Some 50))
                eq_refl eq_refl eq_refl) as (_ & Hself & Hothers & _).
    split; [exact Hself | apply Hothers; lia].
Defined.

(** ** Form builder *)

Lemma createRow_required (id jobId orderElse : Z) (field : JobController.FieldInput) row :
  JobController.createRow id jobId orderElse field = Some row ->
  field_isRequired row = true /\ field_isDefault row = false
  /\ field_id row = id /\ field_jobId row = jobId.
Proof.
  unfold JobController.createRow, Js.or.
  destruct (JobController.f_label field) as [label|]; [|discriminate].
  destruct (JobController.f_fieldType field) as [fieldType|]; [|discriminate].
  destruct (JobController.f_isRequired field) as [| |[|]|z|s]; simpl;
    try (intros [= <-]; repeat split).
  - destruct (z =? 0); simpl; [intros [= <-]; repeat split | discriminate].
  - destruct (String.eqb s EmptyString); simpl; [intros [= <-]; repeat split | discriminate].
Qed.

Lemma create_Some (jobId orderElse : Z) (field : JobController.FieldInput) (db db' : Db) :
  JobController.create jobId orderElse field db = Some db' ->
  exists row,
    JobController.createRow (nextFieldId (formFields db)) jobId orderElse field = Some row
    /\ db' = setFormFields (formFields db ++ [row]) db.
Proof.
  unfold JobController.create. case_bool_decide; [|discriminate].
  destruct (JobController.createRow _ jobId orderElse field) as [row|]; [|discriminate].
  intros [= <-]. exists row. split; reflexivity.
Qed.

Lemma nextFieldId_above (t : list JobFormField) g :
  In g t -> field_id g < nextFieldId t.
Proof.
  unfold nextFieldId. induction t as [|f t IH]; simpl; [intros []|].
  intros [<-|Hg]; [lia | specialize (IH Hg); lia].
Qed.

Lemma grown_refl jobId db : grown jobId db db.
Proof. split; [tauto | intros f Hf; left; exact Hf]. Qed.

Lemma grown_trans jobId db1 db2 db3 :
  grown jobId db1 db2 -> grown jobId db2 db3 -> grown jobId db1 db3.
Proof.
  intros [Hkeep1 Hnew1] [Hkeep2 Hnew2]. split; [auto|].
  intros f Hf. destruct (Hnew2 f Hf) as [Hold|(Hr & Hd & Hj & Hid)].
  - apply Hnew1, Hold.
  - right. repeat split; try assumption. intros g Hg. apply Hid, Hkeep1, Hg.
Qed.

Lemma create_grown jobId orderElse field db db' :
  JobController.create jobId orderElse field db = Some db' -> grown jobId db db'.
Proof.
  intros Hcreate. apply create_Some in Hcreate as (row & Hrow & ->).
  apply createRow_required in Hrow as (Hr & Hd & Hid & Hj). split; simpl.
  - intros f Hf. apply in_or_app. left. exact Hf.
  - intros f Hf. apply in_app_or in Hf as [Hf|[<-|[]]]; [left; exact Hf|].
    right. repeat split; try assumption.
    intros g Hg. rewrite Hid. apply nextFieldId_above, Hg.
Qed.

Lemma createEach_grown jobId fields : forall index db,
  grown jobId db (JobController.createEach jobId index fields db).2.
Proof.
  induction fields as [|field fields IH]; intros index db; simpl; [apply grown_refl|].
  destruct (JobController.create jobId (index + 100) field db) as [db'|] eqn:Hcreate.
  - eapply grown_trans; [exact (create_grown _ _ _ _ _ Hcreate) | apply IH].
  - simpl. apply IH.
Qed.

Lemma deleteWhere_fields (gone : JobFormField -> bool) (db : Db) f :
  In f (formFields (JobController.deleteWhere gone db))
  <-> In f (formFields db) /\ gone f = false.
Proof.
  unfold JobController.deleteWhere. simpl. rewrite filter_In, negb_true_iff. tauto.
Qed.

Lemma createJobForm_fields jobId fields db :
  formFields (JobController.createJobForm jobId (Some fields) db).2
  = formFields (JobController.createEach jobId 0 fields
                  (JobController.deleteWhere (JobController.isCustomOf jobId) db)).2.
Proof.
  unfold JobController.createJobForm.
  destruct (JobController.createEach jobId 0 fields _) as [[|] db2]; reflexivity.
Qed.

Lemma revised_refl touched db : revised touched db db.
Proof.
  split.
  - intros f Hf. exists f. repeat split. exact Hf.
  - tauto.
Qed.

Lemma revised_trans (touched : Z -> Prop) db1 db2 db3 :
  revised touched db1 db2 -> revised touched db2 db3 -> revised touched db1 db3.
Proof.
  intros (Hid1 & Hkeep1) (Hid2 & Hkeep2). split.
  - intros f Hf. destruct (Hid1 f Hf) as (f' & Hf' & Hi1 & Hj1 & Hd1).
    destruct (Hid2 f' Hf') as (f'' & Hf'' & Hi2 & Hj2 & Hd2).
    exists f''. split; [exact Hf''|]. unfold sameIdentity. repeat split; congruence.
  - intros f Hf Hno. apply Hkeep2; [apply Hkeep1; assumption | exact Hno].
Qed.

Lemma updateData_identity (field : JobController.FieldInput) change f :
  JobController.updateData field = Some change -> sameIdentity f (change f).
Proof.
  unfold JobController.updateData.
  destruct (JobController.f_isRequired field); try discriminate;
    intros [= <-]; repeat split.
Qed.

Lemma update_revised (id : Z) (field : JobController.FieldInput) (db db' : Db) :
  JobController.update id field db = Some db' -> revised (eq id) db db'.
Proof.
  unfold JobController.update.
  destruct (List.find (JobController.hasId id) (formFields db)); [|discriminate].
  destruct (JobController.updateData field) as [change|] eqn:Hchange; [|discriminate].
  intros [= <-]. simpl. split.
  - intros f Hf. exists (if JobController.hasId id f then change f else f). split.
    + apply in_map_iff. exists f. split; [reflexivity | exact Hf].
    + destruct (JobController.hasId id f);
        [exact (updateData_identity field change f Hchange) | repeat split].
  - intros f Hf Hno. apply in_map_iff. exists f. split; [|exact Hf].
    unfold JobController.hasId. cbv beta.
    destruct (field_id f =? id) eqn:Heq; [apply Z.eqb_eq in Heq; congruence | reflexivity].
Qed.

Lemma grown_revised jobId touched db db' : grown jobId db db' -> revised touched db db'.
Proof.
  intros [Hkeep _]. split.
  - intros f Hf. exists f. split; [apply Hkeep, Hf | repeat split].
  - intros f Hf _. apply Hkeep, Hf.
Qed.

Lemma upsert_revised jobId field fields db db' :
  In field fields ->
  JobController.upsert jobId field db = Some db' -> revised (named fields) db db'.
Proof.
  intros Hin. unfold JobController.upsert.
  destruct (JobController.f_id field) as [id|] eqn:Hid; simpl.
  - destruct (negb (id =? 0)).
    + intros Hupdate. apply update_revised in Hupdate as [Hsame Hkeep].
      split; [exact Hsame|]. intros f Hf Hno. apply Hkeep; [exact Hf|].
      intros Heq. apply Hno. exists field. split; [assumption | congruence].
    + intros Hcreate. eapply grown_revised, create_grown, Hcreate.
  - intros Hcreate. eapply grown_revised, create_grown, Hcreate.
Qed.

Lemma upsertEach_revised jobId all fields : forall db,
  (forall field, In field fields -> In field all) ->
  revised (named all) db (JobController.upsertEach jobId fields db).2.
Proof.
  induction fields as [|field fields IH]; intros db Hsub; simpl; [apply revised_refl|].
  assert (forall x, In x fields -> In x all) as Hrest
    by (intros x Hx; apply Hsub; right; exact Hx).
  destruct (JobController.upsert jobId field db) as [db'|] eqn:Hupsert.
  - eapply revised_trans; [|apply IH, Hrest].
    apply (upsert_revised jobId field all db db'); [apply Hsub; left; reflexivity|].
    exact Hupsert.
  - simpl. apply IH, Hrest.
Qed.

Lemma updateJobForm_fields jobId fields db :
  formFields (JobController.updateJobForm jobId (Some fields) db).2
  = formFields (JobController.upsertEach jobId fields db).2.
Proof.
  unfold JobController.updateJobForm.
  destruct (JobController.upsertEach jobId fields db) as [[|] db']; reflexivity.
Qed.

Lemma upsertEach_app jobId (before after : list JobController.FieldInput) : forall db,
  (JobController.upsertEach jobId (before ++ after)%list db).2
  = (JobController.upsertEach jobId after (JobController.upsertEach jobId before db).2).2.
Proof.
  induction before as [|field before IH]; intros db; simpl; [reflexivity|].
  destruct (JobController.upsert jobId field db) as [db'|]; simpl; apply IH.
Qed.

Lemma upsertEach_keeps jobId fields db f :
  In f (formFields db) -> ~ named fields (field_id f) ->
  In f (formFields (JobController.upsertEach jobId fields db).2).
Proof.
  intros Hf Hno.
  apply (upsertEach_revised jobId fields fields db); [tauto | exact Hf | exact Hno].
Qed.

Lemma upsert_rewrites jobId field db f change :
  In f (formFields db) -> JobController.f_id field = Some (field_id f) ->
  field_id f <> 0 -> JobController.updateData field = Some change ->
  exists db', JobController.upsert jobId field db = Some db'
              /\ In (change f) (formFields db').
Proof.
  intros Hf Hid Hnz Hchange. unfold JobController.upsert. rewrite Hid. simpl.
  assert ((field_id f =? 0) = false) as -> by lia. simpl.
  unfold JobController.update. rewrite Hchange.
  destruct (List.find (JobController.hasId (field_id f)) (formFields db)) as [g|] eqn:Hfind.
  - eexists. split; [reflexivity|]. simpl. apply in_map_iff. exists f.
    split; [|exact Hf]. unfold JobController.hasId. now rewrite Z.eqb_refl.
  - pose proof (find_none _ _ Hfind f Hf) as Hno.
    unfold JobController.hasId in Hno. lia.
Qed.

(** C7, as amended: the form routes delete no default field.
    [deleteJobFormField] on a default field answers 400 whoever calls and
    leaves the store as it was; [createJobForm] keeps every default field
    as it is; [updateJobForm] deletes no field and never writes a field's
    id, job or default flag, and leaves a field alone unless the request
    names its id.  A stored field whose id the request names once,
    default or not, gets the label, type, required flag and order of the
    request, each kept as stored where the request leaves it out, and the
    options of the request, or none where it gives none. *)
Theorem default_fields_survive (jobId : Z) (db : Db) :
  (forall (user : option Z) (fieldId : Z),
     (exists f, In f (formFields db) /\ field_id f = fieldId) ->
     (forall f, In f (formFields db) -> field_id f = fieldId -> field_isDefault f = true) ->
     JobController.deleteJobFormField user fieldId db
     = (fail 400 "Cannot delete default form fields", db))
  /\ (forall fields f,
        In f (formFields db) -> field_isDefault f = true ->
        In f (formFields (JobController.createJobForm jobId fields db).2))
  /\ (forall fields f,
        In f (formFields db) ->
        exists f', In f' (formFields (JobController.updateJobForm jobId fields db).2)
                   /\ sameIdentity f f')
  /\ (forall fields f,
        In f (formFields db) -> ~ named fields (field_id f) ->
        In f (formFields (JobController.updateJobForm jobId (Some fields) db).2))
  /\ (forall before field after f required,
        In f (formFields db) ->
        JobController.f_id field = Some (field_id f) -> field_id f <> 0 ->
        (JobController.f_isRequired field = Js.Undefined /\ required = field_isRequired f
         \/ JobController.f_isRequired field = Js.Boolean required) ->
        ~ named before (field_id f) -> ~ named after (field_id f) ->
        In (mkField (field_id f) (field_jobId f)
              (default (field_label f) (JobController.f_label field))
              (default (field_fieldType f) (JobController.f_fieldType field))
              required (field_isDefault f)
              (default (field_order f) (JobController.f_order field))
              (default [] (JobController.f_options field)))
           (formFields
              (JobController.updateJobForm jobId (Some (before ++ field :: after)%list) db).2)).
Proof.
  split; [|split; [|split; [|split]]].
  - intros user fieldId (f & Hf & Hid) Hdefault. unfold JobController.deleteJobFormField.
    destruct (List.find (JobController.hasId fieldId) (formFields db)) as [g|] eqn:Hfind.
    + apply find_some in Hfind as [Hg Hgid]. apply Z.eqb_eq in Hgid.
      rewrite (Hdefault g Hg Hgid). reflexivity.
    + pose proof (find_none _ _ Hfind f Hf) as Hno.
      unfold JobController.hasId in Hno. lia.
  - intros [fields|] f Hf Hdefault; [|exact Hf].
    rewrite createJobForm_fields.
    apply (createEach_grown jobId fields 0). apply deleteWhere_fields.
    split; [exact Hf|]. unfold JobController.isCustomOf.
    rewrite Hdefault. apply andb_false_r.
  - intros [fields|] f Hf; [|exists f; split; [exact Hf | repeat split]].
    rewrite updateJobForm_fields.
    apply (upsertEach_revised jobId fields fields db); [tauto | exact Hf].
  - intros fields f Hf Hno. rewrite updateJobForm_fields.
    apply (upsertEach_revised jobId fields fields db); [tauto | exact Hf | exact Hno].
  - intros before field after f required Hf Hid Hnz Hrequired Hbefore Hafter.
    rewrite updateJobForm_fields, upsertEach_app.
    set (db1 := (JobController.upsertEach jobId before db).2).
    assert (Hf1 : In f (formFields db1)) by now apply upsertEach_keeps.
    set (row := mkField _ _ _ _ _ _ _ _).
    assert (Hchange : exists change,
               JobController.updateData field = Some change /\ change f = row).
    { unfold JobController.updateData.
      destruct Hrequired as [[-> ->]| ->]; eexists; split; reflexivity. }
    destruct Hchange as (change & Hchange & Hrow).
    destruct (upsert_rewrites jobId field db1 f change Hf1 Hid Hnz Hchange)
      as (db2 & Hupsert & Hin).
    simpl. rewrite Hupsert. rewrite Hrow in Hin.
    apply upsertEach_keeps; [exact Hin | exact Hafter].
Qed.

(** C7 fails as stated: [updateJobForm] rewrites the seeded "Full Name"
    field when the request names its id. *)
Lemma update_rewrites_default_field :
  let field := JobController.mkFieldInput (Some 1) (Some "Nickname") (Some TEXT)
                 (Js.Boolean false) (Some 9) None in
  let out := JobController.updateJobForm 1 (Some [field]) openJob in
  In (mkField 1 1 "Full Name" TEXT true true 1 []) (formFields openJob)
  /\ status out.1 = 200
  /\ List.find (JobController.hasId 1) (formFields out.2)
     = Some (mkField 1 1 "Nickname" TEXT false true 9 []).
Proof. vm_compute. repeat split. left. reflexivity. Qed.

Lemma upsert_creates (jobId : Z) (field : JobController.FieldInput) (db db' : Db) :
  Js.truthyId (JobController.f_id field) = false ->
  JobController.upsert jobId field db = Some db' ->
  exists row,
    formFields db' = (formFields db ++ [row])%list
    /\ field_isRequired row = true /\ field_isDefault row = false.
Proof.
  intros Hid. unfold JobController.upsert. rewrite Hid. intros Hcreate.
  apply create_Some in Hcreate as (row & Hrow & ->).
  apply createRow_required in Hrow as (Hr & Hd & _).
  exists row. repeat split; assumption.
Qed.

(** C10: a field created through [createJobForm], and a field without an
    id created through [updateJobForm], is stored with [isRequired] true
    whatever [isRequired] the request gave: [field.isRequired || true] is
    never false.  A request value that is absent, [null] or a boolean,
    [false] included, is stored as true. *)
Theorem created_fields_are_required (jobId : Z) (db : Db) :
  (forall id orderElse field row,
     JobController.createRow id jobId orderElse field = Some row ->
     field_isRequired row = true)
  /\ (forall fields f,
        In f (formFields (JobController.createJobForm jobId fields db).2) ->
        In f (formFields db) \/ field_isRequired f = true)
  /\ (forall field db',
        Js.truthyId (JobController.f_id field) = false ->
        JobController.upsert jobId field db = Some db' ->
        exists row, formFields db' = (formFields db ++ [row])%list
                    /\ field_isRequired row = true)
  /\ (forall id orderElse label fieldType isRequired order options,
        isRequired ∈ [Js.Undefined; Js.Null; Js.Boolean true; Js.Boolean false] ->
        exists row,
          JobController.createRow id jobId orderElse
            (JobController.mkFieldInput None (Some label) (Some fieldType)
               isRequired order options) = Some row
          /\ field_isRequired row = true).
Proof.
  split; [|split; [|split]].
  - intros id orderElse field row Hrow. apply (createRow_required _ _ _ _ _ Hrow).
  - intros [fields|] f Hf; [|left; exact Hf].
    rewrite createJobForm_fields in Hf.
    destruct (createEach_grown jobId fields 0
                (JobController.deleteWhere (JobController.isCustomOf jobId) db))
      as [_ Hnew].
    destruct (Hnew f Hf) as [Hold|(Hr & _)]; [|right; exact Hr].
    left. apply deleteWhere_fields in Hold. tauto.
  - intros field db' Hid Hupsert.
    destruct (upsert_creates jobId field db db' Hid Hupsert) as (row & Hrows & Hr & _).
    exists row. split; assumption.
  - intros id orderElse label fieldType isRequired order options Hv.
    assert (isRequired = Js.Undefined \/ isRequired = Js.Null
            \/ isRequired = Js.Boolean true \/ isRequired = Js.Boolean false)
      as [-> | [-> | [-> | ->]]] by list_mem;
      (eexists; split; [reflexivity | reflexivity]).
Qed.

(** * The job itself, and who may touch it *)

Lemma referential_fields (db : Db) (f : JobFormField) :
  referential db = true -> In f (formFields db) -> is_Some (jobs db !! field_jobId f).
Proof.
  unfold referential. rewrite andb_true_iff, forallb_forall.
  intros [Hfields _] Hin. apply Hfields in Hin. now apply bool_decide_eq_true in Hin.
Qed.

Lemma referential_applications (db : Db) (k : Z) (a : Application) :
  referential db = true -> applications db !! k = Some a ->
  is_Some (jobs db !! app_jobId a).
Proof.
  unfold referential. rewrite andb_true_iff, !forallb_forall.
  intros [_ Happs] Hk. apply scan_spec in Hk. apply Happs in Hk.
  now apply bool_decide_eq_true in Hk.
Qed.

Lemma filter_none {A} (p : A -> bool) (l : list A) :
  (forall x, In x l -> p x = false) -> List.filter p l = [].
Proof.
  induction l as [|x l IH]; simpl; intros Hall; [reflexivity|].
  rewrite (Hall x) by now left. apply IH. intros y Hy. apply Hall. now right.
Qed.

Lemma filter_all {A} (p : A -> bool) (l : list A) :
  (forall x, In x l -> p x = true) -> List.filter p l = l.
Proof.
  induction l as [|x l IH]; simpl; intros Hall; [reflexivity|].
  rewrite (Hall x) by now left. f_equal. apply IH. intros y Hy. apply Hall. now right.
Qed.

Lemma fresh_job_has_no_fields (db : Db) :
  referential db = true ->
  JobSeekerController.formFieldsOf (nextKey (jobs db)) db = [].
Proof.
  intros Href. apply filter_none. intros f Hf.
  destruct (referential_fields db f Href Hf) as [job Hjob].
  apply Z.eqb_neq. intros Heq. rewrite Heq, nextKey_fresh in Hjob. discriminate.
Qed.

Lemma createJob_created user body (db : Db) r db' :
  JobPosting.createJob user body db = (r, db') -> status r = 201 ->
  exists c e,
    AuthMiddleware.req_companyId user = Some c
    /\ AuthMiddleware.req_employerId user = Some e
    /\ is_Some (companies db !! c) /\ is_Some (employers db !! e)
    /\ r = ok 201 "Job created successfully"
    /\ db' = JobController.createDefaultJobFormFields (nextKey (jobs db))
               (JobPosting.setJobs (<[nextKey (jobs db) := mkJob c e ACTIVE]> (jobs db)) db).
Proof.
  unfold JobPosting.createJob, JobPosting.insertJob.
  destruct (_ || _); [intros [= <- <-]; discriminate|].
  destruct (AuthMiddleware.req_companyId user) as [c|];
    [|intros [= <- <-]; discriminate].
  destruct (AuthMiddleware.req_employerId user) as [e|];
    [|intros [= <- <-]; discriminate].
  destruct (_ && _) eqn:Hok; [|intros [= <- <-]; discriminate].
  intros [= <- <-] _. exists c, e.
  rewrite !andb_true_iff in Hok. destruct Hok as [[_ Hc] He].
  apply bool_decide_eq_true in Hc, He. repeat split; assumption.
Qed.

(** X1. A created job is stored as ACTIVE under the caller's company and
    employer, with a key no stored job has, and its application form then
    consists of exactly the five seeded fields (all required, all
    default); the forms of the other jobs and the applications are left as
    they were. *)
Theorem created_job_has_the_default_form user body (db : Db) r db' :
  referential db = true ->
  JobPosting.createJob user body db = (r, db') -> status r = 201 ->
  let id := nextKey (jobs db) in
  jobs db !! id = None
  /\ (exists c e,
        AuthMiddleware.req_companyId user = Some c
        /\ AuthMiddleware.req_employerId user = Some e
        /\ jobs db' = <[id := mkJob c e ACTIVE]> (jobs db))
  /\ JobSeekerController.formFieldsOf id db'
     = JobController.defaultFields id (nextFieldId (formFields db))
  /\ Forall (fun f => field_isRequired f = true /\ field_isDefault f = true)
       (JobSeekerController.formFieldsOf id db')
  /\ (forall j, j <> id ->
        JobSeekerController.formFieldsOf j db' = JobSeekerController.formFieldsOf j db)
  /\ applications db' = applications db /\ responses db' = responses db.
Proof.
  intros Href Hrun Hcode. cbv zeta.
  destruct (createJob_created _ _ _ _ _ Hrun Hcode) as (c & e & Hc & He & _ & _ & _ & ->).
  set (id := nextKey (jobs db)).
  assert (Hform : JobSeekerController.formFieldsOf id
                    (JobController.createDefaultJobFormFields id
                       (JobPosting.setJobs (<[id := mkJob c e ACTIVE]> (jobs db)) db))
                  = JobController.defaultFields id (nextFieldId (formFields db))).
  { unfold JobSeekerController.formFieldsOf, JobController.createDefaultJobFormFields.
    simpl. rewrite List.filter_app.
    pose proof (fresh_job_has_no_fields db Href) as Hnone.
    unfold JobSeekerController.formFieldsOf in Hnone. fold id in Hnone. rewrite Hnone.
    simpl. rewrite !Z.eqb_refl. reflexivity. }
  split; [apply nextKey_fresh|].
  split; [exists c, e; repeat split; assumption|].
  split; [exact Hform|].
  split; [rewrite Hform; repeat constructor|].
  split; [|split; reflexivity].
  intros j Hj. unfold JobSeekerController.formFieldsOf,
    JobController.createDefaultJobFormFields. simpl.
  rewrite List.filter_app. simpl.
  assert (Hne : (id =? j) = false) by (apply Z.eqb_neq; congruence).
  rewrite !Hne. apply app_nil_r.
Qed.

Lemma created_job_has_the_default_form_witness :
  referential (Accounts.tables office) = true
  /\ JobSeekerController.formFieldsOf 3
       (JobPosting.createJob eve posting (Accounts.tables office)).2
     = JobController.defaultFields 3 12.
Proof.
  split; [vm_compute; reflexivity|].
  refine (proj1 (proj2 (proj2
    (created_job_has_the_default_form eve posting (Accounts.tables office)
       (JobPosting.createJob eve posting (Accounts.tables office)).1
       (JobPosting.createJob eve posting (Accounts.tables office)).2 _ _ _))));
    vm_compute; reflexivity.
Defined.

Lemma fresh_job_has_no_applicant (db : Db) (s : Z) :
  referential db = true ->
  JobSeekerController.findByJobAndSeeker (nextKey (jobs db)) s (applications db) = None.
Proof.
  intros Href.
  destruct (JobSeekerController.findByJobAndSeeker _ _ _) as [kv|] eqn:Hfind;
    [|reflexivity].
  apply findByJobAndSeeker_Some in Hfind. destruct Hfind as [Hrow Hpair].
  destruct (referential_applications db _ _ Href Hrow) as [job Hjob].
  unfold Spec.pairOf in Hpair. injection Hpair as Hj _.
  rewrite Hj, nextKey_fresh in Hjob. discriminate.
Qed.

Lemma default_form_of_created (db : Db) (c e : Z) :
  referential db = true ->
  JobSeekerController.formFieldsOf (nextKey (jobs db))
    (JobController.createDefaultJobFormFields (nextKey (jobs db))
       (JobPosting.setJobs (<[nextKey (jobs db) := mkJob c e ACTIVE]> (jobs db)) db))
  = JobController.defaultFields (nextKey (jobs db)) (nextFieldId (formFields db)).
Proof.
  intros Href.
  unfold JobSeekerController.formFieldsOf, JobController.createDefaultJobFormFields.
  simpl. rewrite List.filter_app.
  pose proof (fresh_job_has_no_fields db Href) as Hnone.
  unfold JobSeekerController.formFieldsOf in Hnone. rewrite Hnone.
  simpl. rewrite !Z.eqb_refl. reflexivity.
Qed.

(** X2. Creating a job and applying compose: on the job just created an
    application without answers is refused with 400 naming the first
    seeded field, Full Name, and an application that answers the five
    seeded fields is stored as PENDING under the applying seeker. *)
Theorem new_job_takes_applications user body (db : Db) r db' (now s : Z)
    (a1 a2 a3 a4 a5 : string) :
  referential db = true ->
  JobPosting.createJob user body db = (r, db') -> status r = 201 -> s <> 0 ->
  let id := nextKey (jobs db) in
  let f := nextFieldId (formFields db) in
  let answers :=
    [ JobSeekerController.mkInput f a1; JobSeekerController.mkInput (f + 1) a2;
      JobSeekerController.mkInput (f + 2) a3; JobSeekerController.mkInput (f + 3) a4;
      JobSeekerController.mkInput (f + 4) a5 ] in
  JobSeekerController.applyForJob now (Some s) id [] db'
    = (fail 400 (JobSeekerController.requiredFieldMissing "Full Name"), db')
  /\ (let out := JobSeekerController.applyForJob now (Some s) id answers db' in
      out.1 = ok 201 "Application submitted successfully"
      /\ applications out.2
         = <[nextKey (applications db) := mkApplication id s PENDING now now]>
             (applications db)
      /\ length (responses out.2) = (length (responses db) + 5)%nat).
Proof.
  intros Href Hrun Hcode Hs. cbv zeta.
  destruct (createJob_created _ _ _ _ _ Hrun Hcode) as (c & e & _ & _ & _ & _ & _ & ->).
  set (id := nextKey (jobs db)). set (f := nextFieldId (formFields db)).
  set (db' := JobController.createDefaultJobFormFields id _).
  assert (Hjob : jobs db' !! id = Some (mkJob c e ACTIVE))
    by (simpl; apply lookup_insert_eq).
  assert (Hnew : JobSeekerController.findByJobAndSeeker id s (applications db') = None)
    by (apply (fresh_job_has_no_applicant db s Href)).
  assert (Hform : JobSeekerController.formFieldsOf id db'
                  = JobController.defaultFields id f)
    by (apply default_form_of_created, Href).
  split.
  - rewrite (apply_active now s id _ [] db' Hs Hjob eq_refl), Hnew, Hform. reflexivity.
  - rewrite (apply_active now s id _ _ db' Hs Hjob eq_refl), Hnew, Hform.
    assert (Hnone : JobSeekerController.firstMissing (JobController.defaultFields id f)
              [ JobSeekerController.mkInput f a1; JobSeekerController.mkInput (f + 1) a2;
                JobSeekerController.mkInput (f + 2) a3;
                JobSeekerController.mkInput (f + 3) a4;
                JobSeekerController.mkInput (f + 4) a5 ] = None).
    { unfold JobSeekerController.firstMissing, JobSeekerController.includes. simpl.
      rewrite !Z.eqb_refl. simpl. rewrite ?orb_true_r. reflexivity. }
    rewrite Hnone.
    assert (Hstore : JobSeekerController.storeAccepts id s
              [ JobSeekerController.mkInput f a1; JobSeekerController.mkInput (f + 1) a2;
                JobSeekerController.mkInput (f + 2) a3;
                JobSeekerController.mkInput (f + 3) a4;
                JobSeekerController.mkInput (f + 4) a5 ] db' = true).
    { apply storeAccepts_spec.
      - intros Happlied. apply applied_find in Happlied. contradiction.
      - split.
        + simpl. repeat (apply NoDup_cons; split; [list_mem|]). apply NoDup_nil_2.
        + intros x Hx. simpl in Hx.
          assert (Hin : In (JobSeekerController.fieldId x)
                          (List.map field_id (JobController.defaultFields id f))).
          { simpl. intuition (subst x; simpl; tauto). }
          apply in_map_iff in Hin. destruct Hin as (g & Hg & Hin).
          exists g. split; [|exact Hg].
          unfold db', JobController.createDefaultJobFormFields. simpl.
          apply in_or_app. right. exact Hin. }
    unfold JobSeekerController.createApplication. rewrite Hstore. simpl.
    repeat split. rewrite length_app. reflexivity.
Qed.

Lemma new_job_takes_applications_witness :
  JobSeekerController.applyForJob 200 (Some 21) 3 []
    (JobPosting.createJob eve posting (Accounts.tables office)).2
  = (fail 400 (JobSeekerController.requiredFieldMissing "Full Name"),
     (JobPosting.createJob eve posting (Accounts.tables office)).2).
Proof.
  refine (proj1
    (new_job_takes_applications eve posting (Accounts.tables office)
       (JobPosting.createJob eve posting (Accounts.tables office)).1
       (JobPosting.createJob eve posting (Accounts.tables office)).2
       200 21 "a" "b" "c" "d" "e" _ _ _ _));
    try (vm_compute; reflexivity). lia.
Defined.




Lemma applications_of_job_deleted (jobId : Z) (db : Db) :
  let db1 := JobPosting.deleteApplicationsWhere (JobPosting.ofJob jobId) db in
  jobs db1 = jobs db /\ formFields db1 = formFields db
  /\ companies db1 = companies db /\ employers db1 = employers db
  /\ (forall k a, applications db1 !! k = Some a
        <-> applications db !! k = Some a /\ app_jobId a <> jobId)
  /\ (forall r, In r (responses db1)
        <-> In r (responses db)
            /\ forall a, applications db !! ans_applicationId r = Some a ->
                         app_jobId a <> jobId).
Proof.
  cbv zeta. unfold JobPosting.deleteApplicationsWhere, JobPosting.ofJob. simpl.
  do 4 (split; [reflexivity|]). split.
  - intros k a. rewrite map_lookup_filter_Some. simpl. rewrite Z.eqb_neq. reflexivity.
  - intros r. rewrite filter_In. split.
    + intros [Hr Hkeep]. split; [exact Hr|]. intros a Ha.
      rewrite Ha in Hkeep. apply negb_true_iff, Z.eqb_neq in Hkeep. exact Hkeep.
    + intros [Hr Hne]. split; [exact Hr|].
      destruct (applications db !! ans_applicationId r) as [a|] eqn:Ha; [|reflexivity].
      apply negb_true_iff, Z.eqb_neq. now apply Hne.
Qed.

Lemma deleteApplicationsWhere_none (gone : Application -> bool) (db : Db) :
  (forall k a, applications db !! k = Some a -> gone a = false) ->
  JobPosting.deleteApplicationsWhere gone db = db.
Proof.
  intros Hnot. unfold JobPosting.deleteApplicationsWhere, setResponses, setApplications.
  simpl. rewrite map_filter_id, filter_all.
  - destruct db; reflexivity.
  - intros r _. destruct (applications db !! ans_applicationId r) as [a|] eqn:Ha;
      [|reflexivity].
    apply negb_true_iff. exact (Hnot _ _ Ha).
  - intros k a Hk. simpl. exact (Hnot _ _ Hk).
Qed.

Lemma deleteApplicationsWhere_twice (jobId : Z) (db : Db) :
  JobPosting.deleteApplicationsWhere (JobPosting.ofJob jobId)
    (JobPosting.deleteApplicationsWhere (JobPosting.ofJob jobId) db)
  = JobPosting.deleteApplicationsWhere (JobPosting.ofJob jobId) db.
Proof.
  apply deleteApplicationsWhere_none. intros k a Hk.
  apply (applications_of_job_deleted jobId db) in Hk.
  unfold JobPosting.ofJob. now apply Z.eqb_neq.
Qed.

(** X4. Deleting a stored job answers 200 and removes the job with
    everything that hangs on it: its form fields, its applications, and
    every response that belongs to one of its applications or answers one
    of its fields. The other jobs, their fields and applications, the
    responses to them, the companies and the employers stay as they were. *)
Theorem deleted_job_takes_its_rows (jobId : Z) (job : Job) (db : Db) :
  jobs db !! jobId = Some job ->
  let out := JobPosting.deleteJob jobId db in
  out.1 = ok 200 "Job deleted successfully"
  /\ jobs out.2 = delete jobId (jobs db)
  /\ (forall f, In f (formFields out.2) <-> In f (formFields db) /\ field_jobId f <> jobId)
  /\ (forall k a, applications out.2 !! k = Some a
        <-> applications db !! k = Some a /\ app_jobId a <> jobId)
  /\ (forall r, In r (responses out.2)
        <-> In r (responses db)
            /\ (forall a, applications db !! ans_applicationId r = Some a ->
                          app_jobId a <> jobId)
            /\ (forall f, In f (formFields db) -> field_id f = ans_fieldId r ->
                          field_jobId f <> jobId))
  /\ companies out.2 = companies db /\ employers out.2 = employers db.
Proof.
  intros Hjob. cbv zeta.
  destruct (applications_of_job_deleted jobId db)
    as (Hjobs & Hfields & Hcompanies & Hemployers & Happs & Hrs).
  unfold JobPosting.deleteJob, JobPosting.removeJob.
  rewrite Hjobs, Hjob, deleteApplicationsWhere_twice.
  remember (JobPosting.deleteApplicationsWhere (JobPosting.ofJob jobId) db) as db1 eqn:E.
  clear E. simpl. rewrite ?Hjobs, ?Hfields, ?Hcompanies, ?Hemployers.
  split; [reflexivity|]. split; [reflexivity|]. split; [|split; [exact Happs|split]].
  - intros f. rewrite filter_In. unfold JobPosting.fieldOfJob.
    rewrite negb_true_iff, Z.eqb_neq. reflexivity.
  - intros r. rewrite filter_In, Hrs, negb_true_iff.
    split.
    + intros [[Hr Happ] Hfield]. split; [exact Hr|]. split; [exact Happ|].
      intros f Hf Hid Hof.
      assert (Hin : JobSeekerController.includes (ans_fieldId r)
                (List.map field_id
                   (List.filter (JobPosting.fieldOfJob jobId) (formFields db))) = true).
      { apply includes_In, in_map_iff. exists f. split; [exact Hid|].
        apply filter_In. split; [exact Hf|]. unfold JobPosting.fieldOfJob.
        now apply Z.eqb_eq. }
      congruence.
    + intros (Hr & Happ & Hfield). split; [split; assumption|].
      destruct (JobSeekerController.includes _ _) eqn:Hin; [|reflexivity].
      apply includes_In, in_map_iff in Hin. destruct Hin as (f & Hid & Hf).
      apply filter_In in Hf. destruct Hf as [Hf Hof].
      unfold JobPosting.fieldOfJob in Hof. apply Z.eqb_eq in Hof.
      exfalso. exact (Hfield f Hf Hid Hof).
  - split; reflexivity.
Qed.

Lemma deleted_job_takes_its_rows_witness :
  let out := JobPosting.deleteJob 2 (Accounts.tables office) in
  out.1 = ok 200 "Job deleted successfully"
  /\ jobs out.2 = delete 2 (jobs (Accounts.tables office)).
Proof.
  cbv zeta.
  pose proof (deleted_job_takes_its_rows 2 (mkJob 5 12 ACTIVE) (Accounts.tables office)
                ltac:(vm_compute; reflexivity)) as H.
  split; [exact (proj1 H)|exact (proj1 (proj2 H))].
Defined.

(** X5. Deleting a job that is not stored answers 500; as no application
    can name a job that is not stored, the store is left as it was, even
    though the handler deletes the applications before it reaches the job. *)
Theorem deleting_a_missing_job_changes_nothing (jobId : Z) (db : Db) :
  referential db = true -> jobs db !! jobId = None ->
  JobPosting.deleteJob jobId db = (fail 500 "Internal server error", db).
Proof.
  intros Href Hjob.
  assert (Hsame : JobPosting.deleteApplicationsWhere (JobPosting.ofJob jobId) db = db).
  { apply deleteApplicationsWhere_none. intros k a Hk.
    unfold JobPosting.ofJob. apply Z.eqb_neq. intros Heq.
    destruct (referential_applications db k a Href Hk) as [j Hj].
    rewrite Heq, Hjob in Hj. discriminate. }
  unfold JobPosting.deleteJob, JobPosting.removeJob. rewrite Hsame, Hjob. reflexivity.
Qed.

Lemma deleting_a_missing_job_changes_nothing_witness :
  JobPosting.deleteJob 9 (Accounts.tables office)
  = (fail 500 "Internal server error", Accounts.tables office).
Proof.
  apply (deleting_a_missing_job_changes_nothing 9 (Accounts.tables office));
    vm_compute; reflexivity.
Defined.

(** ** Routes of the employer *)

Lemma employerOfUser_Some (userId : Z) (t : gmap Z Employer) (e : Z) (row : Employer) :
  Accounts.employerOfUser userId t = Some (e, row) ->
  t !! e = Some row /\ employer_userId row = userId.
Proof.
  unfold Accounts.employerOfUser. intros Hfind. apply find_some in Hfind.
  destruct Hfind as [Hin Huser]. apply scan_spec in Hin. simpl in Huser.
  apply Z.eqb_eq in Huser. split; assumption.
Qed.

Lemma authEmployer_passes (token : AuthMiddleware.Token) (st : Accounts.Store) u :
  AuthMiddleware.authEmployer token st = inr u ->
  exists id user,
    token = AuthMiddleware.Verified id Accounts.EMPLOYER
    /\ Accounts.users st !! id = Some user /\ Accounts.user_role user = Accounts.EMPLOYER
    /\ u = AuthMiddleware.employerRequest id st.
Proof.
  unfold AuthMiddleware.authEmployer. destruct token as [| |id role]; try discriminate.
  case_bool_decide as Hrole; [|discriminate]. subst role.
  destruct (Accounts.users st !! id) as [user|] eqn:Huser; [|discriminate].
  case_bool_decide as Huserrole; [|discriminate].
  intros [= <-]. exists id, user. repeat split; assumption.
Qed.

Lemma authEmployer_refuses (token : AuthMiddleware.Token) (st : Accounts.Store) r :
  AuthMiddleware.authEmployer token st = inl r -> status r ∈ [401; 403; 404].
Proof.
  unfold AuthMiddleware.authEmployer. destruct token as [| |id role].
  - intros [= <-]. list_mem.
  - intros [= <-]. list_mem.
  - case_bool_decide; [|intros [= <-]; list_mem].
    destruct (Accounts.users st !! id); [|intros [= <-]; list_mem].
    case_bool_decide; [discriminate|intros [= <-]; list_mem].
Qed.

Lemma authEmployer_account (id : Z) (user : Accounts.User) (st : Accounts.Store) :
  Accounts.users st !! id = Some user -> Accounts.user_role user = Accounts.EMPLOYER ->
  AuthMiddleware.authEmployer (AuthMiddleware.Verified id Accounts.EMPLOYER) st
  = inr (AuthMiddleware.employerRequest id st).
Proof.
  intros Huser Hrole. unfold AuthMiddleware.authEmployer.
  rewrite bool_decide_eq_true_2 by reflexivity. rewrite Huser.
  rewrite bool_decide_eq_true_2 by exact Hrole. reflexivity.
Qed.

(** X6. The routes behind [authEmployer, checkJobOwnership] are for the
    employer who posted the job: a caller with an employer profile who
    names a job of another employer, or a job that is not stored, gets 403
    and the store is left alone, whatever the handler; when the job is the
    caller's own, the handler runs on that job. *)
Theorem job_routes_are_for_the_owner (st : Accounts.Store) (id e j : Z)
    (user : Accounts.User) (row : Employer)
    (handler : AuthMiddleware.ReqUser -> Z -> Db -> Response * Db) :
  Accounts.users st !! id = Some user -> Accounts.user_role user = Accounts.EMPLOYER ->
  Accounts.employerOfUser id (employers (Accounts.tables st)) = Some (e, row) ->
  j <> 0 ->
  let run := JobRoutes.ownerOnly (AuthMiddleware.Verified id Accounts.EMPLOYER) (Some j)
               handler st in
  ((forall job, jobs (Accounts.tables st) !! j = Some job -> job_employerId job <> e) ->
     run = (fail 403 "Access denied: You don't own this job or job not found", st))
  /\ (forall job, jobs (Accounts.tables st) !! j = Some job -> job_employerId job = e ->
        run = Accounts.onTables (handler (AuthMiddleware.employerRequest id st) j) st).
Proof.
  intros Huser Hrole Hemployer Hj. cbv zeta. unfold JobRoutes.ownerOnly.
  rewrite (authEmployer_account id user st Huser Hrole).
  unfold AuthMiddleware.checkJobOwnership, AuthMiddleware.employerRequest.
  rewrite Hemployer. simpl.
  assert (Hnz : (j =? 0) = false) by now apply Z.eqb_neq.
  rewrite Hnz. simpl. split.
  - intros Hother. destruct (jobs (Accounts.tables st) !! j) as [job|] eqn:Hjob;
      [|reflexivity].
    assert (Hne : (job_employerId job =? e) = false)
      by (apply Z.eqb_neq; now apply Hother).
    rewrite Hne. reflexivity.
  - intros job Hjob Hown. rewrite Hjob. apply Z.eqb_eq in Hown. rewrite Hown. reflexivity.
Qed.

Lemma job_routes_are_for_the_owner_witness :
  JobRoutes.deleteJob (AuthMiddleware.Verified 1 Accounts.EMPLOYER) (Some 2) office
  = (fail 403 "Access denied: You don't own this job or job not found", office).
Proof.
  refine (proj1
    (job_routes_are_for_the_owner office 1 11 2
       (Accounts.mkUser "Eve" "eve@example.org" "h1" (Some "555 0101") (Some "Oslo")
          Accounts.EMPLOYER)
       (mkEmployer 1 (Some 5) RECRUITER (Some 50))
       (fun _ => JobPosting.deleteJob) _ _ _ _) _);
    try (vm_compute; reflexivity); [lia|].
  intros job Hjob. vm_compute in Hjob. injection Hjob as <-. simpl. lia.
Defined.

Lemma owner_runs (st : Accounts.Store) (id e j : Z) (user : Accounts.User) (row : Employer)
    (job : Job) (handler : AuthMiddleware.ReqUser -> Z -> Db -> Response * Db) :
  Accounts.users st !! id = Some user -> Accounts.user_role user = Accounts.EMPLOYER ->
  Accounts.employerOfUser id (employers (Accounts.tables st)) = Some (e, row) ->
  j <> 0 -> jobs (Accounts.tables st) !! j = Some job -> job_employerId job = e ->
  JobRoutes.ownerOnly (AuthMiddleware.Verified id Accounts.EMPLOYER) (Some j) handler st
  = Accounts.onTables (handler (AuthMiddleware.employerRequest id st) j) st.
Proof.
  intros Huser Hrole Hemployer Hj Hjob Hown. unfold JobRoutes.ownerOnly.
  rewrite (authEmployer_account id user st Huser Hrole).
  unfold AuthMiddleware.checkJobOwnership, AuthMiddleware.employerRequest.
  rewrite Hemployer. simpl.
  assert (Hnz : (j =? 0) = false) by now apply Z.eqb_neq.
  rewrite Hnz. simpl. rewrite Hjob. apply Z.eqb_eq in Hown. rewrite Hown. reflexivity.
Qed.

(** X7. The route that sets an application's status checks who owns the
    job of the path and nothing about the application: an employer who
    owns the job named in the path sets, with any status of the allow
    list, the status of any stored application, whichever job it was made
    to. *)
Theorem status_route_checks_the_job_only (now : Z) (st : Accounts.Store) (id e j k : Z)
    (user : Accounts.User) (row : Employer) (job : Job) (a : Application) (s : string) :
  Accounts.users st !! id = Some user -> Accounts.user_role user = Accounts.EMPLOYER ->
  Accounts.employerOfUser id (employers (Accounts.tables st)) = Some (e, row) ->
  j <> 0 -> jobs (Accounts.tables st) !! j = Some job -> job_employerId job = e ->
  applications (Accounts.tables st) !! k = Some a -> In s JobController.allowList ->
  let out := JobRoutes.patchApplicationStatus now
               (AuthMiddleware.Verified id Accounts.EMPLOYER) (Some j) k (Js.Str s) st in
  exists status',
    JobController.statusOfString s = Some status'
    /\ out.1 = ok 200 (String.append "Application status updated to " s)
    /\ applications (Accounts.tables out.2)
       = <[k := JobController.withStatus now status' a]> (applications (Accounts.tables st)).
Proof.
  intros Huser Hrole Hemployer Hj Hjob Hown Happ Hs. cbv zeta.
  unfold JobRoutes.patchApplicationStatus.
  rewrite (owner_runs st id e j user row job _ Huser Hrole Hemployer Hj Hjob Hown).
  destruct (update_status_allowed now (Accounts.tables st) k a s Happ Hs)
    as (status' & Hstatus & _ & Hrun).
  exists status'. unfold Accounts.onTables. rewrite Hrun. simpl.
  repeat split. exact Hstatus.
Qed.

Lemma status_route_checks_the_job_only_witness :
  let out := JobRoutes.patchApplicationStatus 300
               (AuthMiddleware.Verified 1 Accounts.EMPLOYER) (Some 1) 1
               (Js.Str "REJECTED") office in
  app_jobId <$> applications (Accounts.tables office) !! 1 = Some 2
  /\ job_employerId <$> jobs (Accounts.tables office) !! 2 = Some 12
  /\ exists status',
       JobController.statusOfString "REJECTED" = Some status'
       /\ out.1 = ok 200 "Application status updated to REJECTED"
       /\ applications (Accounts.tables out.2)
          = <[1 := JobController.withStatus 300 status' (mkApplication 2 21 PENDING 100 100)]>
              (applications (Accounts.tables office)).
Proof.
  cbv zeta. split; [vm_compute; reflexivity|]. split; [vm_compute; reflexivity|].
  refine (status_route_checks_the_job_only 300 office 1 11 1 1
       (Accounts.mkUser "Eve" "eve@example.org" "h1" (Some "555 0101") (Some "Oslo")
          Accounts.EMPLOYER)
       (mkEmployer 1 (Some 5) RECRUITER (Some 50)) (mkJob 5 11 ACTIVE)
       (mkApplication 2 21 PENDING 100 100) "REJECTED" _ _ _ _ _ _ _ _);
    try (vm_compute; reflexivity); [lia|simpl; tauto].
Defined.

(** X8. The route that deletes a form field checks who owns the job of
    the path and not which job the field belongs to: an employer who owns
    the job named in the path deletes any stored field that is not a
    default field, of whichever job, together with the responses given to
    it; a default field is refused with 400 and a field that is not stored
    with 404, the store being left alone. *)
Theorem field_route_checks_the_job_only (st : Accounts.Store) (id e j fieldId : Z)
    (user : Accounts.User) (row : Employer) (job : Job) :
  Accounts.users st !! id = Some user -> Accounts.user_role user = Accounts.EMPLOYER ->
  Accounts.employerOfUser id (employers (Accounts.tables st)) = Some (e, row) ->
  j <> 0 -> jobs (Accounts.tables st) !! j = Some job -> job_employerId job = e ->
  let out := JobRoutes.deleteFormField (AuthMiddleware.Verified id Accounts.EMPLOYER)
               (Some j) fieldId st in
  match List.find (JobController.hasId fieldId) (formFields (Accounts.tables st)) with
  | None => out = (fail 404 "Form field not found", st)
  | Some field =>
      if field_isDefault field then out = (fail 400 "Cannot delete default form fields", st)
      else
        out.1 = ok 200 "Form field deleted successfully"
        /\ (forall f, In f (formFields (Accounts.tables out.2))
              <-> In f (formFields (Accounts.tables st)) /\ field_id f <> fieldId)
        /\ (forall r, In r (responses (Accounts.tables out.2))
              <-> In r (responses (Accounts.tables st)) /\ ans_fieldId r <> fieldId)
  end.
Proof.
  intros Huser Hrole Hemployer Hj Hjob Hown. cbv zeta.
  unfold JobRoutes.deleteFormField.
  rewrite (owner_runs st id e j user row job _ Huser Hrole Hemployer Hj Hjob Hown).
  unfold Accounts.onTables, JobController.deleteJobFormField.
  destruct (List.find _ _) as [field|] eqn:Hfind.
  - destruct (field_isDefault field) eqn:Hdefault.
    + simpl. destruct st; reflexivity.
    + simpl. split; [reflexivity|]. split.
      * intros f. rewrite filter_In. unfold JobController.hasId.
        rewrite negb_true_iff, Z.eqb_neq. reflexivity.
      * intros r. rewrite filter_In, negb_true_iff. apply and_iff_compat_l.
        split.
        -- intros Hout Heq. apply find_some in Hfind. destruct Hfind as [Hin Hid].
           assert (Htrue : JobSeekerController.includes (ans_fieldId r)
                     (List.map field_id
                        (List.filter (JobController.hasId fieldId)
                           (formFields (Accounts.tables st)))) = true).
           { apply includes_In, in_map_iff. exists field. split.
             - unfold JobController.hasId in Hid. apply Z.eqb_eq in Hid. congruence.
             - apply filter_In. split; assumption. }
           congruence.
        -- intros Hne. destruct (JobSeekerController.includes _ _) eqn:Hinc; [|reflexivity].
           apply includes_In, in_map_iff in Hinc. destruct Hinc as (f & Hid & Hf).
           apply filter_In in Hf. destruct Hf as [_ Hf].
           unfold JobController.hasId in Hf. apply Z.eqb_eq in Hf. congruence.
  - simpl. destruct st; reflexivity.
Qed.

Lemma field_route_checks_the_job_only_witness :
  let out := JobRoutes.deleteFormField (AuthMiddleware.Verified 1 Accounts.EMPLOYER)
               (Some 1) 11 office in
  field_jobId <$> List.find (JobController.hasId 11) (formFields (Accounts.tables office))
    = Some 2
  /\ out.1 = ok 200 "Form field deleted successfully"
  /\ List.find (JobController.hasId 11) (formFields (Accounts.tables out.2)) = None.
Proof.
  cbv zeta. split; [vm_compute; reflexivity|].
  pose proof (field_route_checks_the_job_only office 1 11 1 11
       (Accounts.mkUser "Eve" "eve@example.org" "h1" (Some "555 0101") (Some "Oslo")
          Accounts.EMPLOYER)
       (mkEmployer 1 (Some 5) RECRUITER (Some 50)) (mkJob 5 11 ACTIVE)
       ltac:(vm_compute; reflexivity) ltac:(vm_compute; reflexivity)
       ltac:(vm_compute; reflexivity) ltac:(lia) ltac:(vm_compute; reflexivity)
       ltac:(vm_compute; reflexivity)) as H.
  split; [exact (proj1 H)|vm_compute; reflexivity].
Defined.

(** X9. An employer account without an employer profile passes
    [checkJobOwnership] for every stored job: [authEmployer] leaves
    [employerId] undefined, and the ownership query then has no condition
    on the job's employer. Through the delete route such a caller deletes
    any stored job. *)
Theorem account_without_profile_owns_every_job (st : Accounts.Store) (id j : Z)
    (user : Accounts.User) (job : Job)
    (handler : AuthMiddleware.ReqUser -> Z -> Db -> Response * Db) :
  Accounts.users st !! id = Some user -> Accounts.user_role user = Accounts.EMPLOYER ->
  Accounts.employerOfUser id (employers (Accounts.tables st)) = None ->
  j <> 0 -> jobs (Accounts.tables st) !! j = Some job ->
  let token := AuthMiddleware.Verified id Accounts.EMPLOYER in
  JobRoutes.ownerOnly token (Some j) handler st
  = Accounts.onTables
      (handler (AuthMiddleware.mkReqUser id Accounts.EMPLOYER None None None) j) st
  /\ (JobRoutes.deleteJob token (Some j) st).1 = ok 200 "Job deleted successfully"
  /\ jobs (Accounts.tables (JobRoutes.deleteJob token (Some j) st).2)
     = delete j (jobs (Accounts.tables st)).
Proof.
  intros Huser Hrole Hnone Hj Hjob. cbv zeta.
  assert (Hrun : forall h,
            JobRoutes.ownerOnly (AuthMiddleware.Verified id Accounts.EMPLOYER) (Some j) h st
            = Accounts.onTables
                (h (AuthMiddleware.mkReqUser id Accounts.EMPLOYER None None None) j) st).
  { intros h. unfold JobRoutes.ownerOnly.
    rewrite (authEmployer_account id user st Huser Hrole).
    unfold AuthMiddleware.checkJobOwnership, AuthMiddleware.employerRequest.
    rewrite Hnone. simpl.
    assert (Hnz : (j =? 0) = false) by now apply Z.eqb_neq.
    rewrite Hnz. simpl. rewrite Hjob. reflexivity. }
  split; [apply Hrun|].
  unfold JobRoutes.deleteJob. rewrite Hrun. unfold Accounts.onTables.
  unfold JobPosting.deleteJob, JobPosting.removeJob.
  assert (Hkept : jobs (JobPosting.deleteApplicationsWhere (JobPosting.ofJob j)
                          (Accounts.tables st)) = jobs (Accounts.tables st))
    by reflexivity.
  rewrite Hkept, Hjob. simpl. split; reflexivity.
Qed.

Lemma account_without_profile_owns_every_job_witness :
  (JobRoutes.deleteJob (AuthMiddleware.Verified 4 Accounts.EMPLOYER) (Some 2) office).1
  = ok 200 "Job deleted successfully".
Proof.
  refine (proj1 (proj2
    (account_without_profile_owns_every_job office 4 2
       (Accounts.mkUser "Noa" "noa@example.org" "h4" None None Accounts.EMPLOYER)
       (mkJob 5 12 ACTIVE) (fun _ => JobPosting.deleteJob) _ _ _ _ _)));
    try (vm_compute; reflexivity). lia.
Defined.

Lemma requireCompany_passes (u : AuthMiddleware.ReqUser) (db : Db) :
  AuthMiddleware.requireCompany (Some u) db = inr tt ->
  exists e row c company,
    Accounts.employerOfUser (AuthMiddleware.req_id u) (employers db) = Some (e, row)
    /\ employer_companyId row = Some c /\ c <> 0
    /\ companies db !! c = Some company /\ company_isActive company = true.
Proof.
  unfold AuthMiddleware.requireCompany, AuthMiddleware.companyOf.
  case_bool_decide; [|discriminate].
  destruct (Accounts.employerOfUser _ _) as [[e row]|]; [|discriminate].
  destruct (employer_companyId row) as [c|] eqn:Hc; [|discriminate].
  destruct (companies db !! c) as [company|] eqn:Hcompany; [|discriminate].
  simpl. destruct (c =? 0) eqn:Hzero; [discriminate|]. simpl.
  destruct (company_isActive company) eqn:Hactive; [|discriminate].
  intros _. exists e, row, c, company. apply Z.eqb_neq in Hzero. repeat split; assumption.
Qed.

Lemma requireCompany_refuses (u : option AuthMiddleware.ReqUser) (db : Db) r :
  AuthMiddleware.requireCompany u db = inl r -> status r ∈ [400; 401; 403].
Proof.
  unfold AuthMiddleware.requireCompany. destruct u as [u|]; [|intros [= <-]; list_mem].
  case_bool_decide; [|intros [= <-]; list_mem].
  destruct (Accounts.employerOfUser _ _) as [[e row]|]; [|intros [= <-]; list_mem].
  destruct (AuthMiddleware.companyOf row db); [|intros [= <-]; list_mem].
  destruct (negb _); [intros [= <-]; list_mem|].
  destruct (negb _); [intros [= <-]; list_mem|discriminate].
Qed.

(** X10. A job posted through the create route belongs to the caller: a
    201 is answered only to the holder of an employer account who has an
    employer profile in an active company, and the stored job carries that
    employer and that company; nothing in the body chooses them. Accounts
    are left as they were. *)
Theorem posted_job_belongs_to_the_caller (token : AuthMiddleware.Token)
    (body : JobPosting.JobInput) (st : Accounts.Store) r st' :
  JobRoutes.create token body st = (r, st') -> status r = 201 ->
  exists id user e row c company,
    token = AuthMiddleware.Verified id Accounts.EMPLOYER
    /\ Accounts.users st !! id = Some user
    /\ employers (Accounts.tables st) !! e = Some row /\ employer_userId row = id
    /\ employer_companyId row = Some c
    /\ companies (Accounts.tables st) !! c = Some company
    /\ company_isActive company = true
    /\ jobs (Accounts.tables st')
       = <[nextKey (jobs (Accounts.tables st)) := mkJob c e ACTIVE]>
           (jobs (Accounts.tables st))
    /\ Accounts.users st' = Accounts.users st
    /\ employers (Accounts.tables st') = employers (Accounts.tables st)
    /\ companies (Accounts.tables st') = companies (Accounts.tables st).
Proof.
  unfold JobRoutes.create.
  destruct (AuthMiddleware.authEmployer token st) as [refusal|u] eqn:Hauth.
  { intros [= <- <-] Hcode. apply authEmployer_refuses in Hauth.
    rewrite Hcode in Hauth. list_mem. }
  destruct (AuthMiddleware.requireCompany (Some u) (Accounts.tables st))
    as [refusal|[]] eqn:Hcompany.
  { intros [= <- <-] Hcode. apply requireCompany_refuses in Hcompany.
    rewrite Hcode in Hcompany. list_mem. }
  unfold Accounts.onTables. intros [= <- <-] Hcode.
  destruct (authEmployer_passes _ _ _ Hauth) as (id & user & -> & Huser & _ & ->).
  destruct (requireCompany_passes _ _ Hcompany) as (e & row & c & company & Hrow & Hc & Hnz
                                                    & Hstored & Hactive).
  simpl in Hrow.
  destruct (JobPosting.createJob _ body (Accounts.tables st)) as [r db'] eqn:Hrun.
  simpl in Hcode.
  destruct (createJob_created _ _ _ _ _ Hrun Hcode) as (c' & e' & Hc' & He' & _ & _ & _ & ->).
  unfold AuthMiddleware.employerRequest in Hc', He'. rewrite Hrow in Hc', He'.
  simpl in Hc', He'. rewrite Hc in Hc'. simpl in Hc'.
  assert (Hnz' : (c =? 0) = false) by now apply Z.eqb_neq.
  rewrite Hnz' in Hc'. simpl in Hc'. injection Hc' as <-. injection He' as <-.
  apply employerOfUser_Some in Hrow. destruct Hrow as [Hrow Hid].
  exists id, user, e, row, c, company. simpl. repeat split; assumption.
Qed.

Lemma posted_job_belongs_to_the_caller_witness :
  exists id user e row c company,
    AuthMiddleware.Verified 1 Accounts.EMPLOYER
      = AuthMiddleware.Verified id Accounts.EMPLOYER
    /\ Accounts.users office !! id = Some user
    /\ employers (Accounts.tables office) !! e = Some row /\ employer_userId row = id
    /\ employer_companyId row = Some c
    /\ companies (Accounts.tables office) !! c = Some company
    /\ company_isActive company = true
    /\ jobs (Accounts.tables
               (JobRoutes.create (AuthMiddleware.Verified 1 Accounts.EMPLOYER) posting
                  office).2)
       = <[nextKey (jobs (Accounts.tables office)) := mkJob c e ACTIVE]>
           (jobs (Accounts.tables office))
    /\ Accounts.users
         (JobRoutes.create (AuthMiddleware.Verified 1 Accounts.EMPLOYER) posting office).2
       = Accounts.users office
    /\ employers (Accounts.tables
                    (JobRoutes.create (AuthMiddleware.Verified 1 Accounts.EMPLOYER) posting
                       office).2)
       = employers (Accounts.tables office)
    /\ companies (Accounts.tables
                    (JobRoutes.create (AuthMiddleware.Verified 1 Accounts.EMPLOYER) posting
                       office).2)
       = companies (Accounts.tables office).
Proof.
  apply (posted_job_belongs_to_the_caller (AuthMiddleware.Verified 1 Accounts.EMPLOYER)
           posting office
           (JobRoutes.create (AuthMiddleware.Verified 1 Accounts.EMPLOYER) posting office).1);
    vm_compute; reflexivity.
Defined.

(** ** Becoming an employer *)

Lemma find_unique {A} (p : A -> bool) (l : list A) (x : A) :
  In x l -> p x = true -> (forall y, In y l -> p y = true -> y = x) ->
  List.find p l = Some x.
Proof.
  intros Hin Hp Huniq. destruct (List.find p l) as [y|] eqn:Hfind.
  - apply find_some in Hfind. destruct Hfind as [Hy Hpy]. f_equal. now apply Huniq.
  - exfalso. pose proof (find_none _ _ Hfind x Hin) as Hno. congruence.
Qed.

Lemma employerOfUser_unique (id e : Z) (row : Employer) (t : gmap Z Employer) :
  t !! e = Some row -> employer_userId row = id ->
  (forall e' row', t !! e' = Some row' -> employer_userId row' = id -> e' = e) ->
  Accounts.employerOfUser id t = Some (e, row).
Proof.
  intros Hrow Hid Huniq. unfold Accounts.employerOfUser. apply find_unique.
  - now apply scan_spec.
  - simpl. now apply Z.eqb_eq.
  - intros [e' row'] Hin Hp. simpl in Hp. apply Z.eqb_eq in Hp.
    apply scan_spec in Hin. assert (e' = e) by (eapply Huniq; eassumption).
    subst e'. congruence.
Qed.

Lemma employerOfUser_None (id : Z) (t : gmap Z Employer) :
  Accounts.employerOfUser id t = None ->
  forall e row, t !! e = Some row -> employer_userId row <> id.
Proof.
  unfold Accounts.employerOfUser. intros Hnone e row Hrow.
  apply scan_spec in Hrow. pose proof (find_none _ _ Hnone _ Hrow) as Hno.
  simpl in Hno. now apply Z.eqb_neq.
Qed.

Lemma authenticate_account (id : Z) (user : Accounts.User) (role : Accounts.Role)
    (st : Accounts.Store) :
  Accounts.users st !! id = Some user -> Accounts.user_role user = role ->
  AuthMiddleware.authenticate (AuthMiddleware.Verified id role) st
  = inr (AuthMiddleware.mkReqUser id role None None None).
Proof.
  intros Huser <-. unfold AuthMiddleware.authenticate. rewrite Huser.
  rewrite bool_decide_eq_true_2 by reflexivity. reflexivity.
Qed.

Lemma between_truthy (lo hi : nat) (s : string) :
  (0 < lo)%nat -> CompanyController.between lo hi s = true ->
  Js.truthyString (Some s) = true.
Proof.
  unfold CompanyController.between. intros Hlo Hlen.
  apply andb_true_iff in Hlen. destruct Hlen as [Hlen _]. apply Nat.leb_le in Hlen.
  destruct s; simpl in *; [lia|reflexivity].
Qed.

Lemma profile_status_of (id : Z) (user : Accounts.User) (role : Accounts.Role)
    (st : Accounts.Store) :
  Accounts.users st !! id = Some user -> Accounts.user_role user = role ->
  (EmployerRoutes.getProfileStatus (AuthMiddleware.Verified id role) st).2
  = Some (EmployerProfile.profileStatus
            (EmployerProfile.mkUser (Accounts.user_name user) (Accounts.user_phone user)
               (Accounts.user_location user)
               ((fun kv => EmployerProfile.mkEmployerRow (employer_companyId kv.2))
                  <$> Accounts.employerOfUser id (employers (Accounts.tables st))))).
Proof.
  intros Huser Hrole. unfold EmployerRoutes.getProfileStatus.
  rewrite (authenticate_account id user role st Huser Hrole).
  unfold EmployerController.checkProfileStatus, EmployerProfile.checkProfileStatus.
  simpl. unfold EmployerController.withEmployer. rewrite map_lookup_imap, Huser.
  reflexivity.
Qed.

Lemma nextKey_positive {A} (t : gmap Z A) : 0 < nextKey t.
Proof.
  unfold nextKey.
  assert (Hfold : 0 <= map_fold (fun k (_ : A) acc => Z.max k acc) 0 t).
  { apply (map_fold_weak_ind (fun r (_ : gmap Z A) => 0 <= r)).
    - lia.
    - intros i x m r _ IH. lia. }
  lia.
Qed.

(** X11. The onboarding steps of an employer compose as the profile
    status reports them: for an EMPLOYER account without an employer
    profile, valid basic details bring the completion to 33, creating the
    employer profile (stored as RECRUITER without a company) brings it to
    66, and joining an active company brings it to 100; asking for a
    second employer profile is refused with 409. Before the basic details
    are given the completion is 0. *)
Theorem onboarding_moves_the_completion (now : Z) (st : Accounts.Store) (id c : Z)
    (user : Accounts.User) (company : Company)
    (details : EmployerController.BasicDetails) (profile : EmployerController.ProfileInput) :
  Accounts.users st !! id = Some user -> Accounts.user_role user = Accounts.EMPLOYER ->
  Accounts.employerOfUser id (employers (Accounts.tables st)) = None ->
  EmployerController.updateUserBasicDetailsSchema details = true ->
  EmployerController.createEmployerProfileSchema profile = true ->
  c <> 0 -> companies (Accounts.tables st) !! c = Some company ->
  company_isActive company = true ->
  let token := AuthMiddleware.Verified id Accounts.EMPLOYER in
  let completion s :=
    EmployerProfile.completionPercentage <$> (EmployerRoutes.getProfileStatus token s).2 in
  let st1 := (EmployerRoutes.putBasicDetails token details st).2 in
  let st2 := (EmployerRoutes.postProfile token profile st1).2 in
  let st3 := (EmployerRoutes.postSelect now token (Some c) st2).2 in
  (Js.truthyString (Accounts.user_phone user) = false -> completion st = Some (Js.ofZ 0))
  /\ completion st1 = Some (Js.ofZ 33)
  /\ completion st2 = Some (Js.ofZ 66)
  /\ employers (Accounts.tables st2)
     = <[nextKey (employers (Accounts.tables st)) := mkEmployer id None RECRUITER None]>
         (employers (Accounts.tables st))
  /\ (EmployerRoutes.postProfile token profile st2).1
     = fail 409 "Employer profile already exists"
  /\ completion st3 = Some (Js.ofZ 100).
Proof.
  intros Huser Hrole Hnone Hdetails Hprofile Hc Hcompany Hactive. cbv zeta.
  destruct user as [name0 email pw phone0 location0 role0]. simpl in Hrole. subst role0.
  destruct details as [[name|] [phone|] [location|]]; try discriminate Hdetails;
    try (unfold EmployerController.updateUserBasicDetailsSchema in Hdetails;
         simpl in Hdetails; rewrite ?andb_false_r in Hdetails; discriminate).
  assert (Htruthy : Js.truthyString (Some name) = true
                    /\ Js.truthyString (Some phone) = true
                    /\ Js.truthyString (Some location) = true).
  { unfold EmployerController.updateUserBasicDetailsSchema in Hdetails. simpl in Hdetails.
    rewrite !andb_true_iff in Hdetails. destruct Hdetails as [[Hn Hp] Hl].
    repeat split; eapply between_truthy; try eassumption; lia. }
  destruct Htruthy as (Hn & Hp & Hl). simpl in Hn, Hp, Hl.
  set (user1 := Accounts.mkUser name email pw (Some phone) (Some location)
                  Accounts.EMPLOYER).
  set (k := nextKey (employers (Accounts.tables st))).
  (* the three stores *)
  assert (Hst1 : (EmployerRoutes.putBasicDetails
                    (AuthMiddleware.Verified id Accounts.EMPLOYER)
                    (EmployerController.mkBasicDetails (Some name) (Some phone)
                       (Some location)) st).2
                 = Accounts.setUsers (<[id := user1]> (Accounts.users st)) st).
  { unfold EmployerRoutes.putBasicDetails.
    rewrite (authenticate_account id _ Accounts.EMPLOYER st Huser eq_refl).
    unfold EmployerController.updateUserBasicDetails. simpl.
    rewrite Hdetails. simpl. rewrite Huser. reflexivity. }
  rewrite Hst1. set (st1 := Accounts.setUsers _ st).
  assert (Huser1 : Accounts.users st1 !! id = Some user1) by (simpl; apply lookup_insert_eq).
  assert (Hst2 : (EmployerRoutes.postProfile (AuthMiddleware.Verified id Accounts.EMPLOYER)
                    profile st1).2
                 = Accounts.setTables
                     (setEmployers
                        (<[k := mkEmployer id None RECRUITER None]>
                           (employers (Accounts.tables st))) (Accounts.tables st)) st1).
  { unfold EmployerRoutes.postProfile.
    rewrite (authenticate_account id user1 Accounts.EMPLOYER st1 Huser1 eq_refl).
    unfold EmployerController.createEmployerProfile. simpl.
    rewrite lookup_insert_eq. simpl. rewrite Hn, Hp, Hl. simpl.
    rewrite Hnone, Hprofile. reflexivity. }
  rewrite Hst2. set (st2 := Accounts.setTables _ st1).
  assert (Huser2 : Accounts.users st2 !! id = Some user1) by exact Huser1.
  assert (Hemployer2 : Accounts.employerOfUser id (employers (Accounts.tables st2))
                       = Some (k, mkEmployer id None RECRUITER None)).
  { apply employerOfUser_unique.
    - simpl. apply lookup_insert_eq.
    - reflexivity.
    - simpl. intros e' row' Hrow' Hid'. destruct (decide (e' = k)) as [->|Hne];
        [reflexivity|].
      rewrite lookup_insert_ne in Hrow' by congruence.
      exfalso. exact (employerOfUser_None id _ Hnone e' row' Hrow' Hid'). }
  assert (Hk : (k =? 0) = false)
    by (apply Z.eqb_neq; pose proof (nextKey_positive (employers (Accounts.tables st)));
        unfold k; lia).
  assert (Hcz : (c =? 0) = false) by now apply Z.eqb_neq.
  assert (Hst3 : (EmployerRoutes.postSelect now
                    (AuthMiddleware.Verified id Accounts.EMPLOYER) (Some c) st2).2
                 = Accounts.setTables
                     (setEmployers
                        (<[k := mkEmployer id (Some c) RECRUITER (Some now)]>
                           (employers (Accounts.tables st2))) (Accounts.tables st2)) st2).
  { unfold EmployerRoutes.postSelect.
    rewrite (authEmployer_account id user1 st2 Huser2 eq_refl).
    unfold AuthMiddleware.employerRequest. rewrite Hemployer2.
    unfold Accounts.onTables, CompanyController.selectExistingCompany. simpl.
    rewrite Hcz, Hk. simpl. rewrite Hcompany, Hactive, lookup_insert_eq. reflexivity. }
  rewrite Hst3. set (st3 := Accounts.setTables _ st2).
  assert (Huser3 : Accounts.users st3 !! id = Some user1) by exact Huser1.
  assert (Hemployer3 : Accounts.employerOfUser id (employers (Accounts.tables st3))
                       = Some (k, mkEmployer id (Some c) RECRUITER (Some now))).
  { apply employerOfUser_unique.
    - simpl. apply lookup_insert_eq.
    - reflexivity.
    - simpl. intros e' row' Hrow' Hid'. destruct (decide (e' = k)) as [->|Hne];
        [reflexivity|].
      rewrite !lookup_insert_ne in Hrow' by congruence.
      exfalso. exact (employerOfUser_None id _ Hnone e' row' Hrow' Hid'). }
  split; [|split; [|split; [|split; [|split]]]].
  - intros Hphone. simpl in Hphone.
    rewrite (profile_status_of id _ Accounts.EMPLOYER st Huser eq_refl). simpl.
    unfold EmployerProfile.profileStatus. simpl. rewrite Hphone.
    rewrite andb_false_r. reflexivity.
  - rewrite (profile_status_of id user1 Accounts.EMPLOYER st1 Huser1 eq_refl). simpl.
    unfold EmployerProfile.profileStatus. simpl. rewrite Hn, Hp, Hl, Hnone. reflexivity.
  - rewrite (profile_status_of id user1 Accounts.EMPLOYER st2 Huser2 eq_refl), Hemployer2. simpl.
    unfold EmployerProfile.profileStatus. simpl. rewrite Hn, Hp, Hl. reflexivity.
  - reflexivity.
  - unfold EmployerRoutes.postProfile.
    rewrite (authenticate_account id user1 Accounts.EMPLOYER st2 Huser2 eq_refl).
    unfold EmployerController.createEmployerProfile. simpl.
    rewrite lookup_insert_eq. simpl. rewrite Hn, Hp, Hl. simpl.
    pose proof Hemployer2 as Hfound. simpl in Hfound. rewrite Hfound. reflexivity.
  - rewrite (profile_status_of id user1 Accounts.EMPLOYER st3 Huser3 eq_refl), Hemployer3. simpl.
    unfold EmployerProfile.profileStatus. simpl. rewrite Hn, Hp, Hl, Hcz. reflexivity.
Qed.

Lemma onboarding_moves_the_completion_witness :
  let token := AuthMiddleware.Verified 4 Accounts.EMPLOYER in
  EmployerProfile.completionPercentage
    <$> (EmployerRoutes.getProfileStatus token
           (EmployerRoutes.postSelect 300 token (Some 5)
              (EmployerRoutes.postProfile token noaProfile
                 (EmployerRoutes.putBasicDetails token noaDetails office).2).2).2).2
  = Some (Js.ofZ 100).
Proof.
  cbv zeta.
  refine (proj2 (proj2 (proj2 (proj2 (proj2
    (onboarding_moves_the_completion 300 office 4 5
       (Accounts.mkUser "Noa" "noa@example.org" "h4" None None Accounts.EMPLOYER)
       (mkCompany "Acme" "Software" true) noaDetails noaProfile _ _ _ _ _ _ _ _))))));
    try (vm_compute; reflexivity). lia.
Defined.

(** ** Companies *)

Lemma employerOfUser_rewritten (id e : Z) (row row' : Employer) (t : gmap Z Employer) :
  oneProfile id t -> t !! e = Some row -> employer_userId row = id ->
  employer_userId row' = id ->
  Accounts.employerOfUser id (<[e := row']> t) = Some (e, row').
Proof.
  intros Hone Hrow Hid Hid'. apply employerOfUser_unique.
  - apply lookup_insert_eq.
  - exact Hid'.
  - intros e' r' Hr' Hidr'. destruct (decide (e' = e)) as [->|Hne]; [reflexivity|].
    rewrite lookup_insert_ne in Hr' by congruence.
    exact (Hone e' e r' row Hr' Hrow Hidr' Hid).
Qed.

Lemma employerOfUser_found (id e : Z) (row : Employer) (t : gmap Z Employer) :
  oneProfile id t -> t !! e = Some row -> employer_userId row = id ->
  Accounts.employerOfUser id t = Some (e, row).
Proof.
  intros Hone Hrow Hid. apply employerOfUser_unique; [exact Hrow|exact Hid|].
  intros e' r' Hr' Hidr'. exact (Hone e' e r' row Hr' Hrow Hidr' Hid).
Qed.

Lemma oneProfile_scan (id : Z) (t : gmap Z Employer) :
  (length (List.filter (fun kv => (employer_userId kv.2 =? id)%Z) (map_to_list t)) <= 1)%nat ->
  oneProfile id t.
Proof.
  intros Hlen e1 e2 r1 r2 H1 H2 Hid1 Hid2.
  assert (Hin : forall e r, t !! e = Some r -> employer_userId r = id ->
            In (e, r) (List.filter (fun kv => employer_userId kv.2 =? id) (map_to_list t))).
  { intros e r He Hr. apply filter_In. split; [now apply scan_spec|].
    simpl. now apply Z.eqb_eq. }
  pose proof (Hin e1 r1 H1 Hid1) as Hin1. pose proof (Hin e2 r2 H2 Hid2) as Hin2.
  destruct (List.filter _ _) as [|a [|b rest]]; simpl in *; try lia; try tauto.
  destruct Hin1 as [Ha|[]]. destruct Hin2 as [Hb|[]]. congruence.
Qed.

Lemma putCompany_member (currentYear : Z) (st : Accounts.Store) (id e c : Z)
    (user : Accounts.User) (row : Employer) (company : Company)
    (body : CompanyProfile.UpdateInput) :
  Accounts.users st !! id = Some user -> Accounts.user_role user = Accounts.EMPLOYER ->
  oneProfile id (employers (Accounts.tables st)) ->
  employers (Accounts.tables st) !! e = Some row -> employer_userId row = id ->
  e <> 0 -> employer_companyId row = Some c -> c <> 0 ->
  companies (Accounts.tables st) !! c = Some company -> company_isActive company = true ->
  EmployerRoutes.putCompany currentYear (AuthMiddleware.Verified id Accounts.EMPLOYER)
    body st
  = Accounts.onTables
      (CompanyProfile.updateMyCompany currentYear (Some e) (Some c) body) st.
Proof.
  intros Huser Hrole Hone Hrow Hid He Hc Hcz Hcompany Hactive.
  unfold EmployerRoutes.putCompany.
  rewrite (authEmployer_account id user st Huser Hrole).
  assert (Hfound : Accounts.employerOfUser id (employers (Accounts.tables st))
                   = Some (e, row)) by (apply employerOfUser_found; assumption).
  assert (Hnz : (c =? 0) = false) by now apply Z.eqb_neq.
  unfold AuthMiddleware.requireCompany, AuthMiddleware.employerRequest,
    AuthMiddleware.companyOf.
  simpl. rewrite Hfound. simpl. rewrite Hc. simpl. rewrite Hcompany, Hnz. simpl.
  rewrite Hactive. reflexivity.
Qed.

(** X12. Who may update a company is decided by a column the employer
    sets alone: a member whose role is RECRUITER or HIRING_MANAGER is
    refused by [PUT /company] with 403, and after that member has set the
    role ADMIN or HR_MANAGER through [PUT /employer/settings], which asks
    for no permission, the same update is accepted. *)
Theorem settings_open_the_company_profile (currentYear : Z) (st : Accounts.Store)
    (id e c : Z) (user : Accounts.User) (row : Employer) (company : Company)
    (wanted : string) :
  Accounts.users st !! id = Some user -> Accounts.user_role user = Accounts.EMPLOYER ->
  oneProfile id (employers (Accounts.tables st)) ->
  employers (Accounts.tables st) !! e = Some row -> employer_userId row = id ->
  e <> 0 -> employer_companyId row = Some c -> c <> 0 ->
  companies (Accounts.tables st) !! c = Some company -> company_isActive company = true ->
  (forall k other, companies (Accounts.tables st) !! k = Some other ->
     k = c \/ company_name other <> company_name company) ->
  In (employer_role row) [RECRUITER; HIRING_MANAGER] ->
  In wanted ["ADMIN"; "HR_MANAGER"] ->
  let token := AuthMiddleware.Verified id Accounts.EMPLOYER in
  let settings := EmployerController.mkSettingsInput (Some wanted) None None in
  EmployerRoutes.putCompany currentYear token noChange st
    = (fail 403 "Only company admins and HR managers can update company profile", st)
  /\ (EmployerRoutes.putSettings token settings st).1 = ok 200 "Settings updated successfully"
  /\ (EmployerRoutes.putCompany currentYear token noChange
        (EmployerRoutes.putSettings token settings st).2).1
     = ok 200 "Company profile updated successfully".
Proof.
  intros Huser Hrole Hone Hrow Hid He Hc Hcz Hcompany Hactive Hnames Hlow Hwanted.
  cbv zeta.
  assert (Hez : (e =? 0) = false) by now apply Z.eqb_neq.
  assert (Hnz : (c =? 0) = false) by now apply Z.eqb_neq.
  assert (Hfound : Accounts.employerOfUser id (employers (Accounts.tables st))
                   = Some (e, row)) by (apply employerOfUser_found; assumption).
  split; [|split].
  - rewrite (putCompany_member currentYear st id e c user row company noChange)
      by assumption.
    unfold Accounts.onTables, CompanyProfile.updateMyCompany. simpl.
    rewrite Hez, Hnz. simpl. rewrite Hrow, Hc.
    rewrite bool_decide_eq_true_2 by reflexivity. simpl.
    simpl in Hlow. destruct Hlow as [<-|[<-|[]]]; simpl; destruct st;
      reflexivity.
  - unfold EmployerRoutes.putSettings.
    rewrite (authEmployer_account id user st Huser Hrole).
    unfold AuthMiddleware.employerRequest. rewrite Hfound.
    unfold Accounts.onTables, EmployerController.updateEmployerSettings. simpl.
    rewrite Hez. simpl.
    simpl in Hwanted. destruct Hwanted as [<-|[<-|[]]]; simpl; rewrite Hrow; reflexivity.
  - assert (Hsettings :
      exists role, In role [ADMIN; HR_MANAGER]
        /\ (EmployerRoutes.putSettings (AuthMiddleware.Verified id Accounts.EMPLOYER)
              (EmployerController.mkSettingsInput (Some wanted) None None) st).2
           = Accounts.setTables
               (setEmployers
                  (<[e := mkEmployer (employer_userId row) (employer_companyId row) role
                            (employer_joinedAt row)]> (employers (Accounts.tables st)))
                  (Accounts.tables st)) st).
    { unfold EmployerRoutes.putSettings.
      rewrite (authEmployer_account id user st Huser Hrole).
      unfold AuthMiddleware.employerRequest. rewrite Hfound.
      unfold Accounts.onTables, EmployerController.updateEmployerSettings. simpl.
      rewrite Hez. simpl.
      simpl in Hwanted. destruct Hwanted as [<-|[<-|[]]]; simpl; rewrite Hrow;
        [exists ADMIN|exists HR_MANAGER]; (split; [simpl; tauto|reflexivity]). }
    destruct Hsettings as (role & Hrole' & ->).
    set (row' := mkEmployer (employer_userId row) (employer_companyId row) role
                   (employer_joinedAt row)).
    set (st' := Accounts.setTables _ st).
    assert (Hone' : oneProfile id (employers (Accounts.tables st'))).
    { simpl. intros e1 e2 r1 r2 H1 H2 Hid1 Hid2.
      assert (Hin : forall x r, <[e := row']> (employers (Accounts.tables st)) !! x = Some r ->
                      employer_userId r = id -> x = e).
      { intros x r Hx Hidx. destruct (decide (x = e)) as [->|Hne]; [reflexivity|].
        rewrite lookup_insert_ne in Hx by congruence.
        exact (Hone x e r row Hx Hrow Hidx Hid). }
      rewrite (Hin e1 r1 H1 Hid1), (Hin e2 r2 H2 Hid2). reflexivity. }
    assert (Hrow' : employers (Accounts.tables st') !! e = Some row')
      by (simpl; apply lookup_insert_eq).
    rewrite (putCompany_member currentYear st' id e c user row' company noChange
               Huser Hrole Hone' Hrow' Hid He Hc Hcz Hcompany Hactive).
    unfold Accounts.onTables, CompanyProfile.updateMyCompany. simpl.
    rewrite Hez, Hnz. simpl. rewrite lookup_insert_eq. simpl. rewrite Hc.
    rewrite bool_decide_eq_true_2 by reflexivity. simpl.
    assert (Hpass : negb (bool_decide (role = ADMIN))
                    && negb (bool_decide (role = HR_MANAGER)) = false).
    { simpl in Hrole'. destruct Hrole' as [<-|[<-|[]]]; reflexivity. }
    rewrite Hpass. unfold CompanyProfile.update. simpl. rewrite Hcompany. simpl.
    rewrite bool_decide_eq_true_2; [reflexivity|].
    intros k other Hother. exact (Hnames k other Hother).
Qed.

Lemma settings_open_the_company_profile_witness :
  let token := AuthMiddleware.Verified 1 Accounts.EMPLOYER in
  let settings := EmployerController.mkSettingsInput (Some "ADMIN") None None in
  EmployerRoutes.putCompany 2025 token noChange office
    = (fail 403 "Only company admins and HR managers can update company profile", office)
  /\ (EmployerRoutes.putSettings token settings office).1
     = ok 200 "Settings updated successfully"
  /\ (EmployerRoutes.putCompany 2025 token noChange
        (EmployerRoutes.putSettings token settings office).2).1
     = ok 200 "Company profile updated successfully".
Proof.
  assert (Hone : oneProfile 1 (employers (Accounts.tables office)))
    by (apply oneProfile_scan; vm_compute; lia).
  assert (Hnames : forall k other,
            companies (Accounts.tables office) !! k = Some other ->
            k = 5 \/ company_name other <> company_name (mkCompany "Acme" "Software" true)).
  { intros k other Hk. apply scan_spec in Hk. vm_compute in Hk.
    destruct Hk as [Hk|[]]. left. congruence. }
  exact (settings_open_the_company_profile 2025 office 1 11 5
       (Accounts.mkUser "Eve" "eve@example.org" "h1" (Some "555 0101") (Some "Oslo")
          Accounts.EMPLOYER)
       (mkEmployer 1 (Some 5) RECRUITER (Some 50)) (mkCompany "Acme" "Software" true)
       "ADMIN" ltac:(vm_compute; reflexivity) ltac:(reflexivity) Hone
       ltac:(vm_compute; reflexivity) ltac:(reflexivity) ltac:(lia) ltac:(reflexivity)
       ltac:(lia) ltac:(vm_compute; reflexivity) ltac:(reflexivity) Hnames
       ltac:(simpl; tauto) ltac:(simpl; tauto)).
Defined.

Lemma findOtherActiveByName_NoRow (x : string) (c : Z) (t : gmap Z Company) :
  CompanyProfile.findOtherActiveByName x c t = CompanyController.NoRow ->
  forall k other, t !! k = Some other -> k <> c -> company_isActive other = true ->
    CompanyController.ilike (company_name other) x = false.
Proof.
  unfold CompanyProfile.findOtherActiveByName.
  destruct (CompanyController.wellEscaped _); [|discriminate].
  destruct (List.find _ _) as [kv|] eqn:Hnone; [discriminate|].
  intros _ k other Hk Hne Hactive.
  apply scan_spec in Hk. pose proof (find_none _ _ Hnone _ Hk) as Hno. simpl in Hno.
  assert (Hkc : (k =? c) = false) by now apply Z.eqb_neq.
  rewrite Hkc, Hactive in Hno. simpl in Hno. now rewrite !andb_true_r in Hno.
Qed.

Lemma somewhere_here (matches : string -> bool) (text : string) :
  matches text = true -> CompanyController.somewhere matches text = true.
Proof. intros H. destruct text; simpl; rewrite H; reflexivity. Qed.

Lemma somewhere_later (matches : string -> bool) (c : ascii) (text : string) :
  CompanyController.somewhere matches text = true ->
  CompanyController.somewhere matches (String c text) = true.
Proof. intros H. simpl. rewrite H. apply orb_true_r. Qed.

(** A pattern without a backslash matches itself. *)
Lemma like_refl (pattern : string) :
  noEscape pattern = true -> CompanyController.like pattern pattern = true.
Proof.
  unfold noEscape. induction pattern as [|c rest IH]; [reflexivity|].
  simpl. intros Hno. apply andb_true_iff in Hno as [Hc Hrest].
  apply negb_true_iff in Hc. rewrite Hc. specialize (IH Hrest).
  destruct (Ascii.eqb c "%"%char).
  - apply somewhere_later, somewhere_here, IH.
  - destruct (Ascii.eqb c "_"%char); [exact IH|].
    rewrite Ascii.eqb_refl. exact IH.
Qed.

Lemma noEscape_lower (s : string) :
  noEscape (CompanyController.lower s) = noEscape s.
Proof.
  unfold noEscape. induction s as [|c s IH]; [reflexivity|]. simpl.
  destruct (lowerChar_special c) as (_ & _ & ->). now rewrite IH.
Qed.

Lemma noEscape_wellEscaped (s : string) :
  noEscape s = true -> CompanyController.wellEscaped s = true.
Proof.
  unfold noEscape. induction s as [|c s IH]; [reflexivity|]. simpl.
  intros Hno. apply andb_true_iff in Hno as [Hc Hrest].
  apply negb_true_iff in Hc. rewrite Hc. exact (IH Hrest).
Qed.

Lemma noEscape_trim (s : string) :
  noEscape s = true -> noEscape (CompanyController.trim s) = true.
Proof.
  unfold CompanyController.trim, noEscape.
  assert (Hstart : forall x, forallb (fun c => negb (Ascii.eqb c "\"%char))
                               (list_ascii_of_string x) = true ->
                             forallb (fun c => negb (Ascii.eqb c "\"%char))
                               (list_ascii_of_string (CompanyController.trimStart x))
                             = true).
  { induction x as [|c x IH]; [reflexivity|]. simpl. intros Hx.
    destruct (CompanyController.isSpace c); [|exact Hx].
    apply andb_true_iff in Hx as [_ Hx]. exact (IH Hx). }
  assert (Hend : forall x, forallb (fun c => negb (Ascii.eqb c "\"%char))
                             (list_ascii_of_string x) = true ->
                           forallb (fun c => negb (Ascii.eqb c "\"%char))
                             (list_ascii_of_string (CompanyController.trimEnd x))
                           = true).
  { induction x as [|c x IH]; [reflexivity|]. simpl. intros Hx.
    apply andb_true_iff in Hx as [Hc Hx].
    destruct (_ && _); [reflexivity|]. simpl. rewrite Hc. exact (IH Hx). }
  intros Hs. apply Hend, Hstart, Hs.
Qed.

(** A name without a backslash is matched by every name that is equal
    to it in lower case. *)
Lemma ilike_same_letters (stored x : string) :
  noEscape x = true ->
  CompanyController.lower stored = CompanyController.lower x ->
  CompanyController.ilike stored x = true.
Proof.
  intros Hno Heq. unfold CompanyController.ilike. rewrite Heq.
  apply like_refl. now rewrite noEscape_lower.
Qed.

Lemma distinct_after_insert (t : gmap Z Company) (k : Z) (row : Company) :
  distinctActiveNames t ->
  (company_isActive row = true ->
   forall j other, t !! j = Some other -> j <> k -> company_isActive other = true ->
     CompanyController.lower (company_name other)
     <> CompanyController.lower (company_name row)) ->
  distinctActiveNames (<[k := row]> t).
Proof.
  intros Hdistinct Hfresh i j ci cj Hi Hj Hai Haj Heq.
  destruct (decide (i = k)) as [->|Hik]; destruct (decide (j = k)) as [->|Hjk].
  - reflexivity.
  - rewrite lookup_insert_eq in Hi. injection Hi as <-.
    rewrite lookup_insert_ne in Hj by congruence.
    exfalso. apply (Hfresh Hai j cj Hj Hjk Haj). now symmetry.
  - rewrite lookup_insert_eq in Hj. injection Hj as <-.
    rewrite lookup_insert_ne in Hi by congruence.
    exfalso. exact (Hfresh Haj i ci Hi Hik Hai Heq).
  - rewrite lookup_insert_ne in Hi, Hj by congruence.
    exact (Hdistinct i j ci cj Hi Hj Hai Haj Heq).
Qed.

(** X13. Creating a company and updating one keep the active companies'
    names distinct, letter case aside, when the submitted name holds no
    backslash: if no two active companies share a name before
    [createCompany] or [updateMyCompany], none do afterwards.  The strings
    are ASCII text.  (After a backslash the database takes the next
    character of the submitted name alone, so that a name with a
    backslash does not match itself.) *)
Theorem active_names_stay_distinct (now currentYear : Z) (employerId companyId : option Z)
    (created : CompanyController.CompanyInput) (updated : CompanyProfile.UpdateInput)
    (db : Db) :
  distinctActiveNames (companies db) ->
  CompanyController.asciiNames (companies db) = true ->
  CompanyController.asciiInput created = true -> asciiUpdate updated = true ->
  noEscape (CompanyController.name created) = true ->
  CompanyController.optional noEscape (CompanyProfile.u_name updated) = true ->
  distinctActiveNames
    (companies (CompanyController.createCompany now currentYear employerId created db).2)
  /\ distinctActiveNames
       (companies
          (CompanyProfile.updateMyCompany currentYear employerId companyId updated db).2).
Proof.
  intros Hdistinct _ _ _ Hcreated Hupdated. split.
  - unfold CompanyController.createCompany.
    destruct (negb (Js.truthyId employerId)); [exact Hdistinct|].
    destruct (negb (CompanyController.createCompanySchema currentYear created));
      [exact Hdistinct|].
    destruct (CompanyController.findActiveByName _ _) as [[id existing]| |] eqn:Hfind;
      [exact Hdistinct| |exact Hdistinct].
    unfold CompanyController.createTransaction.
    case_bool_decide; [|exact Hdistinct].
    destruct (employers db !! default 0 employerId); [|exact Hdistinct].
    simpl. apply distinct_after_insert; [exact Hdistinct|].
    intros _ j other Hj _ Hactive. simpl. intros Heq.
    pose proof (findActiveByName_NoRow _ _ Hfind j other Hj Hactive) as Hno.
    rewrite ilike_same_letters in Hno; [discriminate| |exact Heq].
    now apply noEscape_trim.
  - unfold CompanyProfile.updateMyCompany.
    destruct (_ || _); [exact Hdistinct|].
    destruct (negb (CompanyProfile.updateCompanySchema currentYear updated)) eqn:Hschema;
      [exact Hdistinct|].
    destruct (employers db !! default 0 employerId) as [employer|]; [|exact Hdistinct].
    destruct (negb (bool_decide _)); [exact Hdistinct|].
    destruct (_ && _); [exact Hdistinct|].
    destruct (if Js.truthyString (CompanyProfile.u_name updated) then _ else _)
      as [other| |] eqn:Hdup; [exact Hdistinct| |exact Hdistinct].
    unfold CompanyProfile.update.
    destruct (companies db !! default 0 companyId) as [company|] eqn:Hcompany;
      [|exact Hdistinct].
    case_bool_decide; [|exact Hdistinct].
    simpl. apply distinct_after_insert; [exact Hdistinct|].
    simpl. intros Hactive j other Hj Hne Hotheractive.
    destruct (CompanyProfile.u_name updated) as [name|] eqn:Hname; simpl.
    + assert (Htruthy : Js.truthyString (Some name) = true).
      { apply negb_false_iff in Hschema.
        unfold CompanyProfile.updateCompanySchema in Hschema. rewrite Hname in Hschema.
        rewrite !andb_true_iff in Hschema. destruct Hschema as [[[[Hlen _] _] _] _].
        simpl in Hlen. eapply between_truthy; [|exact Hlen]. lia. }
      rewrite Htruthy in Hdup. simpl in Hdup. intros Heq.
      pose proof (findOtherActiveByName_NoRow _ _ _ Hdup j other Hj Hne Hotheractive)
        as Hno.
      rewrite ilike_same_letters in Hno; [discriminate| |exact Heq].
      simpl in Hupdated. now apply noEscape_trim.
    + intros Heq. apply Hne.
      exact (Hdistinct j (default 0 companyId) other company Hj Hcompany Hotheractive
               Hactive Heq).
Qed.

Lemma NoDup_map_injective {A B} (f : A -> B) (l : list A) (x y : A) :
  List.NoDup (List.map f l) -> In x l -> In y l -> f x = f y -> x = y.
Proof.
  induction l as [|a l IH]; simpl; [tauto|].
  intros Hnodup Hx Hy Heq. inversion Hnodup as [|? ? Hnotin Hrest]; subst.
  destruct Hx as [->|Hx]; destruct Hy as [->|Hy].
  - reflexivity.
  - exfalso. apply Hnotin. rewrite Heq. now apply in_map.
  - exfalso. apply Hnotin. rewrite <- Heq. now apply in_map.
  - now apply IH.
Qed.

Lemma distinctActiveNames_scan (t : gmap Z Company) :
  List.NoDup
    (List.map (fun kv : Z * Company => CompanyController.lower (company_name kv.2))
       (List.filter (fun kv : Z * Company => company_isActive kv.2) (map_to_list t))) ->
  distinctActiveNames t.
Proof.
  intros Hnodup i j ci cj Hi Hj Hai Haj Heq.
  assert (Hpair : (i, ci) = (j, cj)).
  { eapply NoDup_map_injective; [exact Hnodup| | |exact Heq];
      apply filter_In; (split; [now apply scan_spec|assumption]). }
  congruence.
Qed.

Lemma active_names_stay_distinct_witness :
  distinctActiveNames
    (companies (CompanyController.createCompany 100 2025 (Some 9) (request " Orbit ")
                  twoCompanies).2)
  /\ distinctActiveNames
       (companies (CompanyProfile.updateMyCompany 2025 (Some 9) (Some 5)
                     (CompanyProfile.mkUpdateInput (Some "Acme Labs") None None None None)
                     twoCompanies).2).
Proof.
  apply (active_names_stay_distinct 100 2025 (Some 9) (Some 5));
    try (vm_compute; reflexivity).
  apply distinctActiveNames_scan. vm_compute.
  repeat (apply List.NoDup_cons; [simpl; intuition discriminate|]). apply List.NoDup_nil.
Defined.

(** X14. [updateMyCompany] writes one row and only for a member who is
    ADMIN or HR_MANAGER: a 200 means that the caller's employer row
    belongs to the company of the request and carries one of these two
    roles, and that the company's row got the trimmed name and the
    industry of the body where they were given, its active flag being
    kept; every other answer leaves the store as it was, and no answer
    changes an employer, a job or another company. *)
Theorem company_update_is_for_its_admins (currentYear : Z) (employerId companyId : option Z)
    (body : CompanyProfile.UpdateInput) (db : Db) :
  let out := CompanyProfile.updateMyCompany currentYear employerId companyId body db in
  (status out.1 = 200 ->
   exists e c employer company,
     employerId = Some e /\ companyId = Some c
     /\ employers db !! e = Some employer /\ employer_companyId employer = Some c
     /\ In (employer_role employer) [ADMIN; HR_MANAGER]
     /\ companies db !! c = Some company
     /\ companies out.2
        = <[c := mkCompany
                   (default (company_name company)
                      (CompanyController.trim <$> CompanyProfile.u_name body))
                   (default (company_industry company) (CompanyProfile.u_industry body))
                   (company_isActive company)]> (companies db))
  /\ (status out.1 <> 200 -> out.2 = db)
  /\ employers out.2 = employers db /\ jobs out.2 = jobs db
  /\ applications out.2 = applications db.
Proof.
  cbv zeta. unfold CompanyProfile.updateMyCompany.
  destruct employerId as [e|]; [|simpl; repeat split; try discriminate; reflexivity].
  destruct companyId as [c|];
    [|simpl; rewrite orb_true_r; simpl; repeat split; try discriminate; reflexivity].
  destruct (_ || _); [simpl; repeat split; try discriminate; reflexivity|].
  destruct (negb (CompanyProfile.updateCompanySchema currentYear body));
    [simpl; repeat split; try discriminate; reflexivity|].
  simpl default.
  destruct (employers db !! e) as [employer|] eqn:Hemployer;
    [|simpl; repeat split; try discriminate; reflexivity].
  case_bool_decide as Hmember; simpl negb; cbv iota;
    [|simpl; repeat split; try discriminate; reflexivity].
  destruct (negb (bool_decide (employer_role employer = ADMIN))
            && negb (bool_decide (employer_role employer = HR_MANAGER))) eqn:Hrole;
    [simpl; repeat split; try discriminate; reflexivity|].
  destruct (if Js.truthyString (CompanyProfile.u_name body) then _ else _);
    [simpl; repeat split; try discriminate; reflexivity| |
     simpl; repeat split; try discriminate; reflexivity].
  unfold CompanyProfile.update.
  destruct (companies db !! c) as [company|] eqn:Hcompany;
    [|simpl; repeat split; try discriminate; reflexivity].
  destruct (bool_decide (map_Forall _ _)); [|simpl; repeat split; try discriminate; reflexivity].
  simpl. split; [|repeat split; try reflexivity; intros Hne; now contradiction Hne].
  intros _. exists e, c, employer, company.
  split; [reflexivity|]. split; [reflexivity|]. split; [exact Hemployer|].
  split; [exact Hmember|]. split; [|split; [exact Hcompany|reflexivity]].
  apply andb_false_iff in Hrole. simpl.
  destruct Hrole as [Hrole|Hrole]; apply negb_false_iff, bool_decide_eq_true in Hrole;
    rewrite Hrole; tauto.
Qed.

(** ** Statistics *)

Lemma counts_by_status (l : list Application) :
  length l
  = (EmployerDashboard.countOf PENDING l + EmployerDashboard.countOf REVIEWING l
     + EmployerDashboard.countOf SHORTLISTED l + EmployerDashboard.countOf INTERVIEWED l
     + EmployerDashboard.countOf ACCEPTED l + EmployerDashboard.countOf REJECTED l
     + EmployerDashboard.countOf WITHDRAWN l)%nat.
Proof.
  unfold EmployerDashboard.countOf. induction l as [|a l IH]; [reflexivity|].
  simpl. destruct (app_status a); simpl; lia.
Qed.

Lemma orZero_groupByStatus (s : ApplicationStatus) (l : list Application) :
  EmployerController.orZero s (EmployerController.groupByStatus l)
  = EmployerDashboard.countOf s l.
Proof.
  unfold EmployerController.orZero, EmployerController.groupByStatus.
  rewrite find_filter. unfold EmployerDashboard.allStatuses.
  destruct s; simpl;
    repeat match goal with
           | |- context [Nat.eqb ?n 0] => destruct (Nat.eqb n 0) eqn:?
           end;
    simpl; try reflexivity;
    repeat match goal with
           | H : Nat.eqb _ 0 = true |- _ => apply Nat.eqb_eq in H
           end;
    congruence.
Qed.

(** X15. What the employer's statistics add up to: [pausedJobs] is the
    number of the employer's jobs that are not ACTIVE, so it counts the
    COMPLETED jobs with the PAUSED ones; [applicationsByStatus] lists the
    count of each of six statuses and leaves WITHDRAWN out, so its counts
    and the withdrawn applications together make [totalApplications]. *)
Theorem employer_statistics_add_up (u : AuthMiddleware.ReqUser) (db : Db)
    (stats : EmployerController.EmployerStats) :
  (EmployerController.getEmployerStats (Some u) db).2 = Some stats ->
  let e := default 0 (AuthMiddleware.req_employerId u) in
  let mine := EmployerController.jobsOf e db in
  let received := EmployerController.applicationsTo e db in
  EmployerController.pausedJobs stats
    = Z.of_nat (length (List.filter (fun job => bool_decide (job_status job = PAUSED)) mine)
                + length (List.filter (fun job => bool_decide (job_status job = COMPLETED))
                            mine))
  /\ EmployerController.applicationsByStatus stats
     = List.map (fun s => (s, EmployerDashboard.countOf s received))
         [PENDING; REVIEWING; SHORTLISTED; INTERVIEWED; ACCEPTED; REJECTED]
  /\ (list_sum (List.map snd (EmployerController.applicationsByStatus stats))
      + EmployerDashboard.countOf WITHDRAWN received)%nat
     = EmployerController.totalApplications stats
  /\ EmployerController.pendingApplications stats
     = EmployerDashboard.countOf PENDING received.
Proof.
  unfold EmployerController.getEmployerStats.
  destruct (_ || _); [discriminate|]. simpl. intros [= <-]. simpl.
  rewrite !orZero_groupByStatus.
  split; [|split; [reflexivity|split; [|reflexivity]]].
  - set (mine := EmployerController.jobsOf _ db).
    assert (Hsplit : length mine
              = (length (List.filter (fun job => bool_decide (job_status job = ACTIVE)) mine)
                 + length (List.filter (fun job => bool_decide (job_status job = PAUSED))
                             mine)
                 + length (List.filter (fun job => bool_decide (job_status job = COMPLETED))
                             mine))%nat).
    { induction mine as [|job rest IH]; [reflexivity|].
      simpl. destruct (job_status job); simpl; lia. }
    lia.
  - rewrite (counts_by_status (EmployerController.applicationsTo _ db)). simpl. lia.
Qed.

Lemma employer_statistics_add_up_witness :
  let stats :=
    EmployerController.mkEmployerStats 1 1 0 1 1
      [(PENDING, 1%nat); (REVIEWING, 0%nat); (SHORTLISTED, 0%nat); (INTERVIEWED, 0%nat);
       (ACCEPTED, 0%nat); (REJECTED, 0%nat)] in
  (EmployerController.getEmployerStats (Some admin) (Accounts.tables office)).2 = Some stats
  /\ (list_sum (List.map snd (EmployerController.applicationsByStatus stats))
      + EmployerDashboard.countOf WITHDRAWN
          (EmployerController.applicationsTo 12 (Accounts.tables office)))%nat
     = EmployerController.totalApplications stats.
Proof.
  cbv zeta. split; [vm_compute; reflexivity|].
  refine (proj1 (proj2 (proj2
    (employer_statistics_add_up admin (Accounts.tables office) _ _)))).
  vm_compute. reflexivity.
Defined.

(** ** Routes of the job seeker *)

Lemma guarded_cases {A} (token : AuthMiddleware.Token) (st : Accounts.Store)
    (refused : Response -> A) (handler : AuthMiddleware.ReqUser -> A) :
  (callerSeeker token st = None
   /\ exists r, SeekerRoutes.guarded token st refused handler = refused r
                /\ status r ∈ [400; 401; 403; 404])
  \/ (exists id sid,
        callerSeeker token st = Some sid
        /\ SeekerRoutes.guarded token st refused handler
           = handler (AuthMiddleware.mkReqUser id Accounts.JOB_SEEKER None (Some sid) None)).
Proof.
  unfold SeekerRoutes.guarded, AuthMiddleware.authJobSeeker, callerSeeker.
  destruct token as [| |id role].
  - left. split; [reflexivity|]. eexists. split; [reflexivity|]. list_mem.
  - left. split; [reflexivity|]. eexists. split; [reflexivity|]. list_mem.
  - destruct role; simpl;
      [|left; split; [reflexivity|]; eexists; split; [reflexivity|]; list_mem].
    destruct (Accounts.users st !! id) as [user|];
      [|left; split; [reflexivity|]; eexists; split; [reflexivity|]; list_mem].
    case_bool_decide;
      [|left; split; [reflexivity|]; eexists; split; [reflexivity|]; list_mem].
    unfold AuthMiddleware.requireCompleteProfile, AuthMiddleware.seekerRequest. simpl.
    destruct (Accounts.seekerOfUser id (Accounts.jobSeekers st)) as [[sid row]|].
    + right. exists id, sid. split; reflexivity.
    + left. split; [reflexivity|]. eexists. split; [reflexivity|]. list_mem.
Qed.

(** X16. Behind [authJobSeeker] and [requireCompleteProfile] a seeker
    acts on their own applications only: an application stored by the
    apply route is filed under the seeker profile of the account the token
    was issued to, whatever the body says; the withdraw route changes only
    an application of that profile, and the detail route shows only such
    an application. A token without such a profile is refused and nothing
    is stored. *)
Theorem seeker_routes_act_for_the_caller (now : Z) (token : AuthMiddleware.Token)
    (st : Accounts.Store) :
  (forall jobId rs,
     let out := SeekerRoutes.apply now token jobId rs st in
     status out.1 = 201 ->
     exists sid,
       callerSeeker token st = Some sid
       /\ applications (Accounts.tables out.2)
          = <[nextKey (applications (Accounts.tables st)) :=
                mkApplication jobId sid PENDING now now]>
              (applications (Accounts.tables st)))
  /\ (forall k,
        let out := SeekerRoutes.withdraw now token k st in
        status out.1 = 200 ->
        exists sid a,
          callerSeeker token st = Some sid
          /\ applications (Accounts.tables st) !! k = Some a /\ app_seekerId a = sid
          /\ applications (Accounts.tables out.2)
             = <[k := JobSeekerController.withdrawn now a]>
                 (applications (Accounts.tables st)))
  /\ (forall k a,
        (SeekerRoutes.getApplication token k st).2 = Some a ->
        exists sid,
          callerSeeker token st = Some sid
          /\ applications (Accounts.tables st) !! k = Some a /\ app_seekerId a = sid)
  /\ (callerSeeker token st = None ->
      forall jobId rs k,
        (SeekerRoutes.apply now token jobId rs st).2 = st
        /\ (SeekerRoutes.withdraw now token k st).2 = st
        /\ (SeekerRoutes.getApplication token k st).2 = None).
Proof.
  split; [|split; [|split]].
  - intros jobId rs. cbv zeta. unfold SeekerRoutes.apply.
    destruct (guarded_cases token st (fun refusal => (refusal, st))
                (fun user =>
                   Accounts.onTables
                     (JobSeekerController.applyForJob now
                        (AuthMiddleware.req_jobSeekerId user) jobId rs) st))
      as [[_ (r & -> & Hr)]|(id & sid & Hcaller & ->)].
    + simpl. intros Hcode. rewrite Hcode in Hr. list_mem.
    + unfold Accounts.onTables. simpl. intros Hcode.
      destruct (apply_outcome now (Some sid) jobId rs (Accounts.tables st))
        as [[Hne _]|[_ (s & [= <-] & Hcreated)]]; [contradiction|].
      apply createApplication_Some in Hcreated. destruct Hcreated as [_ ->].
      exists sid. split; [exact Hcaller|reflexivity].
  - intros k. cbv zeta. unfold SeekerRoutes.withdraw.
    destruct (guarded_cases token st (fun refusal => (refusal, st))
                (fun user =>
                   Accounts.onTables
                     (JobSeekerController.withdrawApplication now
                        (AuthMiddleware.req_jobSeekerId user) k) st))
      as [[_ (r & -> & Hr)]|(id & sid & Hcaller & ->)].
    + simpl. intros Hcode. rewrite Hcode in Hr. list_mem.
    + unfold Accounts.onTables, JobSeekerController.withdrawApplication. simpl.
      destruct (negb (negb (sid =? 0))); [simpl; discriminate|].
      destruct (applications (Accounts.tables st) !! k) as [a|] eqn:Ha;
        [|simpl; discriminate].
      destruct (_ && _) eqn:Hguard; [|simpl; discriminate].
      simpl. intros _. apply andb_true_iff in Hguard. destruct Hguard as [Hown _].
      apply Z.eqb_eq in Hown. exists sid, a. repeat split; assumption.
  - intros k a. unfold SeekerRoutes.getApplication.
    destruct (guarded_cases token st (fun refusal => (refusal, @None Application))
                (fun user =>
                   JobSeekerReads.getApplicationById
                     (AuthMiddleware.req_jobSeekerId user) k (Accounts.tables st)))
      as [[_ (r & -> & Hr)]|(id & sid & Hcaller & ->)].
    + simpl. discriminate.
    + unfold JobSeekerReads.getApplicationById. simpl.
      destruct (negb (negb (sid =? 0))); [simpl; discriminate|].
      destruct (applications (Accounts.tables st) !! k) as [b|] eqn:Hb;
        [|simpl; discriminate].
      destruct (app_seekerId b =? sid) eqn:Hown; [|simpl; discriminate].
      simpl. intros [= <-]. apply Z.eqb_eq in Hown. exists sid. repeat split; assumption.
  - intros Hnone jobId rs k.
    unfold SeekerRoutes.apply, SeekerRoutes.withdraw, SeekerRoutes.getApplication.
    split; [|split].
    + destruct (guarded_cases token st (fun refusal => (refusal, st))
                  (fun user =>
                     Accounts.onTables
                       (JobSeekerController.applyForJob now
                          (AuthMiddleware.req_jobSeekerId user) jobId rs) st))
        as [[_ (r & -> & _)]|(id & sid & Hcaller & _)]; [reflexivity|congruence].
    + destruct (guarded_cases token st (fun refusal => (refusal, st))
                  (fun user =>
                     Accounts.onTables
                       (JobSeekerController.withdrawApplication now
                          (AuthMiddleware.req_jobSeekerId user) k) st))
        as [[_ (r & -> & _)]|(id & sid & Hcaller & _)]; [reflexivity|congruence].
    + destruct (guarded_cases token st (fun refusal => (refusal, @None Application))
                  (fun user =>
                     JobSeekerReads.getApplicationById
                       (AuthMiddleware.req_jobSeekerId user) k (Accounts.tables st)))
        as [[_ (r & -> & _)]|(id & sid & Hcaller & _)]; [reflexivity|congruence].
Qed.

(** X17. The seeker's dashboard counts leave two statuses out: the five
    counts it reports (pending, shortlisted, rejected, interviewed,
    accepted) together with the seeker's REVIEWING and WITHDRAWN
    applications make [totalApplications]; so the reported counts add up
    to the total exactly when the seeker has no application under review
    and none withdrawn. *)
Theorem seeker_statistics_add_up (jobSeekerId : option Z) (db : Db)
    (stats : JobSeekerReads.JobStats) :
  (JobSeekerReads.getJobStats jobSeekerId db).2 = Some stats ->
  let rows := JobSeekerReads.mine (default 0 jobSeekerId) db in
  let reported :=
    (JobSeekerReads.pendingApplications stats + JobSeekerReads.shortlistedApplications stats
     + JobSeekerReads.rejectedApplications stats
     + JobSeekerReads.interviewedApplications stats
     + JobSeekerReads.acceptedApplications stats)%nat in
  let unreported :=
    (length (JobSeekerReads.withStatus REVIEWING rows)
     + length (JobSeekerReads.withStatus WITHDRAWN rows))%nat in
  JobSeekerReads.totalApplications stats = (reported + unreported)%nat
  /\ (reported = JobSeekerReads.totalApplications stats <-> unreported = 0%nat).
Proof.
  unfold JobSeekerReads.getJobStats.
  destruct (negb (Js.truthyId jobSeekerId)); [discriminate|].
  simpl. intros [= <-]. simpl.
  set (rows := JobSeekerReads.mine _ db).
  assert (Hsplit : length rows
            = (length (JobSeekerReads.withStatus PENDING rows)
               + length (JobSeekerReads.withStatus SHORTLISTED rows)
               + length (JobSeekerReads.withStatus REJECTED rows)
               + length (JobSeekerReads.withStatus INTERVIEWED rows)
               + length (JobSeekerReads.withStatus ACCEPTED rows)
               + (length (JobSeekerReads.withStatus REVIEWING rows)
                  + length (JobSeekerReads.withStatus WITHDRAWN rows)))%nat).
  { unfold JobSeekerReads.withStatus. induction rows as [|[k a] rest IH]; [reflexivity|].
    simpl. destruct (app_status a); simpl; lia. }
  split; [exact Hsplit|]. lia.
Qed.

Lemma seeker_statistics_add_up_witness :
  let stats := JobSeekerReads.mkJobStats 1 1 0 0 0 0 2 in
  (JobSeekerReads.getJobStats (Some 21) (Accounts.tables office)).2 = Some stats
  /\ JobSeekerReads.totalApplications stats
     = (JobSeekerReads.pendingApplications stats
        + JobSeekerReads.shortlistedApplications stats
        + JobSeekerReads.rejectedApplications stats
        + JobSeekerReads.interviewedApplications stats
        + JobSeekerReads.acceptedApplications stats
        + (length (JobSeekerReads.withStatus REVIEWING
                     (JobSeekerReads.mine 21 (Accounts.tables office)))
           + length (JobSeekerReads.withStatus WITHDRAWN
                       (JobSeekerReads.mine 21 (Accounts.tables office)))))%nat.
Proof.
  cbv zeta. split; [vm_compute; reflexivity|].
  refine (proj1 (seeker_statistics_add_up (Some 21) (Accounts.tables office) _ _)).
  vm_compute. reflexivity.
Defined.

(** ** Pages of applications *)

Lemma insertNewest_In (x y : Z * Application) (l : list (Z * Application)) :
  In y (JobSeekerReads.insertNewest x l) <-> y = x \/ In y l.
Proof.
  induction l as [|z l IH]; simpl.
  - intuition congruence.
  - destruct (_ <=? _); simpl; [intuition congruence|]. rewrite IH. intuition congruence.
Qed.

Lemma insertNewest_length (x : Z * Application) (l : list (Z * Application)) :
  length (JobSeekerReads.insertNewest x l) = S (length l).
Proof.
  induction l as [|z l IH]; simpl; [reflexivity|].
  destruct (_ <=? _); simpl; [reflexivity|]. now rewrite IH.
Qed.

Lemma newestFirst_In (y : Z * Application) (l : list (Z * Application)) :
  In y (JobSeekerReads.newestFirst l) <-> In y l.
Proof.
  unfold JobSeekerReads.newestFirst. induction l as [|x l IH]; simpl; [tauto|].
  rewrite insertNewest_In, IH. intuition congruence.
Qed.

Lemma newestFirst_length (l : list (Z * Application)) :
  length (JobSeekerReads.newestFirst l) = length l.
Proof.
  unfold JobSeekerReads.newestFirst. induction l as [|x l IH]; simpl; [reflexivity|].
  now rewrite insertNewest_length, IH.
Qed.

Lemma ceil_quotient (total : nat) (n : positive) :
  Qceiling (inject_Z (Z.of_nat total) / inject_Z (Z.pos n))
  = (Z.of_nat total + Z.pos n - 1) / Z.pos n.
Proof.
  assert (Hq : (inject_Z (Z.of_nat total) / inject_Z (Z.pos n)
                == Z.of_nat total # n)%Q).
  { unfold Qeq, Qdiv, Qmult, Qinv, inject_Z. simpl. lia. }
  rewrite Hq. unfold Qceiling, Qfloor, Qopp. simpl.
  set (t := Z.of_nat total). set (d := Z.pos n).
  assert (Hd : 0 < d) by (unfold d; lia).
  pose proof (Z.div_mod (t + d - 1) d ltac:(lia)) as Hdm.
  pose proof (Z.mod_pos_bound (t + d - 1) d Hd) as Hbound.
  pose proof (Z.div_mod (- t) d ltac:(lia)) as Hdm'.
  pose proof (Z.mod_pos_bound (- t) d Hd) as Hbound'.
  nia.
Qed.

Lemma In_firstn {A} (n : nat) (l : list A) (x : A) : In x (firstn n l) -> In x l.
Proof.
  revert l. induction n as [|n IH]; intros [|y l]; simpl; try tauto.
  intros [->|Hx]; [now left|right; now apply IH].
Qed.

Lemma In_skipn {A} (n : nat) (l : list A) (x : A) : In x (skipn n l) -> In x l.
Proof.
  revert l. induction n as [|n IH]; intros [|y l]; simpl; try tauto.
  intros Hx. right. now apply IH.
Qed.

Lemma insertNewest_sorted (x : Z * Application) (l : list (Z * Application)) :
  StronglySorted notNewer l -> StronglySorted notNewer (JobSeekerReads.insertNewest x l).
Proof.
  induction l as [|y l IH]; simpl; intros Hsorted.
  - constructor; [constructor|constructor].
  - inversion Hsorted as [|? ? Hrest Hall]; subst.
    destruct (app_appliedAt y.2 <=? app_appliedAt x.2) eqn:Hle.
    + apply Z.leb_le in Hle. constructor; [exact Hsorted|].
      constructor; [exact Hle|].
      rewrite List.Forall_forall in Hall |- *. intros z Hz. specialize (Hall z Hz).
      unfold notNewer in *. lia.
    + apply Z.leb_gt in Hle. constructor; [now apply IH|].
      rewrite List.Forall_forall in Hall |- *. intros z Hz.
      apply insertNewest_In in Hz. destruct Hz as [->|Hz].
      * unfold notNewer. lia.
      * now apply Hall.
Qed.

Lemma newestFirst_sorted (l : list (Z * Application)) :
  StronglySorted notNewer (JobSeekerReads.newestFirst l).
Proof.
  unfold JobSeekerReads.newestFirst. induction l as [|x l IH]; simpl.
  - constructor.
  - now apply insertNewest_sorted.
Qed.

Lemma sorted_skipn {A} (R : A -> A -> Prop) (n : nat) (l : list A) :
  StronglySorted R l -> StronglySorted R (skipn n l).
Proof.
  revert l. induction n as [|n IH]; intros l Hsorted; [exact Hsorted|].
  destruct l as [|x l]; [constructor|]. simpl. apply IH.
  now inversion Hsorted.
Qed.

Lemma sorted_firstn {A} (R : A -> A -> Prop) (n : nat) (l : list A) :
  StronglySorted R l -> StronglySorted R (firstn n l).
Proof.
  revert l. induction n as [|n IH]; intros l Hsorted; [constructor|].
  destruct l as [|x l]; [constructor|]. simpl.
  inversion Hsorted as [|? ? Hrest Hall]; subst. constructor; [now apply IH|].
  rewrite List.Forall_forall in Hall |- *. intros y Hy. apply Hall.
  exact (In_firstn n l y Hy).
Qed.

(** X18. The pages of a seeker's applications: for a page number and a
    page size of at least 1 the answer is 200 and holds the rows of that
    page of the caller's applications taken newest first, none of another
    seeker; [totalPages] is the number of pages rounded up, [hasNext]
    holds exactly when rows remain after this page and [hasPrev] exactly
    when the page is not the first. *)
Theorem pages_of_applications (s p n : Z) (db : Db) :
  s <> 0 -> 1 <= p -> 1 <= n ->
  let rows := JobSeekerReads.mine s db in
  let total := Z.of_nat (length rows) in
  exists applications pg,
    JobSeekerReads.getMyApplications (Some s) None (Some p) (Some n) db
    = (mkResponse 200 true EmptyString, Some (applications, pg))
    /\ applications
       = firstn (Z.to_nat n) (skipn (Z.to_nat ((p - 1) * n)) (JobSeekerReads.newestFirst rows))
    /\ Z.of_nat (length applications) = Z.max 0 (Z.min n (total - (p - 1) * n))
    /\ StronglySorted notNewer applications
    /\ (forall kv, In kv applications ->
          Schema.applications db !! kv.1 = Some kv.2 /\ app_seekerId kv.2 = s)
    /\ JobSeekerReads.totalCount pg = length rows
    /\ JobSeekerReads.totalPages pg = Js.ofZ ((total + n - 1) / n)
    /\ (JobSeekerReads.hasNext pg = true <-> p * n < total)
    /\ (JobSeekerReads.hasPrev pg = true <-> 1 < p).
Proof.
  intros Hs Hp Hn. cbv zeta.
  set (rows := JobSeekerReads.mine s db).
  assert (Hceil : JsNumber.Math_ceil (Js.div (Js.ofNat (length rows)) (Js.ofZ n))
                  = Js.ofZ ((Z.of_nat (length rows) + n - 1) / n)).
  { destruct n as [|n|n]; try lia. unfold Js.ofNat, Js.ofZ at 1 2, Js.div.
    rewrite isZero_inject. simpl (_ =? _). unfold JsNumber.Math_ceil.
    now rewrite ceil_quotient. }
  assert (Hrun : JobSeekerReads.getMyApplications (Some s) None (Some p) (Some n) db
            = (mkResponse 200 true EmptyString,
               Some (firstn (Z.to_nat n)
                       (skipn (Z.to_nat ((p - 1) * n)) (JobSeekerReads.newestFirst rows)),
                     JobSeekerReads.mkPagination p
                       (Js.ofZ ((Z.of_nat (length rows) + n - 1) / n)) (length rows)
                       (JsNumber.lt (Js.ofZ p)
                          (Js.ofZ ((Z.of_nat (length rows) + n - 1) / n)))
                       (1 <? p)))).
  { unfold JobSeekerReads.getMyApplications, JobSeekerReads.page.
    assert (Hsz : Js.truthyId (Some s) = true)
      by (simpl; apply negb_true_iff; now apply Z.eqb_neq).
    rewrite Hsz. cbn [negb Js.truthyString default from_option id].
    assert (Hskip : ((p - 1) * n <? 0) = false) by (apply Z.ltb_ge; nia).
    assert (Htake : (0 <=? n) = true) by (apply Z.leb_le; lia).
    fold rows. rewrite Hskip, Htake, Hceil. reflexivity. }
  eexists. eexists. split; [exact Hrun|].
  split; [reflexivity|].
  split; [|split; [|split; [|split; [reflexivity|split; [reflexivity|split]]]]].
  - rewrite length_firstn, length_skipn, newestFirst_length.
    assert (Hnonneg : 0 <= (p - 1) * n) by nia. lia.
  - apply sorted_firstn, sorted_skipn, newestFirst_sorted.
  - intros kv Hkv. apply In_firstn, In_skipn in Hkv. rewrite newestFirst_In in Hkv.
    unfold rows, JobSeekerReads.mine in Hkv. apply filter_In in Hkv.
    destruct Hkv as [Hin Hown]. apply Z.eqb_eq in Hown.
    destruct kv as [k a]. apply scan_spec in Hin. split; assumption.
  - cbn [JobSeekerReads.hasNext]. unfold JsNumber.lt, Js.ofZ.
    rewrite negb_true_iff, <- not_true_iff_false, Qle_bool_iff, <- Zle_Qle.
    set (total := Z.of_nat (length rows)).
    assert (Hn0 : 0 < n) by lia.
    pose proof (Z.div_mod (total + n - 1) n ltac:(lia)) as Hdm.
    pose proof (Z.mod_pos_bound (total + n - 1) n Hn0) as Hbound.
    split; intros H; nia.
  - cbn [JobSeekerReads.hasPrev]. apply Z.ltb_lt.
Qed.

Lemma pages_of_applications_witness :
  exists applications pg,
    JobSeekerReads.getMyApplications (Some 21) None (Some 1) (Some 10)
      (Accounts.tables office)
    = (mkResponse 200 true EmptyString, Some (applications, pg))
    /\ JobSeekerReads.hasNext pg = false.
Proof.
  destruct (pages_of_applications 21 1 10 (Accounts.tables office)
              ltac:(lia) ltac:(lia) ltac:(lia))
    as (applications & pg & Hrun & _ & _ & _ & _ & _ & _ & Hnext & _).
  exists applications, pg. split; [exact Hrun|].
  destruct (JobSeekerReads.hasNext pg); [|reflexivity].
  exfalso. assert (Hlt : 1 * 10 < Z.of_nat
                     (length (JobSeekerReads.mine 21 (Accounts.tables office))))
    by now apply Hnext.
  vm_compute in Hlt. discriminate Hlt.
Defined.

(** ** Signing up and logging in *)

Lemma findByEmail_None (email : string) (t : gmap Z Accounts.User) :
  AuthController.findByEmail email t = None ->
  forall k user, t !! k = Some user -> Accounts.user_email user <> email.
Proof.
  unfold AuthController.findByEmail. intros Hnone k user Hk Heq.
  apply scan_spec in Hk. pose proof (find_none _ _ Hnone _ Hk) as Hno. simpl in Hno.
  apply String.eqb_neq in Hno. contradiction.
Qed.

Lemma findByEmail_inserted (email : string) (t : gmap Z Accounts.User) (k : Z)
    (user : Accounts.User) :
  AuthController.findByEmail email t = None -> Accounts.user_email user = email ->
  AuthController.findByEmail email (<[k := user]> t) = Some (k, user).
Proof.
  intros Hnone Hemail. unfold AuthController.findByEmail. apply find_unique.
  - apply scan_spec. apply lookup_insert_eq.
  - simpl. now apply String.eqb_eq.
  - intros [k' user'] Hin Hp. simpl in Hp. apply String.eqb_eq in Hp.
    apply scan_spec in Hin. destruct (decide (k' = k)) as [->|Hne].
    + rewrite lookup_insert_eq in Hin. congruence.
    + rewrite lookup_insert_ne in Hin by congruence.
      exfalso. exact (findByEmail_None email t Hnone k' user' Hin Hp).
Qed.

(** X19. Signing up and logging in compose: a signup with a name, an
    email that no stored user has, a password and a role that is EMPLOYER
    or JOB_SEEKER in any letter case answers 201 and stores the user with
    the role in upper case and the hashed password; logging in with that
    email and password then answers 200 with a token that [authenticate]
    accepts as that user; another password is refused with 401, and a
    second signup with the email is refused with 409 and stores nothing. *)
Theorem signup_then_login (hash : string -> string -> string)
    (compare : string -> string -> bool) (salt name email password role : string)
    (r : Accounts.Role) (st : Accounts.Store) :
  (forall s p, compare p (hash s p) = true) ->
  name <> EmptyString -> email <> EmptyString -> password <> EmptyString ->
  AuthController.roleOfString (AuthController.toUpperCase role) = Some r ->
  AuthController.findByEmail email (Accounts.users st) = None ->
  let body := AuthController.mkSignupInput (Some name) (Some email) (Some password)
                (Some role) in
  let id := nextKey (Accounts.users st) in
  let signedUp := AuthController.handleSignup hash salt body st in
  signedUp.1 = ok 201 "Signup successful"
  /\ Accounts.users signedUp.2
     = <[id := Accounts.mkUser name email (hash salt password) None None r]>
         (Accounts.users st)
  /\ AuthController.handleLogin compare (Some email) (Some password) signedUp.2
     = (ok 200 "Login successful", Some (AuthMiddleware.Verified id r))
  /\ AuthMiddleware.authenticate (AuthMiddleware.Verified id r) signedUp.2
     = inr (AuthMiddleware.mkReqUser id r None None None)
  /\ (forall other, other <> EmptyString -> compare other (hash salt password) = false ->
        AuthController.handleLogin compare (Some email) (Some other) signedUp.2
        = (fail 401 "Invalid password.", None))
  /\ (forall salt' body',
        AuthController.su_email body' = Some email ->
        let again := AuthController.handleSignup hash salt' body' signedUp.2 in
        status again.1 ∈ [400; 409] /\ again.2 = signedUp.2).
Proof.
  intros Hbcrypt Hname Hemail Hpassword Hrole Hnew. cbv zeta.
  assert (Htruthy : forall s, s <> EmptyString -> Js.truthyString (Some s) = true).
  { intros s Hs. simpl. apply negb_true_iff. now apply String.eqb_neq. }
  assert (Hrole' : role <> EmptyString) by (intros ->; discriminate Hrole).
  assert (Hsigned : AuthController.handleSignup hash salt
                      (AuthController.mkSignupInput (Some name) (Some email)
                         (Some password) (Some role)) st
                    = (ok 201 "Signup successful",
                       Accounts.setUsers
                         (<[nextKey (Accounts.users st) :=
                              Accounts.mkUser name email (hash salt password) None None r]>
                            (Accounts.users st)) st)).
  { unfold AuthController.handleSignup.
    cbn [AuthController.su_name AuthController.su_email AuthController.su_password
         AuthController.su_role default from_option id].
    rewrite !Htruthy by assumption. cbn [negb orb]. rewrite Hrole, Hnew. reflexivity. }
  rewrite Hsigned. cbn [fst snd]. set (uid := nextKey (Accounts.users st)).
  set (user := Accounts.mkUser name email (hash salt password) None None r).
  assert (Hfound : AuthController.findByEmail email
                     (Accounts.users (Accounts.setUsers (<[uid := user]> (Accounts.users st)) st))
                   = Some (uid, user))
    by (apply findByEmail_inserted; [exact Hnew|reflexivity]).
  split; [reflexivity|]. split; [reflexivity|]. split; [|split; [|split]].
  - unfold AuthController.handleLogin. rewrite !Htruthy by assumption.
    cbn [negb orb default from_option id]. rewrite Hfound.
    cbn [Accounts.user_password Accounts.user_role user]. unfold user.
    cbn [Accounts.user_password Accounts.user_role]. rewrite Hbcrypt. reflexivity.
  - apply (authenticate_account uid user r); [apply lookup_insert_eq|reflexivity].
  - intros other Hother Hwrong. unfold AuthController.handleLogin.
    rewrite !Htruthy by assumption. cbn [negb orb default from_option id].
    rewrite Hfound. unfold user. cbn [Accounts.user_password]. rewrite Hwrong.
    reflexivity.
  - intros salt' body' Hsame. cbv zeta. unfold AuthController.handleSignup.
    destruct (_ || _); [split; [list_mem|reflexivity]|].
    destruct (AuthController.roleOfString
                (AuthController.toUpperCase
                   (default EmptyString (AuthController.su_role body'))));
      [|split; [list_mem|reflexivity]].
    rewrite Hsame. cbn [default from_option id]. rewrite Hfound.
    split; [list_mem|reflexivity].
Qed.

Lemma signup_then_login_witness :
  let signedUp := AuthController.handleSignup sampleHash "salt" newcomer office in
  signedUp.1 = ok 201 "Signup successful"
  /\ AuthController.handleLogin sampleCompare (Some "ida@example.org")
       (Some "correct horse") signedUp.2
     = (ok 200 "Login successful", Some (AuthMiddleware.Verified 5 Accounts.EMPLOYER)).
Proof.
  cbv zeta.
  pose proof (signup_then_login sampleHash sampleCompare "salt" "Ida" "ida@example.org"
                "correct horse" "employer" Accounts.EMPLOYER office
                ltac:(intros s p; unfold sampleCompare, sampleHash; apply String.eqb_refl)
                ltac:(discriminate) ltac:(discriminate) ltac:(discriminate)
                ltac:(vm_compute; reflexivity) ltac:(vm_compute; reflexivity)) as H.
  cbv zeta in H. destruct H as (Hsigned & _ & Hlogin & _).
  split; [exact Hsigned|]. exact Hlogin.
Defined.

(** ** Rates of the employer's dashboard *)

Lemma countFor_counts (s : ApplicationStatus) (employerId companyId : Z) (db : Db) :
  EmployerInsights.countFor s employerId companyId db
  = EmployerDashboard.countOf s (EmployerDashboard.selected employerId companyId db).
Proof.
  unfold EmployerInsights.countFor.
  change (EmployerDashboard.applicationStatusStats employerId companyId db)
    with (EmployerController.groupByStatus
            (EmployerDashboard.selected employerId companyId db)).
  apply orZero_groupByStatus.
Qed.

Lemma countOf_le (s : ApplicationStatus) (l : list Application) :
  (EmployerDashboard.countOf s l <= length l)%nat.
Proof.
  unfold EmployerDashboard.countOf. induction l as [|a l IH]; simpl; [lia|].
  destruct (bool_decide _); simpl; lia.
Qed.

Lemma sharesOf_spec (x : Binary64.Number) (part total : nat) :
  sharesOf x part total = true ->
  exists z, Binary64.integerOf x = Some z /\ 0 <= z <= 100
            /\ nearestShare z (Z.of_nat part) (Z.of_nat total).
Proof.
  unfold sharesOf, nearestShare. destruct (Binary64.integerOf x) as [z|]; [|discriminate].
  rewrite !andb_true_iff, !Z.leb_le. intros [[Hlow Hhigh] Hnear].
  exists z. repeat split; assumption.
Qed.

Lemma sameWhole_spec (x y : Binary64.Number) (z : Z) :
  sameWhole x y = true -> Binary64.integerOf y = Some z -> Binary64.integerOf x = Some z.
Proof.
  unfold sameWhole. destruct (Binary64.integerOf x) as [a|]; [|discriminate].
  destruct (Binary64.integerOf y) as [b|]; [|discriminate].
  intros Hab [= <-]. apply Z.eqb_eq in Hab. congruence.
Qed.

(** The rounding of the rates, evaluated for every total up to
    [checkedTotal] and every part of it. *)
Lemma rates_evaluated :
  forallb ratesChecked (seq 1 checkedTotal) = true.
Proof. vm_compute. reflexivity. Qed.

Lemma rates_of (part total : nat) :
  (part <= total)%nat -> (0 < total <= checkedTotal)%nat ->
  let rounded :=
    Binary64.Math_round
      (Binary64.mul (Binary64.div (Binary64.ofNat part) (Binary64.ofNat total))
         (Binary64.ofZ 100)) in
  sharesOf rounded part total = true
  /\ sameWhole (EmployerDashboard.percentage part total) rounded = true
  /\ sharesOf
       (Binary64.Math_round
          (Binary64.mul
             (Binary64.div
                (Binary64.sub (Binary64.ofNat total) (Binary64.ofNat (total - part)))
                (Binary64.ofNat total))
             (Binary64.ofZ 100)))
       part total = true.
Proof.
  intros Hpart Htotal. cbv zeta.
  pose proof rates_evaluated as Hall. rewrite forallb_forall in Hall.
  assert (Hin : In total (seq 1 checkedTotal)) by (apply in_seq; lia).
  specialize (Hall total Hin). unfold ratesChecked in Hall.
  rewrite forallb_forall in Hall.
  assert (Hin' : In part (seq 0 (S total))) by (apply in_seq; lia).
  specialize (Hall part Hin'). cbv zeta in Hall.
  rewrite !andb_true_iff in Hall. tauto.
Qed.

Lemma bucket_of (employerId companyId : Z) (db : Db) (b : EmployerDashboard.StatusBucket) :
  In b (EmployerDashboard.statusDistribution employerId companyId db) ->
  let rows := EmployerDashboard.selected employerId companyId db in
  let total := EmployerDashboard.totalApplicants employerId companyId db in
  EmployerDashboard.bucket_count b
  = EmployerDashboard.countOf (EmployerDashboard.bucket_status b) rows
  /\ (0 < EmployerDashboard.bucket_count b <= total)%nat
  /\ EmployerDashboard.bucket_percentage b
     = EmployerDashboard.percentage (EmployerDashboard.bucket_count b) total.
Proof.
  intros Hb. cbv zeta. unfold EmployerDashboard.statusDistribution in Hb.
  apply in_map_iff in Hb as ([s n] & <- & Hstat). simpl.
  pose proof (stats_counts employerId companyId db s n Hstat) as Hn.
  unfold EmployerDashboard.applicationStatusStats in Hstat.
  apply filter_In in Hstat as [Hstat _].
  apply in_map_iff in Hstat as (s' & [= -> <-] & _).
  split; [reflexivity|]. split; [exact Hn | reflexivity].
Qed.

(** X20. The percentages of the employer's dashboard.  No percentage of
    the status chart is [NaN]; without applications the chart is empty
    and both rates are 0.  For up to [checkedTotal] applications: every
    percentage of the chart is a whole number from 0 to 100 nearest to
    100 * count / total; [conversionRate] is the number the chart shows
    for SHORTLISTED; [responseRate] is a whole number from 0 to 100
    nearest to the percentage of the applications that are not PENDING.
    Which of two nearest numbers is taken is left open: the doubles
    decide it. *)
Theorem dashboard_rates (employerId companyId : Z) (db : Db) :
  let total := EmployerDashboard.totalApplicants employerId companyId db in
  let rows := EmployerDashboard.selected employerId companyId db in
  let shortlisted := EmployerDashboard.countOf SHORTLISTED rows in
  let pending := EmployerDashboard.countOf PENDING rows in
  let chart := EmployerDashboard.statusDistribution employerId companyId db in
  (forall b, In b chart ->
     Binary64.isNaN (EmployerDashboard.bucket_percentage b) = false)
  /\ (total = 0%nat ->
      chart = []
      /\ EmployerInsights.conversionRate employerId companyId db = Binary64.ofZ 0
      /\ EmployerInsights.responseRate employerId companyId db = Binary64.ofZ 0)
  /\ ((total <= checkedTotal)%nat ->
      (forall b, In b chart ->
         exists z,
           Binary64.integerOf (EmployerDashboard.bucket_percentage b) = Some z
           /\ 0 <= z <= 100
           /\ nearestShare z (Z.of_nat (EmployerDashboard.bucket_count b)) (Z.of_nat total))
      /\ (exists z,
            Binary64.integerOf (EmployerInsights.conversionRate employerId companyId db)
            = Some z
            /\ 0 <= z <= 100
            /\ nearestShare z (Z.of_nat shortlisted) (Z.of_nat total)
            /\ forall b, In b chart ->
                 EmployerDashboard.bucket_status b = SHORTLISTED ->
                 Binary64.integerOf (EmployerDashboard.bucket_percentage b) = Some z)
      /\ (exists r,
            Binary64.integerOf (EmployerInsights.responseRate employerId companyId db)
            = Some r
            /\ 0 <= r <= 100
            /\ nearestShare r (Z.of_nat total - Z.of_nat pending) (Z.of_nat total))).
Proof.
  cbv zeta.
  set (total := EmployerDashboard.totalApplicants employerId companyId db).
  set (rows := EmployerDashboard.selected employerId companyId db).
  assert (Hshort : (EmployerDashboard.countOf SHORTLISTED rows <= total)%nat)
    by apply countOf_le.
  assert (Hpend : (EmployerDashboard.countOf PENDING rows <= total)%nat)
    by apply countOf_le.
  split; [|split].
  - intros b Hb. destruct (bucket_of employerId companyId db b Hb) as (_ & _ & ->).
    apply percentage_never_NaN.
  - intros Hzero. split; [|split].
    + destruct (EmployerDashboard.statusDistribution employerId companyId db)
        as [|b l] eqn:Hd; [reflexivity|].
      assert (Hb : In b (EmployerDashboard.statusDistribution employerId companyId db))
        by (rewrite Hd; left; reflexivity).
      destruct (bucket_of employerId companyId db b Hb) as (_ & Hn & _).
      fold total in Hn. lia.
    + unfold EmployerInsights.conversionRate. fold total. now rewrite Hzero.
    + unfold EmployerInsights.responseRate. fold total. now rewrite Hzero.
  - intros Hbound. split; [|split].
    + intros b Hb.
      destruct (bucket_of employerId companyId db b Hb) as (_ & Hn & ->).
      fold total in Hn |- *.
      destruct (rates_of (EmployerDashboard.bucket_count b) total ltac:(lia) ltac:(lia))
        as (Hshare & Hsame & _).
      apply sharesOf_spec in Hshare as (z & Hz & Hrange & Hnear).
      exists z. split; [exact (sameWhole_spec _ _ z Hsame Hz)|]. split; assumption.
    + unfold EmployerInsights.conversionRate. rewrite countFor_counts. fold total rows.
      destruct (0 <? total)%nat eqn:Hpos.
      * apply Nat.ltb_lt in Hpos.
        destruct (rates_of (EmployerDashboard.countOf SHORTLISTED rows) total Hshort
                    ltac:(lia)) as (Hshare & Hsame & _).
        apply sharesOf_spec in Hshare as (z & Hz & Hrange & Hnear).
        exists z. split; [exact Hz|]. split; [exact Hrange|]. split; [exact Hnear|].
        intros b Hb Hstatus.
        destruct (bucket_of employerId companyId db b Hb) as (Hcount & _ & ->).
        fold total rows in Hcount |- *. rewrite Hcount, Hstatus.
        exact (sameWhole_spec _ _ z Hsame Hz).
      * apply Nat.ltb_ge in Hpos. exists 0. split; [reflexivity|]. split; [lia|].
        split; [unfold nearestShare; lia|].
        intros b Hb _. destruct (bucket_of employerId companyId db b Hb) as (_ & Hn & _).
        fold total in Hn. lia.
    + unfold EmployerInsights.responseRate. rewrite countFor_counts. fold total rows.
      destruct (0 <? total)%nat eqn:Hpos.
      * apply Nat.ltb_lt in Hpos.
        set (pending := EmployerDashboard.countOf PENDING rows) in *.
        destruct (rates_of (total - pending) total ltac:(lia) ltac:(lia))
          as (_ & _ & Hshare).
        replace (total - (total - pending))%nat with pending in Hshare by lia.
        apply sharesOf_spec in Hshare as (r & Hr & Hrange & Hnear).
        exists r. split; [exact Hr|]. split; [exact Hrange|].
        rewrite Nat2Z.inj_sub in Hnear by lia. exact Hnear.
      * apply Nat.ltb_ge in Hpos. exists 0. split; [reflexivity|]. split; [lia|].
        unfold nearestShare. lia.
Qed.

(** The growth, evaluated for every two counts up to [checkedTotal]. *)
Lemma growth_evaluated :
  forallb (fun total => forallb (fun thisMonth => growthChecked thisMonth total)
                          (seq 0 (S checkedTotal)))
          (seq 0 (S checkedTotal)) = true.
Proof. vm_compute. reflexivity. Qed.

(** X21. Monthly growth compares the applications of this month with a
    fifth of all earlier ones.  For counts up to [checkedTotal]: with [t]
    applications this month out of [total], the result is 0 when all came
    this month ([total <= t], the empty case included), so the answer 100
    of the code's second test is never given; otherwise, with
    [p = total - t] earlier ones, it is a whole number nearest to
    [500 t / p - 100], never below -100, and -100 when none came this
    month.  Which of two nearest numbers is taken is left open: the
    doubles decide it. *)
Theorem monthly_growth (t total : nat) :
  (t <= checkedTotal)%nat -> (total <= checkedTotal)%nat ->
  exists g,
    Binary64.integerOf
      (EmployerInsights.calculateMonthlyGrowth (Binary64.ofNat t) (Binary64.ofNat total))
    = Some g
    /\ ((total <= t)%nat -> g = 0)
    /\ ((t < total)%nat ->
        let p := Z.of_nat total - Z.of_nat t in
        Z.abs (p * g - (500 * Z.of_nat t - 100 * p)) * 2 <= p
        /\ -100 <= g
        /\ (t = 0%nat -> g = -100)).
Proof.
  intros Ht Htotal.
  pose proof growth_evaluated as Hall. rewrite forallb_forall in Hall.
  assert (Hin : In total (seq 0 (S checkedTotal))) by (apply in_seq; lia).
  specialize (Hall total Hin). cbv beta in Hall. rewrite forallb_forall in Hall.
  assert (Hin' : In t (seq 0 (S checkedTotal))) by (apply in_seq; lia).
  specialize (Hall t Hin'). unfold growthChecked in Hall.
  destruct (Binary64.integerOf _) as [g|]; [|discriminate].
  exists g. split; [reflexivity|].
  destruct (total <=? t)%nat eqn:Hle.
  - apply Nat.leb_le in Hle. apply Z.eqb_eq in Hall. split; [intros _; exact Hall|].
    intros Hlt. lia.
  - apply Nat.leb_gt in Hle. split; [intros Hge; lia|].
    intros _. cbv zeta. rewrite !andb_true_iff in Hall.
    destruct Hall as [[Hnear Hlow] Hnone].
    apply Z.leb_le in Hnear, Hlow. split; [exact Hnear|]. split; [exact Hlow|].
    intros ->. simpl in Hnone. now apply Z.eqb_eq in Hnone.
Qed.

Lemma monthly_growth_witness :
  exists g,
    Binary64.integerOf
      (EmployerInsights.calculateMonthlyGrowth (Binary64.ofNat 1) (Binary64.ofNat 9))
    = Some g
    /\ -100 <= g.
Proof.
  destruct (monthly_growth 1 9 ltac:(vm_compute; lia) ltac:(vm_compute; lia))
    as (g & Hg & _ & Hlater).
  exists g. split; [exact Hg|]. apply Hlater. lia.
Defined.

(** ** Deleting an employer account *)

Lemma deleteApplicationsWhere_spec (gone : Application -> bool) (db : Db) :
  let db' := JobPosting.deleteApplicationsWhere gone db in
  jobs db' = jobs db /\ formFields db' = formFields db
  /\ companies db' = companies db /\ employers db' = employers db
  /\ (forall k a, applications db' !! k = Some a
        <-> applications db !! k = Some a /\ gone a = false)
  /\ (forall r, In r (responses db') -> In r (responses db)).
Proof.
  cbv zeta. unfold JobPosting.deleteApplicationsWhere. simpl.
  do 4 (split; [reflexivity|]). split.
  - intros k a. rewrite map_lookup_filter_Some. reflexivity.
  - intros r Hr. apply filter_In in Hr. tauto.
Qed.

Lemma deleteJobsWhere_spec (gone : Job -> bool) (db : Db) :
  let db' := EmployerAccount.deleteJobsWhere gone db in
  let goneId jobId :=
    match jobs db !! jobId with Some job => gone job | None => false end in
  (forall k job, jobs db' !! k = Some job <-> jobs db !! k = Some job /\ gone job = false)
  /\ (forall f, In f (formFields db') <-> In f (formFields db) /\ goneId (field_jobId f) = false)
  /\ (forall k a, applications db' !! k = Some a
        <-> applications db !! k = Some a /\ goneId (app_jobId a) = false)
  /\ (forall r, In r (responses db') -> In r (responses db))
  /\ companies db' = companies db /\ employers db' = employers db.
Proof.
  cbv zeta. unfold EmployerAccount.deleteJobsWhere.
  destruct (deleteApplicationsWhere_spec
              (fun a => match jobs db !! app_jobId a with
                        | Some job => gone job
                        | None => false
                        end) db) as (Hjobs & Hfields & Hcompanies & Hemployers & Happs & Hrs).
  remember (JobPosting.deleteApplicationsWhere _ db) as db1 eqn:E. clear E.
  simpl. split; [|split; [|split; [|split; [|split]]]].
  - intros k job. rewrite map_lookup_filter_Some. reflexivity.
  - intros f. rewrite filter_In, negb_true_iff, Hfields. reflexivity.
  - exact Happs.
  - intros r Hr. apply filter_In in Hr. apply Hrs. tauto.
  - exact Hcompanies.
  - exact Hemployers.
Qed.

Lemma postedBy_same_jobs (e : Z) (db db' : Db) (jobId : Z) :
  jobs db' = jobs db ->
  EmployerController.postedBy e db' jobId = EmployerController.postedBy e db jobId.
Proof. unfold EmployerController.postedBy. now intros ->. Qed.

(** X22. Deleting an employer account through [DELETE /account] answers
    200 with the number of the employer's jobs in the message and removes
    the user, the employer profile and every job the employer posted, with
    the form fields and the applications of those jobs; the jobs of the
    other employers and their form fields, the other employers and the
    companies stay. The token of the deleted account is answered with 404
    from then on. *)
Theorem deleted_account_leaves_nothing (st : Accounts.Store) (id e : Z)
    (user : Accounts.User) (row : Employer) :
  Accounts.users st !! id = Some user -> Accounts.user_role user = Accounts.EMPLOYER ->
  Accounts.employerOfUser id (employers (Accounts.tables st)) = Some (e, row) ->
  let token := AuthMiddleware.Verified id Accounts.EMPLOYER in
  let out := EmployerRoutes.deleteAccount token st in
  let db := Accounts.tables st in
  let db' := Accounts.tables out.2 in
  out.1 = ok 200 (EmployerAccount.deleted (length (EmployerController.jobsOf e db)))
  /\ Accounts.users out.2 = delete id (Accounts.users st)
  /\ employers db' = delete e (employers db)
  /\ companies db' = companies db
  /\ (forall k job, jobs db' !! k = Some job
        <-> jobs db !! k = Some job /\ job_employerId job <> e)
  /\ (forall f, In f (formFields db')
        <-> In f (formFields db) /\ EmployerController.postedBy e db (field_jobId f) = false)
  /\ (forall k a, applications db' !! k = Some a ->
        applications db !! k = Some a
        /\ EmployerController.postedBy e db (app_jobId a) = false)
  /\ (forall r, In r (responses db') -> In r (responses db))
  /\ AuthMiddleware.authEmployer token out.2 = inl (fail 404 "User not found.").
Proof.
  intros Huser Hrole Hfound. cbv zeta.
  unfold EmployerRoutes.deleteAccount.
  rewrite (authEmployer_account id user st Huser Hrole).
  unfold EmployerAccount.deleteEmployerAccount, AuthMiddleware.employerRequest.
  cbn [AuthMiddleware.req_role AuthMiddleware.req_id].
  rewrite bool_decide_eq_true_2 by reflexivity. cbn [negb]. rewrite Hfound.
  unfold EmployerAccount.transaction.
  set (db := Accounts.tables st).
  set (db1 := setResponses _ db).
  assert (H1 : jobs db1 = jobs db /\ formFields db1 = formFields db
               /\ applications db1 = applications db /\ companies db1 = companies db
               /\ employers db1 = employers db
               /\ forall r, In r (responses db1) -> In r (responses db)).
  { unfold db1. simpl. repeat split. intros r Hr. apply filter_In in Hr. tauto. }
  destruct H1 as (Hjobs1 & Hfields1 & Happs1 & Hcompanies1 & Hemployers1 & Hrs1).
  destruct (deleteApplicationsWhere_spec
              (fun a => EmployerController.postedBy e db1 (app_jobId a)) db1)
    as (Hjobs2 & Hfields2 & Hcompanies2 & Hemployers2 & Happs2 & Hrs2).
  remember (JobPosting.deleteApplicationsWhere _ db1) as db2 eqn:E2. clear E2.
  set (db3 := JobController.deleteWhere _ db2).
  assert (H3 : jobs db3 = jobs db2 /\ applications db3 = applications db2
               /\ companies db3 = companies db2 /\ employers db3 = employers db2
               /\ forall r, In r (responses db3) -> In r (responses db2)).
  { unfold db3, JobController.deleteWhere. simpl. repeat split.
    intros r Hr. apply filter_In in Hr. tauto. }
  destruct H3 as (Hjobs3 & Happs3 & Hcompanies3 & Hemployers3 & Hrs3).
  assert (Hfields3 : forall f, In f (formFields db3)
            <-> In f (formFields db2)
                /\ EmployerController.postedBy e db2 (field_jobId f) = false)
    by (intros f; apply deleteWhere_fields).
  destruct (deleteJobsWhere_spec (fun job => job_employerId job =? e) db3)
    as (Hjobs4 & Hfields4 & Happs4 & Hrs4 & Hcompanies4 & Hemployers4).
  remember db3 as db3' eqn:E3. clear E3 db3.
  remember (EmployerAccount.deleteJobsWhere _ db3') as db4 eqn:E4. clear E4.
  assert (Hemployers : employers db4 = employers db) by congruence.
  pose proof Hfound as Hfound'. fold db in Hfound'.
  rewrite Hemployers, Hfound'.
  rewrite bool_decide_eq_true_2.
  2:{ intros k job Hk. apply Hjobs4 in Hk. destruct Hk as [_ Hk].
      now apply Z.eqb_neq. }
  rewrite Huser.
  destruct (deleteApplicationsWhere_spec
              (fun a =>
                 match Accounts.jobSeekers st !! app_seekerId a with
                 | Some seeker => Accounts.seeker_userId seeker =? id
                 | None => false
                 end) (setEmployers (delete e (employers db)) db4))
    as (Hjobs6 & Hfields6 & Hcompanies6 & Hemployers6 & Happs6 & Hrs6).
  unfold EmployerAccount.deleteUser.
  cbn [Accounts.tables Accounts.jobSeekers Accounts.users Accounts.setTables fst snd].
  remember (JobPosting.deleteApplicationsWhere _ _) as db6 eqn:E6. clear E6.
  simpl in Hjobs6, Hfields6, Hcompanies6, Hemployers6, Happs6, Hrs6.
  split; [reflexivity|]. split; [reflexivity|]. split; [exact Hemployers6|].
  split; [congruence|].
  assert (Hposted : forall jobId,
            EmployerController.postedBy e db2 jobId = EmployerController.postedBy e db jobId
            /\ EmployerController.postedBy e db1 jobId
               = EmployerController.postedBy e db jobId).
  { intros jobId. split; apply postedBy_same_jobs; congruence. }
  split; [|split; [|split; [|split]]].
  - intros k job. rewrite Hjobs6, Hjobs4, Hjobs3, Hjobs2, Hjobs1, Z.eqb_neq. reflexivity.
  - intros f. rewrite Hfields6, Hfields4, Hfields3, Hfields2, Hfields1.
    rewrite (proj1 (Hposted _)). split; [tauto|]. intros [Hf Hnot].
    split; [split; assumption|].
    rewrite Hjobs3, Hjobs2, Hjobs1. unfold EmployerController.postedBy in Hnot.
    destruct (jobs db !! field_jobId f); [exact Hnot|reflexivity].
  - intros k a Hk. apply Happs6 in Hk. destruct Hk as [Hk _]. simpl in Hk.
    apply Happs4 in Hk. destruct Hk as [Hk _]. rewrite Happs3 in Hk.
    apply Happs2 in Hk. destruct Hk as [Hk Hnot]. rewrite Happs1 in Hk.
    rewrite (proj2 (Hposted _)) in Hnot. split; assumption.
  - intros r Hr. apply Hrs6 in Hr. simpl in Hr. auto.
  - unfold AuthMiddleware.authEmployer.
    rewrite bool_decide_eq_true_2 by reflexivity.
    cbn [Accounts.users]. rewrite lookup_delete_eq. reflexivity.
Qed.

Lemma deleted_account_leaves_nothing_witness :
  let token := AuthMiddleware.Verified 2 Accounts.EMPLOYER in
  let out := EmployerRoutes.deleteAccount token office in
  out.1 = ok 200 "Employer account deleted successfully. Removed 1 jobs and all associated data."
  /\ AuthMiddleware.authEmployer token out.2 = inl (fail 404 "User not found.").
Proof.
  cbv zeta.
  pose proof (deleted_account_leaves_nothing office 2 12
                (Accounts.mkUser "Max" "max@example.org" "h2" (Some "555 0102")
                   (Some "Oslo") Accounts.EMPLOYER)
                (mkEmployer 2 (Some 5) ADMIN (Some 40))
                ltac:(vm_compute; reflexivity) ltac:(reflexivity)
                ltac:(vm_compute; reflexivity)) as H.
  cbv zeta in H. destruct H as (Hanswer & _ & _ & _ & _ & _ & _ & _ & Hdead).
  split; [exact Hanswer|exact Hdead].
Defined.

(** ** The seeker's profile *)

Lemma seekerOfUser_unique (id sid : Z) (row : Accounts.JobSeeker)
    (t : gmap Z Accounts.JobSeeker) :
  t !! sid = Some row -> Accounts.seeker_userId row = id ->
  (forall s' row', t !! s' = Some row' -> Accounts.seeker_userId row' = id -> s' = sid) ->
  Accounts.seekerOfUser id t = Some (sid, row).
Proof.
  intros Hrow Hid Huniq. unfold Accounts.seekerOfUser. apply find_unique.
  - now apply scan_spec.
  - simpl. now apply Z.eqb_eq.
  - intros [s' row'] Hin Hp. simpl in Hp. apply Z.eqb_eq in Hp.
    apply scan_spec in Hin. assert (s' = sid) by (eapply Huniq; eassumption).
    subst s'. congruence.
Qed.

Lemma seekerOfUser_None (id : Z) (t : gmap Z Accounts.JobSeeker) :
  Accounts.seekerOfUser id t = None ->
  forall s row, t !! s = Some row -> Accounts.seeker_userId row <> id.
Proof.
  unfold Accounts.seekerOfUser. intros Hnone s row Hrow.
  apply scan_spec in Hrow. pose proof (find_none _ _ Hnone _ Hrow) as Hno.
  simpl in Hno. now apply Z.eqb_neq.
Qed.

Lemma seekerOfUser_Some (id sid : Z) (row : Accounts.JobSeeker)
    (t : gmap Z Accounts.JobSeeker) :
  Accounts.seekerOfUser id t = Some (sid, row) ->
  t !! sid = Some row /\ Accounts.seeker_userId row = id.
Proof.
  unfold Accounts.seekerOfUser. intros Hfind. apply find_some in Hfind.
  destruct Hfind as [Hin Huser]. apply scan_spec in Hin. simpl in Huser.
  apply Z.eqb_eq in Huser. split; assumption.
Qed.

Lemma seekerOfUser_inserted (id k : Z) (row : Accounts.JobSeeker)
    (t : gmap Z Accounts.JobSeeker) :
  (forall s' row', t !! s' = Some row' -> Accounts.seeker_userId row' = id -> s' = k) ->
  Accounts.seeker_userId row = id ->
  Accounts.seekerOfUser id (<[k := row]> t) = Some (k, row).
Proof.
  intros Honly Hid. apply seekerOfUser_unique.
  - apply lookup_insert_eq.
  - exact Hid.
  - intros s' row' Hrow' Hid'. destruct (decide (s' = k)) as [->|Hne]; [reflexivity|].
    rewrite lookup_insert_ne in Hrow' by congruence. exact (Honly s' row' Hrow' Hid').
Qed.

Lemma guarded_account {A} (id sid : Z) (user : Accounts.User) (row : Accounts.JobSeeker)
    (st : Accounts.Store) (refused : Response -> A) (handler : AuthMiddleware.ReqUser -> A) :
  Accounts.users st !! id = Some user -> Accounts.user_role user = Accounts.JOB_SEEKER ->
  Accounts.seekerOfUser id (Accounts.jobSeekers st) = Some (sid, row) ->
  SeekerRoutes.guarded (AuthMiddleware.Verified id Accounts.JOB_SEEKER) st refused handler
  = handler (AuthMiddleware.mkReqUser id Accounts.JOB_SEEKER None (Some sid) None).
Proof.
  intros Huser Hrole Hseeker.
  unfold SeekerRoutes.guarded, AuthMiddleware.authJobSeeker.
  rewrite bool_decide_eq_true_2 by reflexivity. rewrite Huser.
  rewrite bool_decide_eq_true_2 by exact Hrole.
  unfold AuthMiddleware.requireCompleteProfile, AuthMiddleware.seekerRequest.
  cbn [AuthMiddleware.req_role AuthMiddleware.req_id]. rewrite Hseeker. reflexivity.
Qed.

Lemma seeker_status_of (id : Z) (user : Accounts.User) (role : Accounts.Role)
    (st : Accounts.Store) :
  Accounts.users st !! id = Some user -> Accounts.user_role user = role ->
  (SeekerProfileRoutes.getProfileStatus (AuthMiddleware.Verified id role) st).2
  = Some (JobSeekerProfile.profileStatus
            (JobSeekerProfile.mkUser (Accounts.user_name user) (Accounts.user_phone user)
               (Accounts.user_location user)
               ((fun kv =>
                   JobSeekerProfile.mkSeeker (Accounts.seeker_skills kv.2)
                     (JobSeekerAccount.idsOf Accounts.edu_seekerId kv.1
                        (Accounts.education st))
                     (JobSeekerAccount.idsOf (fun s => s) kv.1 (Accounts.experience st))
                     (JobSeekerAccount.idsOf (fun s => s) kv.1 (Accounts.projects st))
                     (List.head
                        (JobSeekerAccount.idsOf (fun s => s) kv.1 (Accounts.preferences st))))
                  <$> Accounts.seekerOfUser id (Accounts.jobSeekers st)))).
Proof.
  intros Huser Hrole. unfold SeekerProfileRoutes.getProfileStatus.
  rewrite (authenticate_account id user role st Huser Hrole).
  unfold JobSeekerAccount.checkProfileStatus, JobSeekerProfile.checkProfileStatus.
  simpl. unfold JobSeekerAccount.withSeeker. rewrite map_lookup_imap, Huser.
  reflexivity.
Qed.

(** X23. A seeker profile asks for no role and can be emptied again:
    [POST /profile] gives any signed-in account without a seeker profile,
    an employer's too, a profile with the submitted skills (201), and
    refuses a second one with 400; the profile step then counts as
    complete. For a job seeker, [PUT /profile] with an empty list of
    skills is accepted (200), and from then on the status reports the
    profile step as incomplete. *)
Theorem seeker_profile_needs_no_role (st : Accounts.Store) (id : Z) (user : Accounts.User)
    (skills : list string) :
  Accounts.users st !! id = Some user ->
  Accounts.seekerOfUser id (Accounts.jobSeekers st) = None ->
  JobSeekerAccount.createJobSeekerProfileSchema (Some skills) = true ->
  let token := AuthMiddleware.Verified id (Accounts.user_role user) in
  let k := nextKey (Accounts.jobSeekers st) in
  let created := SeekerProfileRoutes.postProfile token (Some skills) st in
  created
    = (ok 201
         "Job seeker profile created successfully. Next step: Add your education details.",
       Accounts.setJobSeekers
         (<[k := Accounts.mkJobSeeker id skills]> (Accounts.jobSeekers st)) st)
  /\ SeekerProfileRoutes.postProfile token (Some skills) created.2
     = (fail 400 "Job seeker profile already exists. Use update endpoint instead.",
        created.2)
  /\ JobSeekerProfile.jobSeekerProfile
       <$> (SeekerProfileRoutes.getProfileStatus token created.2).2 = Some true
  /\ (Accounts.user_role user = Accounts.JOB_SEEKER ->
      let emptied := SeekerProfileRoutes.putProfile token (Some []) created.2 in
      emptied.1 = ok 200 "Job seeker profile updated successfully"
      /\ Accounts.jobSeekers emptied.2
         = <[k := Accounts.mkJobSeeker id []]> (Accounts.jobSeekers st)
      /\ JobSeekerProfile.jobSeekerProfile
           <$> (SeekerProfileRoutes.getProfileStatus token emptied.2).2 = Some false).
Proof.
  intros Huser Hnone Hschema. cbv zeta.
  set (k := nextKey (Accounts.jobSeekers st)).
  set (role := Accounts.user_role user).
  assert (Hcreated : SeekerProfileRoutes.postProfile (AuthMiddleware.Verified id role)
                       (Some skills) st
            = (ok 201
                 "Job seeker profile created successfully. Next step: Add your education details.",
               Accounts.setJobSeekers
                 (<[k := Accounts.mkJobSeeker id skills]> (Accounts.jobSeekers st)) st)).
  { unfold SeekerProfileRoutes.postProfile.
    rewrite (authenticate_account id user role st Huser eq_refl).
    unfold JobSeekerAccount.createJobSeekerProfile.
    cbn [AuthMiddleware.req_id]. rewrite Hschema, Hnone, Huser. reflexivity. }
  rewrite Hcreated. cbn [fst snd].
  set (st1 := Accounts.setJobSeekers _ st).
  assert (Huser1 : Accounts.users st1 !! id = Some user) by exact Huser.
  assert (Honly : forall s' row',
            Accounts.jobSeekers st !! s' = Some row' ->
            Accounts.seeker_userId row' = id -> s' = k).
  { intros s' row' Hrow' Hid'.
    exfalso. exact (seekerOfUser_None id _ Hnone s' row' Hrow' Hid'). }
  assert (Hseeker1 : Accounts.seekerOfUser id (Accounts.jobSeekers st1)
                     = Some (k, Accounts.mkJobSeeker id skills))
    by (apply seekerOfUser_inserted; [exact Honly|reflexivity]).
  assert (Hskills : JobSeekerProfile.nonEmpty skills = true).
  { unfold JobSeekerAccount.createJobSeekerProfileSchema in Hschema.
    apply andb_true_iff in Hschema. destruct Hschema as [_ Hlen].
    apply Nat.leb_le in Hlen. destruct skills; [simpl in Hlen; lia|reflexivity]. }
  split; [reflexivity|]. split; [|split].
  - unfold SeekerProfileRoutes.postProfile.
    rewrite (authenticate_account id user role st1 Huser1 eq_refl).
    unfold JobSeekerAccount.createJobSeekerProfile.
    cbn [AuthMiddleware.req_id]. rewrite Hschema, Hseeker1. reflexivity.
  - rewrite (seeker_status_of id user role st1 Huser1 eq_refl), Hseeker1.
    cbn [fmap option_fmap option_map snd fst]. unfold JobSeekerProfile.profileStatus.
    cbn [JobSeekerProfile.jobSeekerProfile JobSeekerProfile.jobSeeker
         JobSeekerProfile.skills Accounts.seeker_skills].
    now rewrite Hskills.
  - intros Hrole. fold role in Hrole.
    assert (Hemptied : SeekerProfileRoutes.putProfile (AuthMiddleware.Verified id role)
                         (Some []) st1
              = (ok 200 "Job seeker profile updated successfully",
                 Accounts.setJobSeekers
                   (<[k := Accounts.mkJobSeeker id []]> (Accounts.jobSeekers st1)) st1)).
    { unfold SeekerProfileRoutes.putProfile. rewrite Hrole.
      rewrite (guarded_account id k user _ st1 _ _ Huser1 Hrole Hseeker1).
      unfold JobSeekerAccount.updateJobSeekerProfile.
      cbn [AuthMiddleware.req_id JobSeekerAccount.updateJobSeekerProfileSchema forallb negb].
      rewrite Hseeker1. reflexivity. }
    rewrite Hemptied. cbn [fst snd].
    split; [reflexivity|]. split.
    + unfold st1. cbn [Accounts.jobSeekers Accounts.setJobSeekers].
      apply insert_insert_eq.
    + set (st2 := Accounts.setJobSeekers _ st1).
      assert (Huser2 : Accounts.users st2 !! id = Some user) by exact Huser.
      assert (Hseeker2 : Accounts.seekerOfUser id (Accounts.jobSeekers st2)
                         = Some (k, Accounts.mkJobSeeker id [])).
      { unfold st2, st1. cbn [Accounts.jobSeekers Accounts.setJobSeekers].
        rewrite insert_insert_eq. apply seekerOfUser_inserted; [exact Honly|reflexivity]. }
      rewrite (seeker_status_of id user role st2 Huser2 eq_refl), Hseeker2.
      reflexivity.
Qed.

Lemma seeker_profile_needs_no_role_witness :
  (SeekerProfileRoutes.postProfile (AuthMiddleware.Verified 4 Accounts.EMPLOYER)
     (Some ["hiring"]) office).1
  = ok 201 "Job seeker profile created successfully. Next step: Add your education details.".
Proof.
  pose proof (seeker_profile_needs_no_role office 4
                (Accounts.mkUser "Noa" "noa@example.org" "h4" None None Accounts.EMPLOYER)
                ["hiring"] ltac:(vm_compute; reflexivity) ltac:(vm_compute; reflexivity)
                ltac:(reflexivity)) as H.
  cbv zeta in H. destruct H as (Hcreated & _).
  cbn [Accounts.user_role] in Hcreated. rewrite Hcreated. reflexivity.
Defined.

(** ** Education *)

Lemma idsOf_nonEmpty {A} (seekerOf : A -> Z) (sid k : Z) (row : A) (t : gmap Z A) :
  t !! k = Some row -> seekerOf row = sid ->
  JobSeekerProfile.nonEmpty (JobSeekerAccount.idsOf seekerOf sid t) = true.
Proof.
  intros Hrow Hsid. unfold JobSeekerAccount.idsOf.
  assert (Hin : In (k, row)
                  (List.filter (fun kv => seekerOf kv.2 =? sid) (map_to_list t))).
  { apply filter_In. split; [now apply scan_spec|]. simpl. now apply Z.eqb_eq. }
  destruct (List.filter _ _); [destruct Hin|reflexivity].
Qed.

(** X24. Education rows are added and removed for the caller's profile
    only: [POST /education] with a valid body stores a row for the
    caller's seeker profile under a fresh id (201) and the status then
    shows the education step as done; [DELETE /education/:id] of that row
    answers 200 and leaves the store as it was before the row was added.
    On a row of another seeker, both the delete and the update answer 500
    and change nothing. *)
Theorem education_round_trip (st : Accounts.Store) (id sid : Z) (user : Accounts.User)
    (row : Accounts.JobSeeker) (body : JobSeekerAccount.EducationInput) :
  Accounts.users st !! id = Some user ->
  Accounts.user_role user = Accounts.JOB_SEEKER ->
  Accounts.seekerOfUser id (Accounts.jobSeekers st) = Some (sid, row) ->
  JobSeekerAccount.educationSchema body = true ->
  let token := AuthMiddleware.Verified id Accounts.JOB_SEEKER in
  let k := nextKey (Accounts.education st) in
  let added := SeekerProfileRoutes.postEducation token body st in
  Accounts.education st !! k = None
  /\ added
     = (ok 201 "Education added successfully",
        Accounts.setEducation
          (<[k := Accounts.mkEducation sid
                    (default EmptyString (JobSeekerAccount.e_institution body))
                    (default EmptyString (JobSeekerAccount.e_degree body))]>
             (Accounts.education st)) st)
  /\ JobSeekerProfile.hasEducation
       <$> (SeekerProfileRoutes.getProfileStatus token added.2).2 = Some true
  /\ SeekerProfileRoutes.deleteEducation token (Some k) added.2
     = (ok 200 "Education deleted successfully", st)
  /\ (forall other otherRow,
        Accounts.education st !! other = Some otherRow ->
        Accounts.edu_seekerId otherRow <> sid -> other <> 0 ->
        SeekerProfileRoutes.deleteEducation token (Some other) st
        = (fail 500 "Internal server error", st)
        /\ SeekerProfileRoutes.putEducation token (Some other) body st
           = (fail 500 "Internal server error", st)).
Proof.
  intros Huser Hrole Hseeker Hschema. cbv zeta.
  set (k := nextKey (Accounts.education st)).
  set (new := Accounts.mkEducation sid _ _).
  destruct (seekerOfUser_Some _ _ _ _ Hseeker) as [Hrow Hid].
  assert (Hfresh : Accounts.education st !! k = None) by apply nextKey_fresh.
  assert (Hk : Js.truthyId (Some k) = true).
  { simpl. pose proof (nextKey_positive (Accounts.education st)) as Hpos.
    fold k in Hpos. apply negb_true_iff, Z.eqb_neq. lia. }
  assert (Hadded : SeekerProfileRoutes.postEducation
                     (AuthMiddleware.Verified id Accounts.JOB_SEEKER) body st
            = (ok 201 "Education added successfully",
               Accounts.setEducation (<[k := new]> (Accounts.education st)) st)).
  { unfold SeekerProfileRoutes.postEducation.
    rewrite (guarded_account id sid user row st _ _ Huser Hrole Hseeker).
    unfold JobSeekerAccount.addEducation. cbn [AuthMiddleware.req_jobSeekerId].
    rewrite Hschema. cbn [negb].
    rewrite bool_decide_eq_true_2 by (rewrite Hrow; eexists; reflexivity).
    reflexivity. }
  split; [exact Hfresh|]. split; [exact Hadded|]. rewrite Hadded. cbn [fst snd].
  set (st1 := Accounts.setEducation _ st).
  assert (Huser1 : Accounts.users st1 !! id = Some user)
    by (destruct st; exact Huser).
  assert (Hseeker1 : Accounts.seekerOfUser id (Accounts.jobSeekers st1) = Some (sid, row))
    by (destruct st; exact Hseeker).
  assert (Hedu1 : Accounts.education st1 = <[k := new]> (Accounts.education st))
    by (destruct st; reflexivity).
  split; [|split].
  - rewrite (seeker_status_of id user _ st1 Huser1 Hrole), Hseeker1.
    cbn [fmap option_fmap option_map snd fst]. unfold JobSeekerProfile.profileStatus.
    cbn [JobSeekerProfile.hasEducation JobSeekerProfile.jobSeeker
         JobSeekerProfile.education].
    rewrite (idsOf_nonEmpty Accounts.edu_seekerId sid k new (Accounts.education st1));
      [reflexivity| |reflexivity].
    rewrite Hedu1. apply lookup_insert_eq.
  - unfold SeekerProfileRoutes.deleteEducation.
    rewrite (guarded_account id sid user row st1 _ _ Huser1 Hrole Hseeker1).
    unfold JobSeekerAccount.deleteEducation. rewrite Hk. cbn [negb default from_option].
    rewrite Hedu1, lookup_insert_eq.
    cbn [AuthMiddleware.req_jobSeekerId JobSeekerAccount.ownRow].
    replace (Accounts.edu_seekerId new =? sid) with true
      by (symmetry; apply Z.eqb_eq; reflexivity).
    f_equal. unfold st1. destruct st. cbn [Accounts.setEducation Accounts.education] in *.
    rewrite delete_insert_id by exact Hfresh. reflexivity.
  - intros other otherRow Hother Hforeign Hnz.
    assert (Hid' : Js.truthyId (Some other) = true)
      by (simpl; now apply negb_true_iff, Z.eqb_neq).
    assert (Hown : JobSeekerAccount.ownRow (Some sid) otherRow = false)
      by (simpl; now apply Z.eqb_neq).
    split.
    + unfold SeekerProfileRoutes.deleteEducation.
      rewrite (guarded_account id sid user row st _ _ Huser Hrole Hseeker).
      unfold JobSeekerAccount.deleteEducation. rewrite Hid'.
      cbn [negb AuthMiddleware.req_jobSeekerId].
      change (default 0 (Some other)) with other.
      rewrite Hother, Hown. reflexivity.
    + unfold SeekerProfileRoutes.putEducation.
      rewrite (guarded_account id sid user row st _ _ Huser Hrole Hseeker).
      unfold JobSeekerAccount.updateEducation. rewrite Hid', Hschema.
      cbn [negb AuthMiddleware.req_jobSeekerId].
      change (default 0 (Some other)) with other.
      rewrite Hother, Hown. reflexivity.
Qed.

Lemma education_round_trip_witness :
  SeekerProfileRoutes.deleteEducation (AuthMiddleware.Verified 3 Accounts.JOB_SEEKER)
    (Some 32)
    (SeekerProfileRoutes.postEducation (AuthMiddleware.Verified 3 Accounts.JOB_SEEKER)
       degree office).2
  = (ok 200 "Education deleted successfully", office).
Proof.
  pose proof (education_round_trip office 3 21
                (Accounts.mkUser "Ann" "ann@example.org" "h3" (Some "555 0100") (Some "Bergen")
                   Accounts.JOB_SEEKER)
                (Accounts.mkJobSeeker 3 ["rocq"]) degree
                ltac:(vm_compute; reflexivity) ltac:(reflexivity)
                ltac:(vm_compute; reflexivity) ltac:(reflexivity)) as H.
  cbv zeta in H. destruct H as (_ & _ & _ & Hdeleted & _).
  replace 32 with (nextKey (Accounts.education office)) by (vm_compute; reflexivity).
  exact Hdeleted.
Defined.
